(** * Cronus wavelength endurance tester: the test-run engine of [demo.py]

    A shallow embedding of [TestWorker] (range resolution, the run loop, the
    single wavelength attempt, the power-curve sweep) and of the statistics
    and ETA bookkeeping of [ChannelPanel], followed by the code around them:
    the connectivity probe [StatusWorker], the handling of device ranges
    and of the settings dialog, the lifecycle and command log of the panel,
    the zones and application list of the configuration, and the data and
    axis of the wavelength map.

    Python floats are rationals ([Q]); Python ints are [Z]; [None]-able
    values are [option].  Everything the worker learns from outside (device
    replies, the [running] flag that another thread clears, the random
    source) is read from an environment of reply streams; everything it does
    to the outside (signals, sleeps, requests, the failure log) is recorded
    in an explicit world state. *)

From Stdlib Require Import ZArith QArith Qround List Bool String Lia Lqa.
Import ListNotations.
Open Scope Q_scope.

(** ** Python helpers *)

Module Py.

(** [a < b] on floats, as a boolean. *)
Definition ltb (a b : Q) : bool := negb (Qle_bool b a).

(** [a >= b]. *)
Definition geb (a b : Q) : bool := Qle_bool b a.

(** Builtin [max(a, b)]: the first argument is kept unless the second is
    strictly greater. *)
Definition max (a b : Q) : Q := if ltb a b then b else a.

(** Builtin [min(a, b)]: the first argument is kept unless the second is
    strictly smaller. *)
Definition min (a b : Q) : Q := if ltb b a then b else a.

(** [int(x)] on a float: truncation toward zero. *)
Definition int (x : Q) : Z := Z.quot (Qnum x) (Zpos (Qden x)).

(** [round(x)] to the nearest integer, ties to the even neighbour. *)
Definition round_half_even (x : Q) : Z :=
  let f := Qfloor x in
  let r := x - inject_Z f in
  if ltb r (1 # 2) then f
  else if ltb (1 # 2) r then (f + 1)%Z
  else if Z.even f then f else (f + 1)%Z.

(** [round(x, 1)]: one decimal place. *)
Definition round1 (x : Q) : Q := inject_Z (round_half_even (x * 10)) / 10.

(** [range(start, stop, step)] for a positive step. *)
Definition range (start stop step : Z) : list Z :=
  map (fun k => (start + step * Z.of_nat k)%Z)
      (seq 0 (Z.to_nat ((stop - start + step - 1) / step))).

(** [l[-1]]; [None] stands for the IndexError on an empty list. *)
Fixpoint last_item {A : Type} (l : list A) : option A :=
  match l with
  | [] => None
  | [x] => Some x
  | _ :: l' => last_item l'
  end.

(** [sum(l)] on floats. *)
Definition sum (l : list Q) : Q := fold_left Qplus l 0.

(** [len(l)]. *)
Definition len {A : Type} (l : list A) : Z := Z.of_nat (List.length l).

End Py.

(** ** Data model *)

(** The [params] dict handed to the worker. *)
Record TestParameters : Type := {
  test_min : option Q;
  test_max : option Q;
  param_wait_time : Q;
  param_cycles : option Z;
  param_measure_power_curve : bool
}.

(** One entry of [test_results]. *)
Record AttemptOutcome : Type := {
  timestamp : Q;
  wavelength : Q;
  wl_success : bool;
  wl_duration : Q
}.

(** One entry of [power_curve_data]. *)
Record PowerSample : Type := {
  sample_wavelength : Q;
  sample_power : Q
}.

(** Body of [GET /Ch{n}/Status]; a key may be missing from the JSON. *)
Record ChannelStatus : Type := {
  OK : option bool;
  IsWavelengthSettingActive : option bool;
  WavelengthSettingState : option string
}.

(** Body of [GET /Ch{n}/Power]. *)
Record PowerReading : Type := {
  power_OK : option bool;
  Power : option Q
}.

(** Body of the answer to [PUT /Ch{n}/Wavelength]; the worker only looks at
    whether there is one. *)
Record PutAck : Type := { put_OK : bool }.

(** [d.get(key, default)]. *)
Definition get {A : Type} (field : option A) (default : A) : A :=
  match field with Some v => v | None => default end.

(** ** Range resolution: [TestWorker.__init__] *)

Module TestWorker.

(** The attributes [__init__] assigns and nothing mutates afterwards. *)
Record t : Type := {
  channel : Z;
  wait_time : Q;
  range_min : option Q;
  range_max : option Q;
  cycles : option Z;
  measure_power_curve : bool;
  device_min : option Q;
  device_max : option Q
}.

(** [None if (params["cycles"] is None or params["cycles"] <= 0) else
    params["cycles"]]. *)
Definition init_cycles (c : option Z) : option Z :=
  match c with
  | None => None
  | Some n => if (n <=? 0)%Z then None else Some n
  end.

(** The resolved [(range_min, range_max)] of lines 230-239. *)
Definition resolve (rmin rmax dmin dmax : option Q) : option Q * option Q :=
  match dmin, dmax with
  | Some dlo, Some dhi =>
      let '(lo, hi) :=
        match rmin, rmax with
        | Some lo, Some hi => (lo, hi)
        | _, _ => (dlo, dhi)
        end in
      let lo := Py.max lo dlo in
      let hi := Py.min hi dhi in
      if Py.geb lo hi then (Some dlo, Some dhi) else (Some lo, Some hi)
  | _, _ => (None, None)
  end.

Definition init (ch : Z) (params : TestParameters)
    (device_range : option Q * option Q) : t :=
  let '(dmin, dmax) := device_range in
  let r := resolve (test_min params) (test_max params) dmin dmax in
  {| channel := ch;
     wait_time := param_wait_time params;
     range_min := fst r;
     range_max := snd r;
     cycles := init_cycles (param_cycles params);
     measure_power_curve := param_measure_power_curve params;
     device_min := dmin;
     device_max := dmax |}.

(** [min(max(wl, self.device_min), self.device_max)]: the safety clamp
    applied right before a wavelength is sent. *)
Definition clamp (dmin dmax wl : Q) : Q := Py.min (Py.max wl dmin) dmax.

(** The sample grid [wls] of [_measure_power_curve] (lines 326-332), before
    the per-point clamp.  [None] stands for the IndexError of [wls[-1]]. *)
Definition power_curve_points (rmin rmax : Q) : option (list Z) :=
  let span := rmax - rmin in
  if Py.ltb span 10 then Some [Py.int ((rmin + rmax) / 2)]
  else
    let wls := Py.range (Py.int rmin) (Py.int rmax + 1) 10 in
    match Py.last_item wls with
    | None => None
    | Some l =>
        if (l <? Py.int rmax)%Z then Some (wls ++ [Py.int rmax]) else Some wls
    end.

(** ** The outside world *)

(** What a request gets back: how long it took, and the decoded JSON body,
    [None] when [safe_get_json] / [safe_put_json] swallowed a failure. *)
Record reply (A : Type) : Type := { took : Q; body : option A }.
Arguments took {A} _.
Arguments body {A} _.

(** Everything the worker reads from outside, as streams indexed per call
    site: the k-th read of [self.running], the k-th [check_connection], the
    k-th PUT, the k-th status poll of an attempt, the k-th power query, the
    k-th [random.random()]. *)
Record env : Type := {
  env_running : nat -> bool;
  env_check : nat -> reply ChannelStatus;
  env_put : nat -> reply PutAck;
  env_status : nat -> reply ChannelStatus;
  env_power : nat -> reply PowerReading;
  env_random : nat -> Q
}.

(** The text of a [command_sent] signal, kept structured. *)
Inductive command : Type :=
| CmdPutWavelength (wl : Q)
| CmdGetStatus
| CmdGetPower.

(** The Qt signals of the worker. *)
Inductive signal : Type :=
| update_status (success : bool) (duration wl : Q)
| finished
| progress_update (current total : Z)
| power_curve_finished (data : list PowerSample)
| connection_lost
| command_sent (cmd : command)
| current_wavelength (wl : Q).

(** Requests that reach the device. *)
Inductive request : Type :=
| PutWavelength (wl : Q)
| GetStatus
| GetPower.

(** Observable effects, in the order they happen. *)
Inductive event : Type :=
| Emit (s : signal)
| Sleep (seconds : Q)
| Http (r : request).

(** Lines of the failure log file. *)
Inductive log_line : Type :=
| LogHeader (started : Q)
| LogFailure (at_time wl duration : Q).

(** The mutable state: the wall clock, one cursor per reply stream, the
    effects so far, the log file, and the two result lists of the worker. *)
Record world : Type := {
  clock : Q;
  n_running : nat;
  n_check : nat;
  n_put : nat;
  n_status : nat;
  n_power : nat;
  n_random : nat;
  trace : list event;
  fail_log : list log_line;
  test_results : list AttemptOutcome;
  power_curve_data : list PowerSample
}.

Definition advance (d : Q) (w : world) : world :=
  {| clock := clock w + d; n_running := n_running w; n_check := n_check w;
     n_put := n_put w; n_status := n_status w; n_power := n_power w;
     n_random := n_random w; trace := trace w; fail_log := fail_log w;
     test_results := test_results w;
     power_curve_data := power_curve_data w |}.

Definition record (e : event) (w : world) : world :=
  {| clock := clock w; n_running := n_running w; n_check := n_check w;
     n_put := n_put w; n_status := n_status w; n_power := n_power w;
     n_random := n_random w; trace := trace w ++ [e]; fail_log := fail_log w;
     test_results := test_results w;
     power_curve_data := power_curve_data w |}.

Definition next_running (w : world) : world :=
  {| clock := clock w; n_running := S (n_running w); n_check := n_check w;
     n_put := n_put w; n_status := n_status w; n_power := n_power w;
     n_random := n_random w; trace := trace w; fail_log := fail_log w;
     test_results := test_results w;
     power_curve_data := power_curve_data w |}.

Definition next_check (w : world) : world :=
  {| clock := clock w; n_running := n_running w; n_check := S (n_check w);
     n_put := n_put w; n_status := n_status w; n_power := n_power w;
     n_random := n_random w; trace := trace w; fail_log := fail_log w;
     test_results := test_results w;
     power_curve_data := power_curve_data w |}.

Definition next_put (w : world) : world :=
  {| clock := clock w; n_running := n_running w; n_check := n_check w;
     n_put := S (n_put w); n_status := n_status w; n_power := n_power w;
     n_random := n_random w; trace := trace w; fail_log := fail_log w;
     test_results := test_results w;
     power_curve_data := power_curve_data w |}.

Definition next_status (w : world) : world :=
  {| clock := clock w; n_running := n_running w; n_check := n_check w;
     n_put := n_put w; n_status := S (n_status w); n_power := n_power w;
     n_random := n_random w; trace := trace w; fail_log := fail_log w;
     test_results := test_results w;
     power_curve_data := power_curve_data w |}.

Definition next_power (w : world) : world :=
  {| clock := clock w; n_running := n_running w; n_check := n_check w;
     n_put := n_put w; n_status := n_status w; n_power := S (n_power w);
     n_random := n_random w; trace := trace w; fail_log := fail_log w;
     test_results := test_results w;
     power_curve_data := power_curve_data w |}.

Definition next_random (w : world) : world :=
  {| clock := clock w; n_running := n_running w; n_check := n_check w;
     n_put := n_put w; n_status := n_status w; n_power := n_power w;
     n_random := S (n_random w); trace := trace w; fail_log := fail_log w;
     test_results := test_results w;
     power_curve_data := power_curve_data w |}.

Definition set_fail_log (l : list log_line) (w : world) : world :=
  {| clock := clock w; n_running := n_running w; n_check := n_check w;
     n_put := n_put w; n_status := n_status w; n_power := n_power w;
     n_random := n_random w; trace := trace w; fail_log := l;
     test_results := test_results w;
     power_curve_data := power_curve_data w |}.

Definition set_test_results (l : list AttemptOutcome) (w : world) : world :=
  {| clock := clock w; n_running := n_running w; n_check := n_check w;
     n_put := n_put w; n_status := n_status w; n_power := n_power w;
     n_random := n_random w; trace := trace w; fail_log := fail_log w;
     test_results := l;
     power_curve_data := power_curve_data w |}.

Definition set_power_curve_data (l : list PowerSample) (w : world) : world :=
  {| clock := clock w; n_running := n_running w; n_check := n_check w;
     n_put := n_put w; n_status := n_status w; n_power := n_power w;
     n_random := n_random w; trace := trace w; fail_log := fail_log w;
     test_results := test_results w;
     power_curve_data := l |}.

(** A fresh world at wall-clock time [t0]. *)
Definition boot (t0 : Q) : world :=
  {| clock := t0; n_running := 0; n_check := 0; n_put := 0; n_status := 0;
     n_power := 0; n_random := 0; trace := []; fail_log := [];
     test_results := []; power_curve_data := [] |}.

Section Effects.

Variable E : env.

(** [signal.emit(...)]. *)
Definition emit (s : signal) (w : world) : world := record (Emit s) w.

(** [time.sleep(d)]. *)
Definition sleep (d : Q) (w : world) : world := record (Sleep d) (advance d w).

(** Reading [self.running]. *)
Definition read_running (w : world) : bool * world :=
  (env_running E (n_running w), next_running w).

(** [safe_put_json(".../Wavelength", {"OK": True, "Wavelength": wl})]. *)
Definition put_wavelength (wl : Q) (w : world) : option PutAck * world :=
  let r := env_put E (n_put w) in
  (body r, record (Http (PutWavelength wl)) (advance (took r) (next_put w))).

(** [safe_get_json(".../Status")] inside an attempt. *)
Definition get_status (w : world) : option ChannelStatus * world :=
  let r := env_status E (n_status w) in
  (body r, record (Http GetStatus) (advance (took r) (next_status w))).

(** [safe_get_json(".../Power")]. *)
Definition get_power (w : world) : option PowerReading * world :=
  let r := env_power E (n_power w) in
  (body r, record (Http GetPower) (advance (took r) (next_power w))).

(** [check_connection(channel)]: [response is not None and
    response.get("OK", False)]. *)
Definition check_connection (w : world) : bool * world :=
  let r := env_check E (n_check w) in
  (match body r with
   | None => false
   | Some st => get (OK st) false
   end,
   record (Http GetStatus) (advance (took r) (next_check w))).

(** [random.uniform(a, b)], which is [a + (b - a) * random()]. *)
Definition uniform (a b : Q) (w : world) : Q * world :=
  (a + (b - a) * env_random E (n_random w), next_random w).

(** ** One attempt: [_perform_wavelength_attempt] *)

(** The first [for _ in range(10)] loop; returns [active_started]. *)
Fixpoint activation_phase (budget : nat) (w : world) : bool * world :=
  match budget with
  | O => (false, w)
  | S budget' =>
      let (r, w) := read_running w in
      if negb r then (false, w)
      else
        let w := emit (command_sent CmdGetStatus) w in
        let (st, w) := get_status w in
        match st with
        | None =>
            activation_phase budget' (sleep (1 # 2) (emit connection_lost w))
        | Some s =>
            if get (IsWavelengthSettingActive s) false then (true, w)
            else activation_phase budget' (sleep (1 # 2) w)
        end
  end.

(** The second [for _ in range(120)] loop; returns [success]. *)
Fixpoint completion_phase (budget : nat) (w : world) : bool * world :=
  match budget with
  | O => (false, w)
  | S budget' =>
      let (r, w) := read_running w in
      if negb r then (false, w)
      else
        let w := emit (command_sent CmdGetStatus) w in
        let (st, w) := get_status w in
        match st with
        | None =>
            completion_phase budget' (sleep 1 (emit connection_lost w))
        | Some s =>
            if negb (get (IsWavelengthSettingActive s) true) then
              (String.eqb (get (WavelengthSettingState s) EmptyString)
                          "Success"%string, w)
            else completion_phase budget' (sleep 1 w)
        end
  end.

Definition _perform_wavelength_attempt (wl : Q) (w : world)
    : (bool * Q) * world :=
  let start_time := clock w in
  let w := emit (command_sent (CmdPutWavelength wl)) w in
  let (put_resp, w) := put_wavelength wl w in
  match put_resp with
  | None =>
      let w := emit connection_lost w in
      ((false, clock w - start_time), w)
  | Some _ =>
      let (active_started, w) := activation_phase 10 w in
      if negb active_started then ((false, clock w - start_time), w)
      else
        let (success, w) := completion_phase 120 w in
        ((success, clock w - start_time), w)
  end.

End Effects.

(** ** The run loop and the power-curve sweep *)

(** Exceptions the interpreter could raise inside the worker thread. *)
Inductive exn : Type :=
| TypeError   (* comparing a float with [None] *)
| IndexError. (* [wls[-1]] on an empty list *)

Inductive result (A : Type) : Type :=
| Ok (a : A) (w : world)
| Raise (e : exn) (w : world).
Arguments Ok {A} _ _.
Arguments Raise {A} _ _.

(** How a fuelled execution of [run] ends: the method returned, the model
    ran out of fuel inside the [while] loop, or an exception escaped. *)
Inductive ending : Type :=
| Returned
| StillLooping
| Raised (e : exn).

Section Run.

Variable E : env.
Variable self : t.

(** [configure_logs]: the failure log is created afresh with its header. *)
Definition configure_logs (w : world) : world :=
  set_fail_log [LogHeader (clock w)] w.

(** [min(max(wl, self.device_min), self.device_max)] on the attributes. *)
Definition clamp_to_device (wl : Q) (w : world) : result Q :=
  match device_min self, device_max self with
  | Some dlo, Some dhi => Ok (clamp dlo dhi wl) w
  | _, _ => Raise TypeError w
  end.

(** The [while] condition of [run]: [self.running and (self.cycles is None
    or attempts < self.cycles)]. *)
Definition loop_guard (attempts : Z) (w : world) : bool * world :=
  let (r, w) := read_running E w in
  (r && match cycles self with
        | None => true
        | Some n => (attempts <? n)%Z
        end, w).

(** One pass through the body of the [while] loop (lines 259-280), for
    resolved bounds [lo], [hi]; returns the new value of [attempts]. *)
Definition cycle (lo hi : Q) (attempts : Z) (w : world) : result Z :=
  let (reachable, w) := check_connection E w in
  if negb reachable then Ok attempts (sleep 2 (emit connection_lost w))
  else
    let (u, w) := uniform E lo hi w in
    match clamp_to_device (Py.round1 u) w with
    | Raise e w => Raise e w
    | Ok wl w =>
        let w := emit (current_wavelength wl) w in
        let '((success, duration), w) := _perform_wavelength_attempt E wl w in
        let attempts := (attempts + 1)%Z in
        let w := set_test_results
                   (test_results w ++
                    [{| timestamp := clock w; wavelength := wl;
                        wl_success := success; wl_duration := duration |}])
                   w in
        let w := emit (update_status success duration wl) w in
        let w := emit (progress_update attempts (get (cycles self) 0%Z)) w in
        let w := if negb success
                 then set_fail_log
                        (fail_log w ++ [LogFailure (clock w) wl duration]) w
                 else w in
        Ok attempts (sleep (wait_time self + 3) w)
    end.

Fixpoint run_loop (fuel : nat) (lo hi : Q) (attempts : Z) (w : world)
    : ending * Z * world :=
  match fuel with
  | O => (StillLooping, attempts, w)
  | S fuel' =>
      let (go, w) := loop_guard attempts w in
      if go then
        match cycle lo hi attempts w with
        | Ok attempts w => run_loop fuel' lo hi attempts w
        | Raise e w => (Raised e, attempts, w)
        end
      else (Returned, attempts, w)
  end.

(** The [for wl in wls] loop of [_measure_power_curve] (lines 333-346). *)
Fixpoint sweep (wls : list Z) (w : world) : result unit :=
  match wls with
  | [] => Ok tt w
  | wl :: rest =>
      let (r, w) := read_running E w in
      if negb r then Ok tt w
      else
        let (reachable, w) := check_connection E w in
        let (reachable, w) :=
          if negb reachable then
            check_connection E (sleep 2 (emit connection_lost w))
          else (true, w) in
        if negb reachable then Ok tt w
        else
          match clamp_to_device (inject_Z wl) w with
          | Raise e w => Raise e w
          | Ok wl w =>
              let '((success, _), w) := _perform_wavelength_attempt E wl w in
              let w :=
                if success then
                  let w := sleep 3 w in
                  let w := emit (command_sent CmdGetPower) w in
                  let (p, w) := get_power E w in
                  match p with
                  | Some pr =>
                      if get (power_OK pr) false then
                        set_power_curve_data
                          (power_curve_data w ++
                           [{| sample_wavelength := wl;
                               sample_power := get (Power pr) 0 |}]) w
                      else w
                  | None => w
                  end
                else w in
              sweep rest w
          end
  end.

Definition _measure_power_curve (w : world) : result unit :=
  match range_min self, range_max self with
  | Some lo, Some hi =>
      let w := set_power_curve_data [] w in
      match power_curve_points lo hi with
      | None => Raise IndexError w
      | Some wls =>
          match sweep wls w with
          | Raise e w => Raise e w
          | Ok _ w => Ok tt (emit (power_curve_finished (power_curve_data w)) w)
          end
      end
  | _, _ => Ok tt (emit (power_curve_finished []) w)
  end.

(** [TestWorker.run], with [fuel] bounding the passes of the [while] loop.
    The thread's own [self.running = True] is part of the environment: the
    stream [env_running] says what each later read of the flag sees. *)
Definition run (fuel : nat) (w : world) : ending * world :=
  let w := configure_logs w in
  let w := set_test_results [] w in
  match range_min self, range_max self with
  | Some lo, Some hi =>
      match run_loop fuel lo hi 0%Z w with
      | (Returned, _, w) =>
          let (sweep_wanted, w) :=
            if measure_power_curve self then read_running E w
            else (false, w) in
          if sweep_wanted then
            match _measure_power_curve w with
            | Ok _ w => (Returned, emit finished w)
            | Raise e w => (Raised e, w)
            end
          else (Returned, emit finished w)
      | (other, _, w) => (other, w)
      end
  | _, _ => (Returned, emit finished w)
  end.

End Run.

End TestWorker.

(** ** Statistics and ETA: [ChannelPanel] *)

Module ChannelPanel.

(** The text shown after "ETA:"; the clock forms keep their numbers. *)
Inductive eta_text : Type :=
| EtaInfinity                 (* the infinity sign *)
| EtaZero                     (* "0s" *)
| EtaDash                     (* "-" *)
| EtaMinSec (m s : Z)         (* mm:ss *)
| EtaHourMinSec (h m s : Z).  (* hh:mm:ss *)

(** The statistics attributes of the panel. *)
Record t : Type := {
  aborted : bool;
  success_count : Z;
  fail_count : Z;
  total_time : Q;
  durations : list Q;
  wavelengths : list Q;
  success_wavelengths : list Q;
  failed_wavelengths : list Q;
  total_cycles : option Z;
  current_wait_time : Q;
  latest_eta : eta_text;
  elapsed_seconds : Z
}.

(** [params['cycles'] if params['cycles'] and params['cycles'] > 0 else
    None], as [on_start] stores it in [total_cycles]. *)
Definition start_cycles (c : option Z) : option Z :=
  match c with
  | None => None
  | Some n => if (n =? 0)%Z then None else if (0 <? n)%Z then Some n else None
  end.

(** The panel right after [on_start] with cleared statistics. *)
Definition started (params : TestParameters) : t :=
  {| aborted := false; success_count := 0; fail_count := 0; total_time := 0;
     durations := []; wavelengths := []; success_wavelengths := [];
     failed_wavelengths := [];
     total_cycles := start_cycles (param_cycles params);
     current_wait_time := param_wait_time params;
     latest_eta := match start_cycles (param_cycles params) with
                   | Some _ => EtaDash
                   | None => EtaInfinity
                   end;
     elapsed_seconds := 0 |}.

(** What [_update_eta] computes before formatting. *)
Inductive estimate : Type :=
| Unbounded
| NothingLeft
| Unknown
| Seconds (rem : Q).

(** Lines 559-566 of [_update_eta]. *)
Definition estimate_remaining (p : t) : estimate :=
  match total_cycles p with
  | None => Unbounded
  | Some n =>
      if (n =? 0)%Z then Unbounded
      else
        let attempts_done := (success_count p + fail_count p)%Z in
        let remaining := (n - attempts_done)%Z in
        if (remaining <=? 0)%Z then NothingLeft
        else
          match durations p with
          | [] => Unknown
          | _ =>
              let avg_set_time :=
                Py.sum (durations p) / inject_Z (Py.len (durations p)) in
              let per_cycle_est := avg_set_time + current_wait_time p + 3 in
              Seconds (inject_Z remaining * per_cycle_est)
          end
  end.

(** Float [x // y] followed by [int(...)]. *)
Definition int_floordiv (x y : Q) : Z := Qfloor (x / y).

(** Float [x % y] for a positive [y]. *)
Definition fmod (x y : Q) : Q := x - y * inject_Z (Qfloor (x / y)).

(** Lines 567-571 of [_update_eta]. *)
Definition format_estimate (e : estimate) : eta_text :=
  match e with
  | Unbounded => EtaInfinity
  | NothingLeft => EtaZero
  | Unknown => EtaDash
  | Seconds rem =>
      if Py.ltb rem 3600 then
        EtaMinSec (int_floordiv rem 60) (Py.int (fmod rem 60))
      else
        EtaHourMinSec (int_floordiv rem 3600)
                      (int_floordiv (fmod rem 3600) 60)
                      (Py.int (fmod rem 60))
  end.

Definition set_latest_eta (e : eta_text) (p : t) : t :=
  {| aborted := aborted p; success_count := success_count p;
     fail_count := fail_count p; total_time := total_time p;
     durations := durations p; wavelengths := wavelengths p;
     success_wavelengths := success_wavelengths p;
     failed_wavelengths := failed_wavelengths p;
     total_cycles := total_cycles p;
     current_wait_time := current_wait_time p;
     latest_eta := e; elapsed_seconds := elapsed_seconds p |}.

Definition _update_eta (p : t) : t :=
  set_latest_eta (format_estimate (estimate_remaining p)) p.

(** [_update_timer]: one more elapsed second (the label is not modelled). *)
Definition _update_timer (p : t) : t :=
  {| aborted := aborted p; success_count := success_count p;
     fail_count := fail_count p; total_time := total_time p;
     durations := durations p; wavelengths := wavelengths p;
     success_wavelengths := success_wavelengths p;
     failed_wavelengths := failed_wavelengths p;
     total_cycles := total_cycles p;
     current_wait_time := current_wait_time p;
     latest_eta := latest_eta p;
     elapsed_seconds := (elapsed_seconds p + 1)%Z |}.

(** The counters and lists [on_result] updates (lines 670-674). *)
Definition tally (success : bool) (duration wavelength : Q) (p : t) : t :=
  {| aborted := aborted p;
     success_count := if success then (success_count p + 1)%Z
                      else success_count p;
     fail_count := if success then fail_count p else (fail_count p + 1)%Z;
     total_time := if success then total_time p + duration else total_time p;
     durations := durations p ++ [duration];
     wavelengths := wavelengths p ++ [wavelength];
     success_wavelengths := if success
                            then success_wavelengths p ++ [wavelength]
                            else success_wavelengths p;
     failed_wavelengths := if success then failed_wavelengths p
                           else failed_wavelengths p ++ [wavelength];
     total_cycles := total_cycles p;
     current_wait_time := current_wait_time p;
     latest_eta := latest_eta p;
     elapsed_seconds := elapsed_seconds p |}.

(** The slot connected to [update_status]. *)
Definition on_result (success : bool) (duration wavelength : Q) (p : t) : t :=
  if aborted p then p
  else _update_timer (_update_eta (tally success duration wavelength p)).

(** The value of the "Avg" label: [total_time / success_count], 0.0 without
    a success. *)
Definition avg (p : t) : Q :=
  if (success_count p =? 0)%Z then 0
  else total_time p / inject_Z (success_count p).

(** The panel after a stream of [update_status] signals
    [(success, duration, wavelength)]. *)
Definition feed (outs : list (bool * Q * Q)) (p : t) : t :=
  fold_left (fun p o => on_result (fst (fst o)) (snd (fst o)) (snd o) p)
            outs p.

End ChannelPanel.

(** ** Vocabulary for the properties *)

Module Obs.

(** Both polling loops of an attempt have one shape: up to [budget] passes,
    each reading [self.running], polling the status, and either stopping on
    a reply that satisfies [hit] or pausing [pause] seconds.  The loop hands
    back the reply it stopped on, if any. *)
Fixpoint poll_until (E : TestWorker.env) (hit : ChannelStatus -> bool)
    (pause : Q) (budget : nat) (w : TestWorker.world)
    : option ChannelStatus * TestWorker.world :=
  match budget with
  | O => (None, w)
  | S budget' =>
      let (r, w) := TestWorker.read_running E w in
      if negb r then (None, w)
      else
        let w := TestWorker.emit
                   (TestWorker.command_sent TestWorker.CmdGetStatus) w in
        let (st, w) := TestWorker.get_status E w in
        match st with
        | None =>
            poll_until E hit pause budget'
              (TestWorker.sleep pause
                 (TestWorker.emit TestWorker.connection_lost w))
        | Some s =>
            if hit s then (Some s, w)
            else poll_until E hit pause budget' (TestWorker.sleep pause w)
        end
  end.

(** The reply reports the setting as active (activation). *)
Definition reports_active (s : ChannelStatus) : bool :=
  get (IsWavelengthSettingActive s) false.

(** The reply reports the setting as no longer active (completion). *)
Definition reports_cleared (s : ChannelStatus) : bool :=
  negb (get (IsWavelengthSettingActive s) true).

(** The reply's [WavelengthSettingState] is "Success". *)
Definition reports_success (s : ChannelStatus) : bool :=
  String.eqb (get (WavelengthSettingState s) EmptyString) "Success"%string.

(** A poll that got no response satisfies nothing. *)
Definition answered (hit : ChannelStatus -> bool)
    (st : option ChannelStatus) : bool :=
  match st with
  | Some s => hit s
  | None => false
  end.

Section Polls.

Variable E : TestWorker.env.

(** The k-th status poll and the k-th read of [self.running] counted from
    the cursors of [w]. *)
Definition poll_at (w : TestWorker.world) (k : nat) : option ChannelStatus :=
  TestWorker.body (TestWorker.env_status E (TestWorker.n_status w + k)).

Definition running_at (w : TestWorker.world) (k : nat) : bool :=
  TestWorker.env_running E (TestWorker.n_running w + k).

(** Poll number [i] is made (the worker was not stopped up to it), it is
    the first poll satisfying [hit]. *)
Definition hits_at (hit : ChannelStatus -> bool) (w : TestWorker.world)
    (i : nat) : Prop :=
  (forall k, (k <= i)%nat -> running_at w k = true)
  /\ (forall k, (k < i)%nat -> answered hit (poll_at w k) = false)
  /\ answered hit (poll_at w i) = true.

(** The set command of an attempt started in [w] is answered, the flag is
    first seen active at poll [i] of the [a] activation polls, and then
    first seen cleared at poll [j] of the [b] completion polls, with state
    "Success". *)
Definition settles_within (a b : nat) (w : TestWorker.world) (i j : nat)
    : Prop :=
  TestWorker.body (TestWorker.env_put E (TestWorker.n_put w)) <> None
  /\ (i < a)%nat /\ (j < b)%nat
  /\ (forall k, (k <= S i + j)%nat -> running_at w k = true)
  /\ (forall k, (k < i)%nat -> answered reports_active (poll_at w k) = false)
  /\ answered reports_active (poll_at w i) = true
  /\ (forall k, (k < j)%nat ->
        answered reports_cleared (poll_at w (S i + k)) = false)
  /\ answered reports_cleared (poll_at w (S i + j)) = true
  /\ answered reports_success (poll_at w (S i + j)) = true.

(** The budgets of [_perform_wavelength_attempt]: 10 and 120 polls. *)
Definition settles (w : TestWorker.world) (i j : nat) : Prop :=
  settles_within 10 120 w i j.

End Polls.

(** The wavelengths sent to the device, oldest first. *)
Fixpoint puts (l : list TestWorker.event) : list Q :=
  match l with
  | [] => []
  | TestWorker.Http (TestWorker.PutWavelength wl) :: l' => wl :: puts l'
  | _ :: l' => puts l'
  end.

(** The outcomes announced through [update_status], oldest first. *)
Fixpoint announced (l : list TestWorker.event) : list (bool * Q * Q) :=
  match l with
  | [] => []
  | TestWorker.Emit (TestWorker.update_status s d wl) :: l' =>
      (s, d, wl) :: announced l'
  | _ :: l' => announced l'
  end.

(** The requests of any kind that reached the device. *)
Fixpoint requests (l : list TestWorker.event) : list TestWorker.request :=
  match l with
  | [] => []
  | TestWorker.Http r :: l' => r :: requests l'
  | _ :: l' => requests l'
  end.

(** Events that neither command a wavelength nor announce anything but a
    lost connection: what polling and power reading produce. *)
Definition quiet (e : TestWorker.event) : bool :=
  match e with
  | TestWorker.Emit (TestWorker.command_sent TestWorker.CmdGetStatus)
  | TestWorker.Emit (TestWorker.command_sent TestWorker.CmdGetPower)
  | TestWorker.Emit TestWorker.connection_lost
  | TestWorker.Sleep _
  | TestWorker.Http TestWorker.GetStatus
  | TestWorker.Http TestWorker.GetPower => true
  | _ => false
  end.

(** [w'] comes from [w] by polling only: the clock and the [running] and
    status cursors may have moved and quiet events were added; the results,
    the log and the other cursors are as they were. *)
Definition polled (w w' : TestWorker.world) : Prop :=
  TestWorker.test_results w' = TestWorker.test_results w
  /\ TestWorker.fail_log w' = TestWorker.fail_log w
  /\ TestWorker.power_curve_data w' = TestWorker.power_curve_data w
  /\ TestWorker.n_check w' = TestWorker.n_check w
  /\ TestWorker.n_put w' = TestWorker.n_put w
  /\ TestWorker.n_power w' = TestWorker.n_power w
  /\ TestWorker.n_random w' = TestWorker.n_random w
  /\ exists new, TestWorker.trace w' = TestWorker.trace w ++ new
                 /\ forallb quiet new = true.

(** The world right after an attempt has announced and sent its set
    command. *)
Definition sent (E : TestWorker.env) (wl : Q) (w : TestWorker.world)
    : TestWorker.world :=
  snd (TestWorker.put_wavelength E wl
         (TestWorker.emit
            (TestWorker.command_sent (TestWorker.CmdPutWavelength wl)) w)).

(** An attempt whose two loops are [poll_until] with budgets [a] and [b];
    [_perform_wavelength_attempt] is the instance with 10 and 120. *)
Definition attempt_with (E : TestWorker.env) (a b : nat) (wl : Q)
    (w : TestWorker.world) : (bool * Q) * TestWorker.world :=
  match TestWorker.body (TestWorker.env_put E (TestWorker.n_put w)) with
  | None =>
      let w' := TestWorker.emit TestWorker.connection_lost (sent E wl w) in
      ((false, TestWorker.clock w' - TestWorker.clock w), w')
  | Some _ =>
      let p := poll_until E reports_active (1 # 2) a (sent E wl w) in
      match fst p with
      | None => ((false, TestWorker.clock (snd p) - TestWorker.clock w), snd p)
      | Some _ =>
          let c := poll_until E reports_cleared 1 b (snd p) in
          ((answered reports_success (fst c),
            TestWorker.clock (snd c) - TestWorker.clock w), snd c)
      end
  end.

(** The verdict of [check_connection] on a reply. *)
Definition reachable (r : TestWorker.reply ChannelStatus) : bool :=
  match TestWorker.body r with
  | None => false
  | Some st => get (OK st) false
  end.

(** [w'] comes from [w] without touching the results or the log and with
    quiet events only. *)
Definition hushed (w w' : TestWorker.world) : Prop :=
  TestWorker.test_results w' = TestWorker.test_results w
  /\ TestWorker.fail_log w' = TestWorker.fail_log w
  /\ exists new, TestWorker.trace w' = TestWorker.trace w ++ new
                 /\ forallb quiet new = true.

(** From [w] to [w'] every wavelength sent to the device satisfies [P]. *)
Definition puts_grow (P : Q -> Prop) (w w' : TestWorker.world) : Prop :=
  exists more, puts (TestWorker.trace w') = puts (TestWorker.trace w) ++ more
               /\ Forall P more.

(** From [w] to [w'] wavelengths satisfying [P] may have been sent, but no
    outcome was recorded, logged or announced. *)
Definition commanded (P : Q -> Prop) (w w' : TestWorker.world) : Prop :=
  TestWorker.test_results w' = TestWorker.test_results w
  /\ TestWorker.fail_log w' = TestWorker.fail_log w
  /\ announced (TestWorker.trace w') = announced (TestWorker.trace w)
  /\ puts_grow P w w'.

(** [x] is the result of the device clamp. *)
Definition clamped (dlo dhi x : Q) : Prop :=
  exists v, x = TestWorker.clamp dlo dhi v.

(** The world a result carries. *)
Definition world_of {A : Type} (r : TestWorker.result A) : TestWorker.world :=
  match r with
  | TestWorker.Ok _ w => w
  | TestWorker.Raise _ w => w
  end.

End Obs.

(** ** Sample devices *)

Module Scenario.

Definition instantly {A : Type} (b : option A) : TestWorker.reply A :=
  {| TestWorker.took := 0; TestWorker.body := b |}.

Definition idle : ChannelStatus :=
  {| OK := Some true; IsWavelengthSettingActive := Some false;
     WavelengthSettingState := Some "Idle"%string |}.

Definition moving : ChannelStatus :=
  {| OK := Some true; IsWavelengthSettingActive := Some true;
     WavelengthSettingState := Some "Setting"%string |}.

Definition settled : ChannelStatus :=
  {| OK := Some true; IsWavelengthSettingActive := Some false;
     WavelengthSettingState := Some "Success"%string |}.

Definition reading : PowerReading :=
  {| power_OK := Some true; Power := Some (3 # 2) |}.

(** A healthy device that answers at once: each attempt sees the flag set
    on its first poll and cleared with "Success" on the next. *)
Definition prompt : TestWorker.env :=
  {| TestWorker.env_running := fun _ => true;
     TestWorker.env_check := fun _ => instantly (Some idle);
     TestWorker.env_put := fun _ => instantly (Some {| put_OK := true |});
     TestWorker.env_status :=
       fun n => instantly (Some (if Nat.even n then moving else settled));
     TestWorker.env_power := fun _ => instantly (Some reading);
     TestWorker.env_random := fun _ => 1 # 2 |}.

(** A device that accepts the command but never starts moving. *)
Definition stuck : TestWorker.env :=
  {| TestWorker.env_running := fun _ => true;
     TestWorker.env_check := fun _ => instantly (Some idle);
     TestWorker.env_put := fun _ => instantly (Some {| put_OK := true |});
     TestWorker.env_status := fun _ => instantly (Some idle);
     TestWorker.env_power := fun _ => instantly (Some reading);
     TestWorker.env_random := fun _ => 1 # 2 |}.

(** A device whose first ten status polls get no response and which then
    reports the setting active. *)
Definition late : TestWorker.env :=
  {| TestWorker.env_running := fun _ => true;
     TestWorker.env_check := fun _ => instantly (Some idle);
     TestWorker.env_put := fun _ => instantly (Some {| put_OK := true |});
     TestWorker.env_status :=
       fun n => instantly (if (n <? 10)%nat then None else Some moving);
     TestWorker.env_power := fun _ => instantly (Some reading);
     TestWorker.env_random := fun _ => 1 # 2 |}.

(** A healthy device behind a link that is down for the first [k]
    reachability checks. *)
Definition outage (k : nat) : TestWorker.env :=
  {| TestWorker.env_running := fun _ => true;
     TestWorker.env_check :=
       fun n => instantly (if (n <? k)%nat then None else Some idle);
     TestWorker.env_put := fun _ => instantly (Some {| put_OK := true |});
     TestWorker.env_status :=
       fun n => instantly (Some (if Nat.even n then moving else settled));
     TestWorker.env_power := fun _ => instantly (Some reading);
     TestWorker.env_random := fun _ => 1 # 2 |}.

(** Parameters of a bounded run without a power curve. *)
Definition three_cycles : TestParameters :=
  {| test_min := Some 1000; test_max := Some 1025; param_wait_time := 3;
     param_cycles := Some 3%Z; param_measure_power_curve := false |}.

(** Parameters asking for the power curve over [1000, 1025]. *)
Definition with_curve : TestParameters :=
  {| test_min := Some 1000; test_max := Some 1025; param_wait_time := 3;
     param_cycles := Some 1%Z; param_measure_power_curve := true |}.

End Scenario.

(** ** The specification's wording, for comparison *)

(** Range resolution as the specification words it: every unset requested
    bound defaults to the device bound on its own, then the minimum is
    clamped up and the maximum down, and a degenerate clamp falls back to the
    device range. *)
Definition resolve_as_specified (rmin rmax : option Q) (dlo dhi : Q)
    : Q * Q :=
  let lo := Py.max (get rmin dlo) dlo in
  let hi := Py.min (get rmax dhi) dhi in
  if Py.geb lo hi then (dlo, dhi) else (lo, hi).

(** ** Vocabulary for the bookkeeping of a run *)

Module Ledger.

(** What [update_status] carries for a recorded outcome. *)
Definition outcome_signal (o : AttemptOutcome) : bool * Q * Q :=
  (wl_success o, wl_duration o, wavelength o).

(** The failure-log lines a list of outcomes gives rise to. *)
Definition failures (l : list AttemptOutcome) : list TestWorker.log_line :=
  flat_map
    (fun o =>
       if wl_success o then []
       else [TestWorker.LogFailure (timestamp o) (wavelength o)
               (wl_duration o)])
    l.

(** The two signals that end a phase. *)
Inductive milestone : Type :=
| CurveDone (samples : list PowerSample)
| Finished.

Fixpoint milestones (l : list TestWorker.event) : list milestone :=
  match l with
  | [] => []
  | TestWorker.Emit (TestWorker.power_curve_finished d) :: l' =>
      CurveDone d :: milestones l'
  | TestWorker.Emit TestWorker.finished :: l' => Finished :: milestones l'
  | _ :: l' => milestones l'
  end.

(** Events other than those two signals. *)
Definition calm (e : TestWorker.event) : bool :=
  match e with
  | TestWorker.Emit (TestWorker.power_curve_finished _)
  | TestWorker.Emit TestWorker.finished => false
  | _ => true
  end.

(** The wavelength the sweep sends for grid point [z]. *)
Definition sweep_point (dlo dhi : Q) (z : Z) : Q :=
  TestWorker.clamp dlo dhi (inject_Z z).

(** From [w] to [w'] the run loop recorded the outcomes [new], in this
    order: each was appended to the results, announced, logged when it
    failed, and its wavelength, a clamped one, was the one sent; neither
    phase-ending signal was emitted. *)
Definition recorded (dlo dhi : Q) (w w' : TestWorker.world)
    (new : list AttemptOutcome) : Prop :=
  TestWorker.test_results w' = TestWorker.test_results w ++ new
  /\ Obs.announced (TestWorker.trace w')
     = Obs.announced (TestWorker.trace w) ++ map outcome_signal new
  /\ TestWorker.fail_log w' = TestWorker.fail_log w ++ failures new
  /\ Obs.puts (TestWorker.trace w')
     = Obs.puts (TestWorker.trace w) ++ map wavelength new
  /\ milestones (TestWorker.trace w') = milestones (TestWorker.trace w)
  /\ TestWorker.power_curve_data w' = TestWorker.power_curve_data w
  /\ Forall (fun o => Obs.clamped dlo dhi (wavelength o)) new.

(** From [w] to [w'] the sweep attempted the first [k] points of the grid
    [wls], in order, and recorded the samples [sub], each at one of the
    wavelengths it sent; neither phase-ending signal was emitted. *)
Definition swept (dlo dhi : Q) (wls : list Z) (w w' : TestWorker.world)
    (k : nat) (sub : list PowerSample) : Prop :=
  (k <= List.length wls)%nat
  /\ Obs.puts (TestWorker.trace w')
     = Obs.puts (TestWorker.trace w) ++ map (sweep_point dlo dhi) (firstn k wls)
  /\ TestWorker.power_curve_data w' = TestWorker.power_curve_data w ++ sub
  /\ (List.length sub <= k)%nat
  /\ Forall (fun s => In (sample_wavelength s)
                        (map (sweep_point dlo dhi) (firstn k wls))) sub
  /\ milestones (TestWorker.trace w') = milestones (TestWorker.trace w).

End Ledger.

(** ** The connectivity probe: [StatusWorker] *)

Module StatusWorker.

(** Body of [GET /Status]. *)
Record Overall : Type := { overall_OK : option bool }.

(** Body of [GET /Mode]. *)
Record ModeBody : Type := { mode_OK : option bool; Mode : option string }.

(** What the probe reads: its own [running] flag and the replies, [None]
    when [safe_get_json] swallowed a failure.  Replies are JSON objects, so
    the bare [except:] of the loop has nothing to catch. *)
Record env : Type := {
  env_running : nat -> bool;
  env_overall : nat -> option Overall;
  env_mode : nat -> option ModeBody
}.

Inductive event : Type :=
| GetOverall
| GetMode
| status_update (connected : bool) (mode : string)
| Sleep (seconds : Q).

Record state : Type := {
  n_running : nat;
  n_overall : nat;
  n_mode : nat;
  trace : list event
}.

Definition start : state :=
  {| n_running := 0; n_overall := 0; n_mode := 0; trace := [] |}.

Definition record (e : event) (s : state) : state :=
  {| n_running := n_running s; n_overall := n_overall s;
     n_mode := n_mode s; trace := trace s ++ [e] |}.

Definition get_overall (E : env) (s : state) : option Overall * state :=
  (env_overall E (n_overall s),
   record GetOverall
     {| n_running := n_running s; n_overall := S (n_overall s);
        n_mode := n_mode s; trace := trace s |}).

Definition get_mode (E : env) (s : state) : option ModeBody * state :=
  (env_mode E (n_mode s),
   record GetMode
     {| n_running := n_running s; n_overall := n_overall s;
        n_mode := S (n_mode s); trace := trace s |}).

Definition read_running (E : env) (s : state) : bool * state :=
  (env_running E (n_running s),
   {| n_running := S (n_running s); n_overall := n_overall s;
      n_mode := n_mode s; trace := trace s |}).

(** The body of the [while] loop (lines 192-203). *)
Definition tick (E : env) (s : state) : state :=
  let (status_response, s) := get_overall E s in
  let connected :=
    match status_response with
    | None => false
    | Some r => get (overall_OK r) false
    end in
  let (mode, s) :=
    if connected then
      let (mode_resp, s) := get_mode E s in
      (match mode_resp with
       | Some m =>
           if get (mode_OK m) false then get (Mode m) "Unknown"%string
           else "Unknown"%string
       | None => "Unknown"%string
       end, s)
    else ("Unknown"%string, s) in
  record (Sleep 3) (record (status_update connected mode) s).

(** [run], with [fuel] bounding the passes; [false] when fuel ran out. *)
Fixpoint run (E : env) (fuel : nat) (s : state) : bool * state :=
  match fuel with
  | O => (false, s)
  | S fuel' =>
      let (r, s) := read_running E s in
      if r then run E fuel' (tick E s) else (true, s)
  end.

(** The updates published, oldest first. *)
Fixpoint published (l : list event) : list (bool * string) :=
  match l with
  | [] => []
  | status_update c m :: l' => (c, m) :: published l'
  | _ :: l' => published l'
  end.


End StatusWorker.

(** ** Reading the device range and preparing the test interval *)

Module Ranges.

(** Body of [GET /Ch{n}/WavelengthRange]; [range_Min] and [range_Max] are
    [None] when the key is missing or [float(...)] rejects its value. *)
Record RangeBody : Type := {
  range_OK : option bool;
  IsEmpty : option bool;
  range_Min : option Q;
  range_Max : option Q
}.

(** [fetch_device_range], as a function of the reply. *)
Definition fetch_device_range (rng : option RangeBody)
    : option Q * option Q :=
  match rng with
  | Some r =>
      if get (range_OK r) false && negb (get (IsEmpty r) false) then
        match range_Min r, range_Max r with
        | Some lo, Some hi => (Some lo, Some hi)
        | _, _ => (None, None)
        end
      else (None, None)
  | None => (None, None)
  end.

Definition with_range (lo hi : option Q) (p : TestParameters)
    : TestParameters :=
  {| test_min := lo; test_max := hi;
     param_wait_time := param_wait_time p;
     param_cycles := param_cycles p;
     param_measure_power_curve := param_measure_power_curve p |}.

(** [MainWindow._initialize_channel_params]: the channel parameters after
    the in-place update. *)
Definition _initialize_channel_params (ch_params : TestParameters)
    (device_range : option Q * option Q) : TestParameters :=
  match device_range with
  | (Some dmin, Some dmax) =>
      let '(lo, hi) :=
        match test_min ch_params, test_max ch_params with
        | Some lo, Some hi => (lo, hi)
        | _, _ => (dmin, dmax)
        end in
      let lo := Py.max lo dmin in
      let hi := Py.min hi dmax in
      if Py.geb lo hi then with_range (Some dmin) (Some dmax) ch_params
      else with_range (Some lo) (Some hi) ch_params
  | _ => ch_params
  end.

(** The parameters [ChannelPanel.on_start] hands to the worker (lines
    619-625), for a known device range. *)
Definition on_start_params (params : TestParameters) (device_min device_max : Q)
    : TestParameters :=
  match test_min params, test_max params with
  | Some lo, Some hi =>
      let lo := Py.max lo device_min in
      let hi := Py.min hi device_max in
      if Py.geb lo hi
      then with_range (Some device_min) (Some device_max) params
      else with_range (Some lo) (Some hi) params
  | _, _ => with_range (Some device_min) (Some device_max) params
  end.

(** The message box [on_reconnect] ends with. *)
Inductive notice : Type :=
| RangesUpdatedConnected
| RangesUpdatedDisconnected
| NoRangesRetrieved.

(** The data [MainWindow] keeps per channel. *)
Record window : Type := {
  device_ranges : (option Q * option Q) * (option Q * option Q);
  ch1 : TestParameters;
  ch2 : TestParameters
}.

(** One channel's step of the [for ch in (1,2)] loop of [on_reconnect]:
    the stored range and whether it was refreshed. *)
Definition refresh (old : option Q * option Q) (reply : option RangeBody)
    : (option Q * option Q) * bool :=
  let rng := fetch_device_range reply in
  match rng with
  | (Some _, Some _) => (rng, true)
  | _ => (old, false)
  end.

(** [MainWindow.on_reconnect]: the window data afterwards, whether the
    configuration was saved, and the notice shown; [connected] is the
    verdict on the [/Status] reply. *)
Definition on_reconnect (reply1 reply2 : option RangeBody) (connected : bool)
    (m : window) : window * bool * notice :=
  let (r1, f1) := refresh (fst (device_ranges m)) reply1 in
  let (r2, f2) := refresh (snd (device_ranges m)) reply2 in
  let refreshed := f1 || f2 in
  let m' :=
    if refreshed then
      {| device_ranges := (r1, r2);
         ch1 := _initialize_channel_params (ch1 m) r1;
         ch2 := _initialize_channel_params (ch2 m) r2 |}
    else {| device_ranges := (r1, r2); ch1 := ch1 m; ch2 := ch2 m |} in
  (m', refreshed,
   if refreshed && connected then RangesUpdatedConnected
   else if refreshed then RangesUpdatedDisconnected
   else NoRangesRetrieved).

End Ranges.

(** ** The settings dialog: [SettingsDialog._sanitize_channel] *)

Module Settings.

(** The text of an input field, as [float(...)] sees it. *)
Inductive entry : Type :=
| Blank
| Garbage
| Number (x : Q).

Inductive message : Type :=
| InvalidMin
| InvalidMax
| NegativeWait
| InvalidWait (fallback : Q).

(** The bound typed into a range field (lines 959-966): the value, and
    whether the text was rejected. *)
Definition read_bound (txt : entry) (device_bound : option Q)
    : option Q * bool :=
  match txt, device_bound with
  | Blank, _ => (None, false)
  | _, None => (None, false)
  | Number x, Some _ => (Some x, false)
  | Garbage, Some _ => (None, true)
  end.

Definition _sanitize_channel (txt_min txt_max wait_txt : entry)
    (cycles : Z) (power_curve : bool) (dev : option Q * option Q)
    (current_params : TestParameters)
    : TestParameters * list message :=
  let '(dmin, dmax) := dev in
  let (user_min, bad_min) := read_bound txt_min dmin in
  let (user_max, bad_max) := read_bound txt_max dmax in
  let messages :=
    (if bad_min then [InvalidMin] else [])
    ++ (if bad_max then [InvalidMax] else []) in
  let '(user_min, user_max) :=
    match dmin, dmax with
    | Some dlo, Some dhi =>
        let lo := match user_min with
                  | None => dlo
                  | Some x => if Py.ltb x dlo then dlo else x
                  end in
        let hi := match user_max with
                  | None => dhi
                  | Some x => if Py.ltb dhi x then dhi else x
                  end in
        if Py.geb lo hi then (Some dlo, Some dhi) else (Some lo, Some hi)
    | _, _ => (user_min, user_max)
    end in
  let '(wait_time, messages) :=
    match wait_txt with
    | Number x =>
        if Py.ltb x 0 then (0, messages ++ [NegativeWait])
        else (x, messages)
    | _ =>
        (param_wait_time current_params,
         messages ++ [InvalidWait (param_wait_time current_params)])
    end in
  ({| test_min := user_min; test_max := user_max;
      param_wait_time := wait_time; param_cycles := Some cycles;
      param_measure_power_curve := power_curve |}, messages).

End Settings.

(** ** The panel around the statistics: lifecycle and command log *)

Module Panel.

(** The text of the status pill. *)
Inductive status : Type :=
| Standby
| RangeUnknown
| Running
| PowerCurve
| Completed
| Error.

(** An entry of the command log: the second it was received and the
    command; the source compares the formatted strings. *)
Definition entry : Type := Z * TestWorker.command.

Definition command_eqb (a b : TestWorker.command) : bool :=
  match a, b with
  | TestWorker.CmdPutWavelength x, TestWorker.CmdPutWavelength y =>
      Qeq_bool x y
  | TestWorker.CmdGetStatus, TestWorker.CmdGetStatus => true
  | TestWorker.CmdGetPower, TestWorker.CmdGetPower => true
  | _, _ => false
  end.

Definition entry_eqb (a b : entry) : bool :=
  (fst a =? fst b)%Z && command_eqb (snd a) (snd b).

(** The attributes of [ChannelPanel] beside the statistics. *)
Record t : Type := {
  stats : ChannelPanel.t;
  status_text : status;
  is_test_completed : bool;
  needs_reset_next_start : bool;
  power_curve_data : list PowerSample;
  command_log : list entry;
  timer_active : bool;
  progress : Z
}.

Definition set_stats (st : ChannelPanel.t) (p : t) : t :=
  {| stats := st; status_text := status_text p;
     is_test_completed := is_test_completed p;
     needs_reset_next_start := needs_reset_next_start p;
     power_curve_data := power_curve_data p;
     command_log := command_log p; timer_active := timer_active p;
     progress := progress p |}.

Definition _set_status (text : status) (p : t) : t :=
  {| stats := stats p; status_text := text;
     is_test_completed := is_test_completed p;
     needs_reset_next_start := needs_reset_next_start p;
     power_curve_data := power_curve_data p;
     command_log := command_log p; timer_active := timer_active p;
     progress := progress p |}.

Definition set_aborted (b : bool) (st : ChannelPanel.t) : ChannelPanel.t :=
  {| ChannelPanel.aborted := b;
     ChannelPanel.success_count := ChannelPanel.success_count st;
     ChannelPanel.fail_count := ChannelPanel.fail_count st;
     ChannelPanel.total_time := ChannelPanel.total_time st;
     ChannelPanel.durations := ChannelPanel.durations st;
     ChannelPanel.wavelengths := ChannelPanel.wavelengths st;
     ChannelPanel.success_wavelengths := ChannelPanel.success_wavelengths st;
     ChannelPanel.failed_wavelengths := ChannelPanel.failed_wavelengths st;
     ChannelPanel.total_cycles := ChannelPanel.total_cycles st;
     ChannelPanel.current_wait_time := ChannelPanel.current_wait_time st;
     ChannelPanel.latest_eta := ChannelPanel.latest_eta st;
     ChannelPanel.elapsed_seconds := ChannelPanel.elapsed_seconds st |}.

(** The statistics part of [_clear_statistics]. *)
Definition cleared (st : ChannelPanel.t) : ChannelPanel.t :=
  {| ChannelPanel.aborted := ChannelPanel.aborted st;
     ChannelPanel.success_count := 0;
     ChannelPanel.fail_count := 0;
     ChannelPanel.total_time := 0;
     ChannelPanel.durations := [];
     ChannelPanel.wavelengths := [];
     ChannelPanel.success_wavelengths := [];
     ChannelPanel.failed_wavelengths := [];
     ChannelPanel.total_cycles := ChannelPanel.total_cycles st;
     ChannelPanel.current_wait_time := ChannelPanel.current_wait_time st;
     ChannelPanel.latest_eta := ChannelPanel.EtaDash;
     ChannelPanel.elapsed_seconds := 0 |}.

Definition _clear_statistics (p : t) : t :=
  {| stats := cleared (stats p); status_text := status_text p;
     is_test_completed := false;
     needs_reset_next_start := needs_reset_next_start p;
     power_curve_data := []; command_log := [];
     timer_active := timer_active p; progress := progress p |}.

(** The statistics as [on_start] leaves them (lines 628-645). *)
Definition armed (params : TestParameters) (st : ChannelPanel.t)
    : ChannelPanel.t :=
  {| ChannelPanel.aborted := false;
     ChannelPanel.success_count := ChannelPanel.success_count st;
     ChannelPanel.fail_count := ChannelPanel.fail_count st;
     ChannelPanel.total_time := ChannelPanel.total_time st;
     ChannelPanel.durations := ChannelPanel.durations st;
     ChannelPanel.wavelengths := ChannelPanel.wavelengths st;
     ChannelPanel.success_wavelengths := ChannelPanel.success_wavelengths st;
     ChannelPanel.failed_wavelengths := ChannelPanel.failed_wavelengths st;
     ChannelPanel.total_cycles :=
       ChannelPanel.start_cycles (param_cycles params);
     ChannelPanel.current_wait_time := param_wait_time params;
     ChannelPanel.latest_eta :=
       match ChannelPanel.start_cycles (param_cycles params) with
       | Some _ => ChannelPanel.EtaDash
       | None => ChannelPanel.EtaInfinity
       end;
     ChannelPanel.elapsed_seconds := 0 |}.

(** [on_start]: the panel afterwards and the worker it started, if any.
    [worker_running] is [self.worker and self.worker.isRunning()]. *)
Definition on_start (worker_running : bool) (channel : Z)
    (params : TestParameters) (device_range : option Q * option Q) (p : t)
    : t * option TestWorker.t :=
  if worker_running then (p, None)
  else
    match device_range with
    | (Some device_min, Some device_max) =>
        let params := Ranges.on_start_params params device_min device_max in
        let p :=
          if needs_reset_next_start p
             || negb (ChannelPanel.success_count (stats p) =? 0)%Z
             || negb (ChannelPanel.fail_count (stats p) =? 0)%Z
          then _clear_statistics p else p in
        let worker :=
          TestWorker.init channel params (Some device_min, Some device_max) in
        ({| stats := armed params (stats p); status_text := Running;
            is_test_completed := is_test_completed p;
            needs_reset_next_start := false;
            power_curve_data := power_curve_data p;
            command_log := command_log p; timer_active := true;
            progress := match ChannelPanel.start_cycles (param_cycles params)
                        with
                        | Some _ => 0%Z
                        | None => progress p
                        end |},
         Some worker)
    | _ => (_set_status RangeUnknown p, None)
    end.

(** [on_stop]; [device_known] is [self.device_min is not None]. *)
Definition on_stop (worker_running device_known : bool) (p : t) : t :=
  if negb worker_running then p
  else
    {| stats := ChannelPanel.set_latest_eta ChannelPanel.EtaDash
                  (set_aborted true (stats p));
       status_text := if device_known then Standby else RangeUnknown;
       is_test_completed := is_test_completed p;
       needs_reset_next_start := true;
       power_curve_data := power_curve_data p;
       command_log := command_log p; timer_active := false;
       progress := progress p |}.

(** [_finalize_complete]. *)
Definition _finalize_complete (p : t) : t :=
  if ChannelPanel.aborted (stats p) then p
  else
    {| stats := ChannelPanel._update_timer
                  (ChannelPanel.set_latest_eta ChannelPanel.EtaZero (stats p));
       status_text := Completed;
       is_test_completed := true;
       needs_reset_next_start := true;
       power_curve_data := power_curve_data p;
       command_log := command_log p; timer_active := false;
       progress := progress p |}.

(** The slot of [update_status]; its [wavelength_tested] callback feeds
    the map of the main window, which is no part of the panel. *)
Definition on_result (success : bool) (duration wavelength : Q) (p : t) : t :=
  set_stats (ChannelPanel.on_result success duration wavelength (stats p)) p.

(** The slot of [progress_update]. *)
Definition on_progress (current total : Z) (p : t) : t :=
  if ChannelPanel.aborted (stats p) then p
  else if (0 <? total)%Z then
    {| stats := stats p; status_text := status_text p;
       is_test_completed := is_test_completed p;
       needs_reset_next_start := needs_reset_next_start p;
       power_curve_data := power_curve_data p;
       command_log := command_log p; timer_active := timer_active p;
       progress := current |}
  else p.

(** The slot of [finished]; [measure] is what the parameters say about the
    power curve when the signal arrives. *)
Definition on_worker_finished (measure : bool) (p : t) : t :=
  if ChannelPanel.aborted (stats p) then p
  else if measure then _set_status PowerCurve p
  else _finalize_complete p.

(** The slot of [power_curve_finished]. *)
Definition on_power_curve_finished (data : list PowerSample) (p : t) : t :=
  if ChannelPanel.aborted (stats p) then p
  else
    _finalize_complete
      {| stats := stats p; status_text := status_text p;
         is_test_completed := is_test_completed p;
         needs_reset_next_start := needs_reset_next_start p;
         power_curve_data := data;
         command_log := command_log p; timer_active := timer_active p;
         progress := progress p |}.

(** [l.pop()] on a non-empty list. *)
Definition pop {A : Type} (l : list A) : list A := removelast l.

(** The command log after [on_command_sent] received [cmd] at second
    [now]. *)
Definition log_command (now : Z) (cmd : TestWorker.command)
    (log : list entry) : list entry :=
  match log with
  | first :: _ =>
      if entry_eqb first (now, cmd) then log
      else
        let log := (now, cmd) :: log in
        if (5 <? Py.len log)%Z then pop log else log
  | [] => [(now, cmd)]
  end.

(** The slot of [command_sent]. *)
Definition on_command_sent (now : Z) (cmd : TestWorker.command) (p : t) : t :=
  {| stats := stats p; status_text := status_text p;
     is_test_completed := is_test_completed p;
     needs_reset_next_start := needs_reset_next_start p;
     power_curve_data := power_curve_data p;
     command_log := log_command now cmd (command_log p);
     timer_active := timer_active p; progress := progress p |}.

(** The five connections [on_start] makes: what an effect of the worker
    does to the panel when it is delivered at second [now]. *)
Definition deliver (measure : bool) (now : Z) (e : TestWorker.event) (p : t)
    : t :=
  match e with
  | TestWorker.Emit (TestWorker.update_status s d wl) => on_result s d wl p
  | TestWorker.Emit (TestWorker.progress_update c total) =>
      on_progress c total p
  | TestWorker.Emit TestWorker.finished => on_worker_finished measure p
  | TestWorker.Emit (TestWorker.power_curve_finished data) =>
      on_power_curve_finished data p
  | TestWorker.Emit (TestWorker.command_sent cmd) => on_command_sent now cmd p
  | _ => p
  end.

(** The effects of the worker delivered in the order they happened, the
    k-th at second [times k]. *)
Fixpoint deliver_all (measure : bool) (times : nat -> Z)
    (l : list TestWorker.event) (k : nat) (p : t) : t :=
  match l with
  | [] => p
  | e :: l' =>
      deliver_all measure times l' (S k) (deliver measure (times k) e p)
  end.

(** The lifecycle attributes of a panel: the status pill, whether the test
    is completed, whether the next start resets, whether the timer runs. *)
Definition lifecycle (p : t) : status * bool * bool * bool :=
  (status_text p, is_test_completed p, needs_reset_next_start p,
   timer_active p).

(** What the lifecycle attributes become at a phase-ending signal, on a
    panel that was not aborted. *)
Definition mark (measure : bool) (x : status * bool * bool * bool)
    (m : Ledger.milestone) : status * bool * bool * bool :=
  match m with
  | Ledger.CurveDone _ => (Completed, true, true, false)
  | Ledger.Finished =>
      if measure then
        let '(_, completed, reset, timer) := x in
        (PowerCurve, completed, reset, timer)
      else (Completed, true, true, false)
  end.

(** The power curve the panel holds after a phase-ending signal. *)
Definition curve (data : list PowerSample) (m : Ledger.milestone)
    : list PowerSample :=
  match m with
  | Ledger.CurveDone samples => samples
  | Ledger.Finished => data
  end.

(** The statistics apart from the two clocks (the ETA text and the elapsed
    seconds). *)
Definition books (st : ChannelPanel.t) :=
  (ChannelPanel.aborted st, ChannelPanel.success_count st,
   ChannelPanel.fail_count st, ChannelPanel.total_time st,
   ChannelPanel.durations st, ChannelPanel.wavelengths st,
   ChannelPanel.success_wavelengths st, ChannelPanel.failed_wavelengths st,
   ChannelPanel.total_cycles st, ChannelPanel.current_wait_time st).

(** A panel with nothing recorded: what a run starts from. *)
Definition clean (p : t) : Prop :=
  ChannelPanel.aborted (stats p) = false
  /\ ChannelPanel.success_count (stats p) = 0%Z
  /\ ChannelPanel.fail_count (stats p) = 0%Z
  /\ ChannelPanel.total_time (stats p) = 0
  /\ ChannelPanel.durations (stats p) = []
  /\ ChannelPanel.wavelengths (stats p) = []
  /\ ChannelPanel.success_wavelengths (stats p) = []
  /\ ChannelPanel.failed_wavelengths (stats p) = []
  /\ ChannelPanel.elapsed_seconds (stats p) = 0%Z
  /\ is_test_completed p = false
  /\ power_curve_data p = []
  /\ command_log p = [].

(** [q] shows what [p] shows, the command log apart. *)
Definition frozen (p q : t) : Prop :=
  stats q = stats p
  /\ lifecycle q = lifecycle p
  /\ power_curve_data q = power_curve_data p
  /\ progress q = progress p.

(** The value of the "Rate" label (line 682), in percent. *)
Definition rate (st : ChannelPanel.t) : Q :=
  let attempts_done :=
    (ChannelPanel.success_count st + ChannelPanel.fail_count st)%Z in
  if (attempts_done =? 0)%Z then 0
  else inject_Z (ChannelPanel.success_count st) / inject_Z attempts_done * 100.

(** The parts of an [update_status] signal. *)
Definition succeeded (o : bool * Q * Q) : bool := fst (fst o).
Definition failed (o : bool * Q * Q) : bool := negb (fst (fst o)).
Definition took (o : bool * Q * Q) : Q := snd (fst o).
Definition at_wavelength (o : bool * Q * Q) : Q := snd o.

(** A panel that never ran. *)
Definition fresh : t :=
  {| stats := {| ChannelPanel.aborted := false;
                 ChannelPanel.success_count := 0;
                 ChannelPanel.fail_count := 0;
                 ChannelPanel.total_time := 0;
                 ChannelPanel.durations := [];
                 ChannelPanel.wavelengths := [];
                 ChannelPanel.success_wavelengths := [];
                 ChannelPanel.failed_wavelengths := [];
                 ChannelPanel.total_cycles := None;
                 ChannelPanel.current_wait_time := 0;
                 ChannelPanel.latest_eta := ChannelPanel.EtaDash;
                 ChannelPanel.elapsed_seconds := 0 |};
     status_text := Standby; is_test_completed := false;
     needs_reset_next_start := false; power_curve_data := [];
     command_log := []; timer_active := false; progress := 0 |}.

End Panel.

(** ** Vocabulary for the command log *)

Module CommandLog.

(** The log after the commands [cmds] arrived in this order, each with the
    second it arrived at. *)
Definition log_all (cmds : list Panel.entry) (log : list Panel.entry)
    : list Panel.entry :=
  fold_left (fun log e => Panel.log_command (fst e) (snd e) log) cmds log.

(** No entry of the log (newest first) repeats the entry logged just
    before it. *)
Fixpoint no_repeat (log : list Panel.entry) : Prop :=
  match log with
  | newer :: ((older :: _) as rest) =>
      Panel.entry_eqb older newer = false /\ no_repeat rest
  | _ => True
  end.

End CommandLog.

(** ** The configuration: map zones and the application list *)

Module Config.

(** What [float(z.get(key, default))] meets: no such key, a value that
    [float] rejects, or a number. *)
Inductive field : Type :=
| Missing
| Unreadable
| Value (x : Q).

(** The [fixed_min] and [fixed_max] of [BASE_ZONE_DEFS]. *)
Definition BASE_ZONE_DEFS : list (Q * Q) :=
  [(670, 800); (8001 # 10, 960); (940, 1100); (11001 # 10, 1320)].

Definition read (f : field) (default : Q) : option Q :=
  match f with
  | Missing => Some default
  | Unreadable => None
  | Value x => Some x
  end.

(** The bounds [load_config] stores for one zone (lines 142-150): one
    [try] around both conversions, then the order check. *)
Definition load_zone (base : Q * Q) (zmin zmax : field) : Q * Q :=
  let '(lo, hi) :=
    match read zmin (fst base), read zmax (snd base) with
    | Some lo, Some hi => (lo, hi)
    | _, _ => base
    end in
  if Py.geb lo hi then base else (lo, hi).

(** The loop over a four-element ["zones"] list.  An element that is no
    dict ([None] here) makes an item assignment of the loop raise; the
    result [None] stands for that exception. *)
Fixpoint load_zone_list (bases : list (Q * Q))
    (zs : list (option (field * field))) : option (list (Q * Q)) :=
  match zs, bases with
  | [], _ => Some []
  | Some (zmin, zmax) :: zs', base :: bases' =>
      match load_zone_list bases' zs' with
      | Some rest => Some (load_zone base zmin zmax :: rest)
      | None => None
      end
  | _, _ => None
  end.

(** The value under ["zones"] in the file. *)
Inductive zones_json : Type :=
| NotAList
| ZoneList (zs : list (option (field * field))).

(** The bounds of the zones [load_config] returns (lines 128-150); the
    names and the enabled flags are not modelled. *)
Definition load_zones (z : zones_json) : option (list (Q * Q)) :=
  match z with
  | NotAList => Some BASE_ZONE_DEFS
  | ZoneList zs =>
      if negb (Py.len zs =? 4)%Z then Some BASE_ZONE_DEFS
      else load_zone_list BASE_ZONE_DEFS zs
  end.



(** A zone one can draw. *)
Definition proper (z : Q * Q) : Prop := fst z < snd z.




(** A row of the application list in the dialog: the stripped text of the
    path field and whether its radio button is checked. *)
Definition app_row : Type := (string * bool)%type.

Definition nonempty (s : string) : bool :=
  match s with EmptyString => false | _ => true end.

(** The loop of [_on_apply] over the application rows (lines 1006-1012),
    from [new_apps = []] and [default_index = -1]. *)
Definition collect_apps (rows : list app_row) (acc : list string * Z)
    : list string * Z :=
  fold_left
    (fun (acc : list string * Z) (row : app_row) =>
       let '(new_apps, default_index) := acc in
       let '(path, checked) := row in
       if nonempty path then
         let new_apps := new_apps ++ [path] in
         (new_apps,
          if checked then (Py.len new_apps - 1)%Z else default_index)
       else (new_apps, default_index))
    rows acc.

(** The application list and default index [_on_apply] stores (lines
    1004-1016). *)
Definition apply_apps (rows : list app_row) : list string * Z :=
  let '(new_apps, default_index) := collect_apps rows ([], (-1)%Z) in
  let default_index :=
    if (default_index =? -1)%Z && negb (Py.len new_apps =? 0)%Z then 0%Z
    else default_index in
  (new_apps, default_index).

(** [l.pop(idx)] for [0 <= idx]: the list without that element. *)
Fixpoint pop_at {A : Type} (idx : nat) (l : list A) : option (list A) :=
  match idx, l with
  | O, _ :: l' => Some l'
  | S i, x :: l' =>
      match pop_at i l' with
      | Some r => Some (x :: r)
      | None => None
      end
  | _, [] => None
  end.

(** The Remove button of row [idx] (lines 1061-1066): the list and the
    default index afterwards; [None] stands for the IndexError of [pop]. *)
Definition remove {A : Type} (idx : nat) (apps : list A) (default : Z)
    : option (list A * Z) :=
  match pop_at idx apps with
  | None => None
  | Some apps' =>
      Some (apps',
            if (default =? Z.of_nat idx)%Z then (-1)%Z
            else if (Z.of_nat idx <? default)%Z then (default - 1)%Z
            else default)
  end.

(** [default] is [-1] or an index into [apps]. *)
Definition selects {A : Type} (apps : list A) (default : Z) : Prop :=
  (-1 <= default < Py.len apps)%Z.

(** The entry a default index points at. *)
Definition chosen {A : Type} (apps : list A) (default : Z) : option A :=
  if (default <? 0)%Z then None else nth_error apps (Z.to_nat default).

End Config.

(** ** The wavelength map of the main window *)

Module WavelengthMap.

(** [wavelength_map_data]: a dict from wavelength to 'success' ([true]) or
    'failed', in insertion order. *)
Definition data : Type := list (Q * bool).

(** [d[wl] = status]: an existing key keeps its place. *)
Fixpoint set_item (wl : Q) (status : bool) (d : data) : data :=
  match d with
  | [] => [(wl, status)]
  | (k, v) :: d' =>
      if Qeq_bool k wl then (k, status) :: d'
      else (k, v) :: set_item wl status d'
  end.

(** [d.get(wl)]. *)
Fixpoint lookup (wl : Q) (d : data) : option bool :=
  match d with
  | [] => None
  | (k, v) :: d' => if Qeq_bool k wl then Some v else lookup wl d'
  end.

(** [on_wavelength_tested], the callback both panels call from
    [on_result]. *)
Definition on_wavelength_tested (wl : Q) (success : bool) (d : data) : data :=
  set_item wl success d.

(** The map after a stream of results [(wavelength, success)]. *)
Definition tested (outs : list (Q * bool)) (d : data) : data :=
  fold_left (fun d o => on_wavelength_tested (fst o) (snd o) d) outs d.

(** The percentage of the "Success" pill (line 1351). *)
Definition rate (d : data) : Q :=
  let total := Py.len d in
  let succ := Py.len (filter snd d) in
  if (total =? 0)%Z then 0 else inject_Z succ / inject_Z total * 100.

Inductive pill : Type :=
| Green
| Yellow
| Red.

(** The colour of the pill (lines 1353-1358). *)
Definition pill_of (rate : Q) : pill :=
  if Py.ltb 95 rate then Green
  else if Py.geb rate 80 then Yellow
  else Red.

(** A zone of [zones_cfg] as the map reads it. *)
Record zone : Type := {
  enabled : bool;
  zone_min : Q;
  zone_max : Q
}.

(** [min(l)] and [max(l)] on a non-empty list given by its head. *)
Definition min_of (x : Q) (l : list Q) : Q := fold_left Py.min l x.
Definition max_of (x : Q) (l : list Q) : Q := fold_left Py.max l x.

(** The enabled zones among the first four (lines 1316-1324). *)
Definition enabled_zones (zones : list zone) : list zone :=
  filter enabled (firstn 4 zones).

(** [zone_min, zone_max] (lines 1329-1333). *)
Definition zone_span (zones : list zone) : Q * Q :=
  match enabled_zones zones with
  | z :: zs => (min_of (zone_min z) (map zone_min zs),
                max_of (zone_max z) (map zone_max zs))
  | [] => (670, 900)
  end.

(** [x_min_display, x_max_display] (lines 1325-1339). *)
Definition display (show_zones : bool) (zones : list zone) (d : data)
    : Q * Q :=
  let '(zmin, zmax) := zone_span zones in
  match map fst d with
  | [] => if show_zones then (zmin, zmax) else (670, 900)
  | k :: ks =>
      let data_min := min_of k ks in
      let data_max := max_of k ks in
      if show_zones then (Py.min data_min zmin, Py.max data_max zmax)
      else (data_min, data_max)
  end.

(** The padding of the x axis (lines 1373-1374). *)
Definition pad (x_min_display x_max_display : Q) : Q :=
  let final_span :=
    if Py.ltb x_min_display x_max_display
    then x_max_display - x_min_display else 100 in
  Py.max (final_span * (5 # 100)) 10.

(** The limits handed to [set_xlim] (line 1375). *)
Definition x_limits (show_zones : bool) (zones : list zone) (d : data)
    : Q * Q :=
  let '(x_min_display, x_max_display) := display show_zones zones d in
  let p := pad x_min_display x_max_display in
  (x_min_display - p, x_max_display + p).

(** The status of the last result at wavelength [wl], if there is one. *)
Definition latest (wl : Q) (outs : list (Q * bool)) : option bool :=
  match find (fun o => Qeq_bool (fst o) wl) (rev outs) with
  | Some o => Some (snd o)
  | None => None
  end.

(** No wavelength is a key twice. *)
Fixpoint distinct (d : data) : Prop :=
  match d with
  | [] => True
  | (k, _) :: d' => lookup k d' = None /\ distinct d'
  end.

(** A zone one can draw. *)
Definition proper (z : zone) : Prop := zone_min z < zone_max z.

End WavelengthMap.

(** * Properties *)

Example resolve_inside :
  TestWorker.resolve (Some 1000) (Some 1050) (Some 900) (Some 1100)
  = (Some 1000, Some 1050).
Proof. reflexivity. Qed.

Example points_short : TestWorker.power_curve_points 1000 1005 = Some [1002%Z].
Proof. reflexivity. Qed.

Example points_long :
  TestWorker.power_curve_points 1000 1025 = Some [1000; 1010; 1020; 1025]%Z.
Proof. reflexivity. Qed.

(** ** Order facts about the Python helpers *)

Lemma ltb_true (a b : Q) : Py.ltb a b = true <-> a < b.
Proof.
  unfold Py.ltb. rewrite negb_true_iff, <- not_true_iff_false, Qle_bool_iff.
  split; [apply Qnot_le_lt | apply Qlt_not_le].
Qed.

Lemma ltb_false (a b : Q) : Py.ltb a b = false <-> b <= a.
Proof.
  unfold Py.ltb. rewrite negb_false_iff. apply Qle_bool_iff.
Qed.

Lemma geb_true (a b : Q) : Py.geb a b = true <-> b <= a.
Proof. apply Qle_bool_iff. Qed.

Lemma geb_false (a b : Q) : Py.geb a b = false <-> a < b.
Proof.
  unfold Py.geb. rewrite <- not_true_iff_false, Qle_bool_iff.
  split; [apply Qnot_le_lt | apply Qlt_not_le].
Qed.

Lemma max_ge_r (a b : Q) : b <= Py.max a b.
Proof.
  unfold Py.max. destruct (Py.ltb a b) eqn:H.
  - apply Qle_refl.
  - now apply ltb_false.
Qed.

Lemma max_ge_l (a b : Q) : a <= Py.max a b.
Proof.
  unfold Py.max. destruct (Py.ltb a b) eqn:H.
  - apply Qlt_le_weak. now apply ltb_true.
  - apply Qle_refl.
Qed.

Lemma min_le_r (a b : Q) : Py.min a b <= b.
Proof.
  unfold Py.min. destruct (Py.ltb b a) eqn:H.
  - apply Qle_refl.
  - now apply ltb_false.
Qed.

Lemma min_le_l (a b : Q) : Py.min a b <= a.
Proof.
  unfold Py.min. destruct (Py.ltb b a) eqn:H.
  - apply Qlt_le_weak. now apply ltb_true.
  - apply Qle_refl.
Qed.

Lemma min_ge (a b c : Q) : c <= a -> c <= b -> c <= Py.min a b.
Proof. intros Ha Hb. unfold Py.min. now destruct (Py.ltb b a). Qed.

Lemma max_same (a : Q) : Py.max a a = a.
Proof. unfold Py.max. now destruct (Py.ltb a a). Qed.

Lemma min_same (a : Q) : Py.min a a = a.
Proof. unfold Py.min. now destruct (Py.ltb a a). Qed.

(** The clamp lands in the device interval whenever that interval is not
    empty, whatever value goes in. *)
Lemma clamp_bounds (dlo dhi wl : Q) :
  dlo <= dhi ->
  dlo <= TestWorker.clamp dlo dhi wl /\ TestWorker.clamp dlo dhi wl <= dhi.
Proof.
  intros H. unfold TestWorker.clamp. split.
  - apply min_ge; [apply max_ge_r | exact H].
  - apply min_le_r.
Qed.

(** [int] truncates: it is the floor of a non-negative float and the ceiling
    of a negative one. *)
Lemma int_nonneg (x : Q) : 0 <= x -> Py.int x = Qfloor x.
Proof.
  destruct x as [n d]. unfold Qle, Py.int, Qfloor. simpl. intros H.
  apply Z.quot_div_nonneg; lia.
Qed.

Lemma int_nonpos (x : Q) : x <= 0 -> Py.int x = Qceiling x.
Proof.
  destruct x as [n d]. unfold Qle, Py.int, Qceiling, Qfloor. simpl. intros H.
  replace n with (- - n)%Z at 1 by lia.
  rewrite Z.quot_opp_l by lia. f_equal.
  apply Z.quot_div_nonneg; lia.
Qed.

Lemma int_inject_Z (z : Z) : Py.int (inject_Z z) = z.
Proof. unfold Py.int. simpl. apply Z.quot_1_r. Qed.

Lemma int_mono (x y : Q) : x <= y -> (Py.int x <= Py.int y)%Z.
Proof.
  intros H.
  destruct (Qlt_le_dec x 0) as [Hx | Hx];
    destruct (Qlt_le_dec y 0) as [Hy | Hy].
  - rewrite !int_nonpos by now apply Qlt_le_weak.
    now apply Qceiling_resp_le.
  - rewrite (int_nonpos x) by now apply Qlt_le_weak.
    rewrite (int_nonneg y) by assumption.
    assert (Hc : (Qceiling x <= 0)%Z).
    { change 0%Z with (Qceiling 0). apply Qceiling_resp_le.
      now apply Qlt_le_weak. }
    assert (Hf : (0 <= Qfloor y)%Z).
    { change 0%Z with (Qfloor 0). now apply Qfloor_resp_le. }
    lia.
  - exfalso. apply (Qlt_irrefl 0).
    apply Qle_lt_trans with y; [|assumption].
    now apply Qle_trans with x.
  - rewrite !int_nonneg by (assumption || now apply Qle_trans with x).
    now apply Qfloor_resp_le.
Qed.

(** ** Range resolution *)

(** C7 (amended).  For a known device range [dlo, dhi] the constructor always
    resolves an interval [lo, hi], raises nothing, and [dlo <= lo] and
    [hi <= dhi].  When either requested bound is unset, both bounds become
    the device bounds (a lone requested bound is dropped, not clamped).  When
    both are set, the minimum is clamped up and the maximum down, and a
    degenerate clamp ([min >= max]) gives the device range back unchanged. *)
Theorem resolve_within_device_range :
  forall (rmin rmax : option Q) (dlo dhi : Q),
  exists lo hi : Q,
    TestWorker.resolve rmin rmax (Some dlo) (Some dhi) = (Some lo, Some hi)
    /\ dlo <= lo /\ hi <= dhi
    /\ (rmin = None \/ rmax = None -> lo = dlo /\ hi = dhi)
    /\ (forall a b : Q, rmin = Some a -> rmax = Some b ->
          (Py.max a dlo < Py.min b dhi ->
             lo = Py.max a dlo /\ hi = Py.min b dhi /\ lo < hi)
          /\ (Py.min b dhi <= Py.max a dlo -> lo = dlo /\ hi = dhi)).
Proof.
  intros rmin rmax dlo dhi. unfold TestWorker.resolve.
  destruct rmin as [a|], rmax as [b|].
  1: destruct (Py.geb (Py.max a dlo) (Py.min b dhi)) eqn:Hdeg.
  - apply geb_true in Hdeg. exists dlo, dhi.
    split; [reflexivity|]. split; [apply Qle_refl|]. split; [apply Qle_refl|].
    split.
    + intros [H | H]; discriminate H.
    + intros a' b' Ha Hb. injection Ha as <-. injection Hb as <-. split.
      * intros Hlt. exfalso. exact (Qlt_not_le _ _ Hlt Hdeg).
      * intros _. split; reflexivity.
  - apply geb_false in Hdeg. exists (Py.max a dlo), (Py.min b dhi).
    split; [reflexivity|]. split; [apply max_ge_r|]. split; [apply min_le_r|].
    split.
    + intros [H | H]; discriminate H.
    + intros a' b' Ha Hb. injection Ha as <-. injection Hb as <-. split.
      * intros _. repeat split. exact Hdeg.
      * intros Hle. exfalso. exact (Qlt_not_le _ _ Hdeg Hle).
  - rewrite max_same, min_same. exists dlo, dhi.
    split; [now destruct (Py.geb dlo dhi)|].
    split; [apply Qle_refl|]. split; [apply Qle_refl|].
    split; [now intros _|]. intros a' b' Ha Hb. discriminate Hb.
  - rewrite max_same, min_same. exists dlo, dhi.
    split; [now destruct (Py.geb dlo dhi)|].
    split; [apply Qle_refl|]. split; [apply Qle_refl|].
    split; [now intros _|]. intros a' b' Ha Hb. discriminate Ha.
  - rewrite max_same, min_same. exists dlo, dhi.
    split; [now destruct (Py.geb dlo dhi)|].
    split; [apply Qle_refl|]. split; [apply Qle_refl|].
    split; [now intros _|]. intros a' b' Ha Hb. discriminate Ha.
Qed.

(** C7, as stated, fails: with only a maximum requested, the constructor
    drops it and resolves the full device range, where clamping it would
    give [1000, 1050]. *)
Lemma resolve_drops_lone_bound :
  TestWorker.resolve None (Some 1050) (Some 1000) (Some 1100)
    = (Some 1000, Some 1100)
  /\ resolve_as_specified None (Some 1050) 1000 1100 = (1000, 1050)
  /\ ~ 1100 == 1050.
Proof. repeat split. discriminate. Qed.

(** ** The power-curve grid *)

Lemma last_item_snoc {A : Type} (l : list A) (x : A) :
  Py.last_item (l ++ [x]) = Some x.
Proof.
  induction l as [|y l IH]; [reflexivity|].
  simpl. rewrite IH. now destruct (l ++ [x]) eqn:Hl; [destruct l|].
Qed.

(** [range(a, b + 1, 10)] for [a <= b] counts up from [a] in tens and stops
    at the last value not above [b]. *)
Lemma range_tens (a b : Z) :
  (a <= b)%Z ->
  Py.range a (b + 1) 10 =
  map (fun k => (a + 10 * Z.of_nat k)%Z) (seq 0 (S (Z.to_nat ((b - a) / 10)))).
Proof.
  intros H. unfold Py.range. do 2 f_equal.
  replace (b + 1 - a + 10 - 1)%Z with ((b - a) + 1 * 10)%Z by lia.
  rewrite Z.div_add by lia.
  assert (0 <= (b - a) / 10)%Z by (apply Z.div_pos; lia).
  lia.
Qed.

Lemma span_order (rmin rmax : Q) : 10 <= rmax - rmin -> rmin <= rmax.
Proof. intros H. lra. Qed.

(** The grid for a span of at least 10, spelled out. *)
Lemma power_curve_points_wide (rmin rmax : Q) :
  10 <= rmax - rmin ->
  let a := Py.int rmin in
  let b := Py.int rmax in
  let n := Z.to_nat ((b - a) / 10) in
  let tens := map (fun k => (a + 10 * Z.of_nat k)%Z) (seq 0 (S n)) in
  (a + 10 * Z.of_nat n <= b < a + 10 * Z.of_nat n + 10)%Z
  /\ TestWorker.power_curve_points rmin rmax =
     Some (if (a + 10 * Z.of_nat n <? b)%Z then tens ++ [b] else tens).
Proof.
  intros Hspan a b n tens.
  assert (Hab : (a <= b)%Z) by (apply int_mono, span_order, Hspan).
  assert (Hn : Z.of_nat n = ((b - a) / 10)%Z).
  { unfold n. apply Z2Nat.id. apply Z.div_pos; lia. }
  split.
  - rewrite Hn. pose proof (Z.mod_pos_bound (b - a) 10 ltac:(lia)) as Hm.
    pose proof (Z.div_mod (b - a) 10 ltac:(lia)) as Hd. lia.
  - unfold TestWorker.power_curve_points.
    assert (Hlt : Py.ltb (rmax - rmin) 10 = false) by now apply ltb_false.
    rewrite Hlt. fold a b. rewrite (range_tens a b Hab). fold n. fold tens.
    assert (Hlast : Py.last_item tens = Some (a + 10 * Z.of_nat n)%Z).
    { unfold tens. rewrite seq_S, map_app. simpl. apply last_item_snoc. }
    rewrite Hlast. now destruct (a + 10 * Z.of_nat n <? b)%Z.
Qed.

(** C3 (amended).  The sweep visits integer wavelengths obtained by
    truncation.  A span below 10 nm gives the single point
    [int((min + max) / 2)] (1002 for [1000, 1005]).  Otherwise the points
    are [int(min)], [int(min) + 10], ... up to the last one not above
    [int(max)], followed by [int(max)] itself when it is off that grid
    (1000, 1010, 1020, 1025 for [1000, 1025]); the list is never empty, so
    no IndexError arises.  For integer bounds [a] and [b] this is the grid
    that starts at the lower bound and ends at the exact upper bound.  The
    device clamp applied to each point before it is sent leaves a point
    inside the device range as it is. *)
Theorem power_curve_grid :
  forall rmin rmax : Q,
    (rmax - rmin < 10 ->
       TestWorker.power_curve_points rmin rmax
       = Some [Py.int ((rmin + rmax) / 2)])
    /\ (10 <= rmax - rmin ->
          let a := Py.int rmin in
          let b := Py.int rmax in
          let n := Z.to_nat ((b - a) / 10) in
          let tens := map (fun k => (a + 10 * Z.of_nat k)%Z) (seq 0 (S n)) in
          (a + 10 * Z.of_nat n <= b < a + 10 * Z.of_nat n + 10)%Z
          /\ TestWorker.power_curve_points rmin rmax =
             Some (if (a + 10 * Z.of_nat n <? b)%Z then tens ++ [b] else tens))
    /\ (forall a b : Z, (10 <= b - a)%Z ->
          exists mid : list Z,
            TestWorker.power_curve_points (inject_Z a) (inject_Z b)
            = Some (a :: mid ++ [b]))
    /\ (forall (dlo dhi : Q) (z : Z),
          dlo <= inject_Z z -> inject_Z z <= dhi ->
          TestWorker.clamp dlo dhi (inject_Z z) = inject_Z z)
    /\ TestWorker.power_curve_points 1000 1005 = Some [1002%Z]
    /\ TestWorker.power_curve_points 1000 1025
       = Some [1000; 1010; 1020; 1025]%Z.
Proof.
  intros rmin rmax.
  split; [|split; [|split; [|split; [|split; reflexivity]]]].
  - intros H. unfold TestWorker.power_curve_points.
    now rewrite (proj2 (ltb_true _ _) H).
  - apply power_curve_points_wide.
  - intros a b Hab.
    assert (Hspan : 10 <= inject_Z b - inject_Z a).
    { unfold Qminus. rewrite <- inject_Z_opp, <- inject_Z_plus.
      change 10 with (inject_Z 10). rewrite <- Zle_Qle. lia. }
    destruct (power_curve_points_wide _ _ Hspan) as [Hb Heq].
    rewrite !int_inject_Z in Hb, Heq. rewrite Heq. clear Heq.
    set (n := Z.to_nat ((b - a) / 10)) in *.
    assert (Hn : (1 <= n)%nat).
    { unfold n. change 1%nat with (Z.to_nat 1). apply Z2Nat.inj_le; lia. }
    destruct n as [|m]; [lia|].
    destruct (a + 10 * Z.of_nat (S m) <? b)%Z eqn:Hoff.
    + exists (map (fun k => (a + 10 * Z.of_nat k)%Z) (seq 1 (S m))).
      cbn [seq map]. replace (a + 10 * Z.of_nat 0)%Z with a by lia.
      reflexivity.
    + apply Z.ltb_ge in Hoff.
      exists (map (fun k => (a + 10 * Z.of_nat k)%Z) (seq 1 m)).
      replace (seq 0 (S (S m))) with (0%nat :: seq 1 m ++ [S m]).
      * cbn [map]. rewrite map_app. cbn [map].
        replace (a + 10 * Z.of_nat 0)%Z with a by lia.
        replace (a + 10 * Z.of_nat (S m))%Z with b by lia.
        reflexivity.
      * change (seq 0 (S (S m))) with (0%nat :: seq 1 (S m)).
        now rewrite (seq_S m 1).
  - intros dlo dhi z Hlo Hhi. unfold TestWorker.clamp, Py.max.
    rewrite (proj2 (ltb_false _ _) Hlo). unfold Py.min.
    now rewrite (proj2 (ltb_false _ _) Hhi).
Qed.

(** C3, as stated, fails on a fractional upper bound: the last point for
    [1000, 1025.5] is 1025, not the upper bound of the interval. *)
Lemma power_curve_misses_upper_bound :
  TestWorker.power_curve_points 1000 (2051 # 2)
    = Some [1000; 1010; 1020; 1025]%Z
  /\ ~ inject_Z 1025 == 2051 # 2.
Proof. split; [reflexivity | discriminate]. Qed.

(** ** Statistics and ETA *)

Lemma start_cycles_positive (c : option Z) (n : Z) :
  ChannelPanel.start_cycles c = Some n -> (0 < n)%Z.
Proof.
  unfold ChannelPanel.start_cycles. destruct c as [m|]; [|discriminate].
  destruct (m =? 0)%Z; [discriminate|].
  destruct (0 <? m)%Z eqn:H; [|discriminate].
  intros Heq. injection Heq as <-. now apply Z.ltb_lt.
Qed.

(** What a stream of results does to a panel that was not aborted: every
    result, successful or not, adds its duration to [durations] and one to
    the attempt count; the run parameters stay. *)
Lemma feed_tally (outs : list (bool * Q * Q)) :
  forall p : ChannelPanel.t,
    ChannelPanel.aborted p = false ->
    let p' := ChannelPanel.feed outs p in
    ChannelPanel.aborted p' = false
    /\ ChannelPanel.total_cycles p' = ChannelPanel.total_cycles p
    /\ ChannelPanel.current_wait_time p' = ChannelPanel.current_wait_time p
    /\ ChannelPanel.durations p'
       = ChannelPanel.durations p ++ map (fun o => snd (fst o)) outs
    /\ (ChannelPanel.success_count p' + ChannelPanel.fail_count p'
        = ChannelPanel.success_count p + ChannelPanel.fail_count p
          + Py.len outs)%Z.
Proof.
  induction outs as [|[[s d] wl] outs IH]; intros p Hp.
  - cbn. rewrite app_nil_r. repeat split; try assumption. unfold Py.len.
    simpl. lia.
  - cbn [ChannelPanel.feed fold_left fst snd].
    set (q := ChannelPanel.on_result s d wl p).
    assert (Hq : q = ChannelPanel._update_timer
                       (ChannelPanel._update_eta
                          (ChannelPanel.tally s d wl p))).
    { unfold q, ChannelPanel.on_result. now rewrite Hp. }
    assert (Hab : ChannelPanel.aborted q = false) by (rewrite Hq; exact Hp).
    destruct (IH q Hab) as (H1 & H2 & H3 & H4 & H5).
    fold (ChannelPanel.feed outs q).
    repeat split.
    + exact H1.
    + rewrite H2, Hq. reflexivity.
    + rewrite H3, Hq. reflexivity.
    + rewrite H4, Hq. cbn. now rewrite <- app_assoc.
    + rewrite H5, Hq. unfold Py.len. cbn [List.length].
      rewrite Nat2Z.inj_succ. cbn. destruct s; lia.
Qed.

(** C5 (amended).  After any stream of results fed to a freshly started
    panel: with unbounded cycles the estimate is infinite; otherwise, with
    [remaining = cycles - attemptsDone], it is "0s" when nothing remains,
    unknown while no attempt at all has been recorded, and else
    [remaining * (average duration of all recorded attempts, failed ones
    included, + wait_time + 3)]. *)
Theorem eta_estimate :
  forall (params : TestParameters) (outs : list (bool * Q * Q)),
    let p := ChannelPanel.feed outs (ChannelPanel.started params) in
    let all := map (fun o => snd (fst o)) outs in
    ChannelPanel.estimate_remaining p =
    match ChannelPanel.start_cycles (param_cycles params) with
    | None => ChannelPanel.Unbounded
    | Some n =>
        let remaining := (n - Py.len outs)%Z in
        if (remaining <=? 0)%Z then ChannelPanel.NothingLeft
        else
          match outs with
          | [] => ChannelPanel.Unknown
          | _ =>
              ChannelPanel.Seconds
                (inject_Z remaining
                 * (Py.sum all / inject_Z (Py.len all)
                    + param_wait_time params + 3))
          end
    end.
Proof.
  intros params outs p all.
  destruct (feed_tally outs (ChannelPanel.started params) eq_refl)
    as (_ & Hc & Hw & Hd & Hn).
  fold p in Hc, Hw, Hd, Hn. cbn in Hc, Hw, Hd, Hn. fold all in Hd.
  unfold ChannelPanel.estimate_remaining. rewrite Hc, Hw, Hd, Hn.
  destruct (ChannelPanel.start_cycles (param_cycles params)) as [n|] eqn:Hs;
    [|reflexivity].
  apply start_cycles_positive in Hs.
  replace (n =? 0)%Z with false by (symmetry; apply Z.eqb_neq; lia).
  cbn zeta.
  replace (n - (0 + 0 + Py.len outs))%Z with (n - Py.len outs)%Z by lia.
  destruct (n - Py.len outs <=? 0)%Z; [reflexivity|].
  unfold all. destruct outs; reflexivity.
Qed.

(** C5, as stated, fails twice over.  After one failed attempt and no
    success the estimate is already a number (99 s for 10 cycles, 5 s per
    attempt, 3 s wait), not unknown; and after a 2 s success and a 10 s
    failure the average used is 6 s (96 s left for 8 cycles), where the
    successes alone would give 2 s (64 s). *)
Lemma eta_counts_failed_attempts :
  let params := {| test_min := None; test_max := None; param_wait_time := 3;
                   param_cycles := Some 10%Z;
                   param_measure_power_curve := false |} in
  (exists rem : Q,
     ChannelPanel.estimate_remaining
       (ChannelPanel.feed [(false, 5, 1000)] (ChannelPanel.started params))
     = ChannelPanel.Seconds rem /\ rem == 99)
  /\ (exists rem : Q,
        let p := ChannelPanel.feed [(true, 2, 1000); (false, 10, 1001)]
                   (ChannelPanel.started params) in
        ChannelPanel.estimate_remaining p = ChannelPanel.Seconds rem
        /\ rem == 96
        /\ ChannelPanel.avg p == 2
        /\ ~ rem == 8 * (ChannelPanel.avg p + 3 + 3)).
Proof.
  split.
  - eexists. split; [reflexivity|]. reflexivity.
  - eexists. split; [reflexivity|]. repeat split. discriminate.
Qed.

(** ** The polling loops of an attempt *)

Import TestWorker Obs.

Section Polling.

Variable E : env.

Lemma activation_as_poll (budget : nat) :
  forall w,
    activation_phase E budget w =
    (match fst (poll_until E reports_active (1 # 2) budget w) with
     | Some _ => true
     | None => false
     end,
     snd (poll_until E reports_active (1 # 2) budget w)).
Proof.
  induction budget as [|b IH]; intros w; [reflexivity|].
  cbn [activation_phase poll_until read_running].
  destruct (env_running E (n_running w)); [|reflexivity].
  cbn [negb get_status].
  destruct (body (env_status E _)) as [s|]; [|apply IH].
  unfold reports_active at 1 3.
  destruct (get (IsWavelengthSettingActive s) false); [reflexivity | apply IH].
Qed.

Lemma completion_as_poll (budget : nat) :
  forall w,
    completion_phase E budget w =
    (answered reports_success
       (fst (poll_until E reports_cleared 1 budget w)),
     snd (poll_until E reports_cleared 1 budget w)).
Proof.
  induction budget as [|b IH]; intros w; [reflexivity|].
  cbn [completion_phase poll_until read_running].
  destruct (env_running E (n_running w)); [|reflexivity].
  cbn [negb get_status].
  destruct (body (env_status E _)) as [s|]; [|apply IH].
  unfold reports_cleared at 1 3.
  destruct (get (IsWavelengthSettingActive s) true); [apply IH | reflexivity].
Qed.

End Polling.

Lemma polled_refl (w : world) : polled w w.
Proof.
  repeat split. exists []. now rewrite app_nil_r.
Qed.

Lemma polled_trans (w1 w2 w3 : world) :
  polled w1 w2 -> polled w2 w3 -> polled w1 w3.
Proof.
  intros (A1 & A2 & A3 & A4 & A5 & A6 & A7 & n1 & T1 & Q1)
         (B1 & B2 & B3 & B4 & B5 & B6 & B7 & n2 & T2 & Q2).
  repeat split; try congruence.
  exists (n1 ++ n2). split.
  - now rewrite T2, T1, app_assoc.
  - now rewrite forallb_app, Q1, Q2.
Qed.

Lemma polled_record (e : event) (w : world) :
  quiet e = true -> polled w (record e w).
Proof.
  intros H. repeat split. exists [e]. split; [reflexivity|].
  cbn. now rewrite H.
Qed.

Lemma polled_sleep (d : Q) (w : world) : polled w (sleep d w).
Proof.
  repeat split. exists [Sleep d]. split; reflexivity.
Qed.

Lemma polled_step (E : env) (w : world) :
  polled w (snd (get_status E
                   (emit (command_sent CmdGetStatus)
                      (snd (read_running E w))))).
Proof.
  repeat split.
  exists [Emit (command_sent CmdGetStatus); Http GetStatus].
  split; [|reflexivity]. cbn. now rewrite <- app_assoc.
Qed.

Section PollUntil.

Variable E : env.
Variable hit : ChannelStatus -> bool.
Variable pause : Q.

Lemma poll_until_polled (budget : nat) :
  forall w, polled w (snd (poll_until E hit pause budget w)).
Proof.
  induction budget as [|b IH]; intros w; [apply polled_refl|].
  cbn [poll_until read_running].
  destruct (env_running E (n_running w)).
  - cbn [negb get_status].
    destruct (body (env_status E _)) as [s|].
    + destruct (hit s).
      * apply (polled_step E w).
      * eapply polled_trans; [|apply IH].
        eapply polled_trans; [apply (polled_step E w)|apply polled_sleep].
    + eapply polled_trans; [|apply IH].
      eapply polled_trans; [apply (polled_step E w)|].
      eapply polled_trans; [|apply polled_sleep].
      now apply polled_record.
  - repeat split. exists []. now rewrite app_nil_r.
Qed.

(** A loop of [budget] passes makes at most [budget] polls. *)
Lemma poll_until_budget (budget : nat) :
  forall w,
    (n_status (snd (poll_until E hit pause budget w))
     <= n_status w + budget)%nat.
Proof.
  induction budget as [|b IH]; intros w; [cbn; lia|].
  cbn [poll_until read_running].
  destruct (env_running E (n_running w)); [|cbn; lia].
  cbn [negb get_status].
  destruct (body (env_status E _)) as [s|].
  - destruct (hit s); [cbn; lia|].
    etransitivity; [apply IH|]. cbn. lia.
  - etransitivity; [apply IH|]. cbn. lia.
Qed.

Lemma hits_at_zero (w : world) :
  hits_at E hit w 0 <->
  env_running E (n_running w) = true
  /\ answered hit (body (env_status E (n_status w))) = true.
Proof.
  unfold hits_at, running_at, poll_at. split.
  - intros (Hr & _ & Hh). rewrite Nat.add_0_r in Hh.
    specialize (Hr 0%nat (Nat.le_refl _)). now rewrite Nat.add_0_r in Hr.
  - intros [Hr Hh]. repeat split.
    + intros k Hk. replace k with 0%nat by lia. now rewrite Nat.add_0_r.
    + intros k Hk. lia.
    + now rewrite Nat.add_0_r.
Qed.

Lemma hits_at_succ (w w1 : world) (i : nat) :
  n_running w1 = S (n_running w) ->
  n_status w1 = S (n_status w) ->
  hits_at E hit w (S i) <->
  env_running E (n_running w) = true
  /\ answered hit (body (env_status E (n_status w))) = false
  /\ hits_at E hit w1 i.
Proof.
  intros Hr Hs. unfold hits_at, running_at, poll_at. rewrite Hr, Hs. split.
  - intros (Hrun & Hmiss & Hhit). repeat split.
    + specialize (Hrun 0%nat ltac:(lia)). now rewrite Nat.add_0_r in Hrun.
    + specialize (Hmiss 0%nat ltac:(lia)). now rewrite Nat.add_0_r in Hmiss.
    + intros k Hk. specialize (Hrun (S k) ltac:(lia)).
      now rewrite Nat.add_succ_r in Hrun.
    + intros k Hk. specialize (Hmiss (S k) ltac:(lia)).
      now rewrite Nat.add_succ_r in Hmiss.
    + now rewrite Nat.add_succ_r in Hhit.
  - intros (Hr0 & Hm0 & Hrun & Hmiss & Hhit). repeat split.
    + intros [|k] Hk; [now rewrite Nat.add_0_r|].
      rewrite Nat.add_succ_r. apply Hrun. lia.
    + intros [|k] Hk; [now rewrite Nat.add_0_r|].
      rewrite Nat.add_succ_r. apply Hmiss. lia.
    + now rewrite Nat.add_succ_r.
Qed.

End PollUntil.

Section PollUntilHits.

Variable E : env.
Variable hit : ChannelStatus -> bool.
Variable pause : Q.

(** If poll [i] is the first hit and lies within the budget, the loop stops
    on exactly that reply, after [i + 1] reads of the flag and polls. *)
Lemma poll_until_hit (budget : nat) :
  forall w i,
    (i < budget)%nat -> hits_at E hit w i ->
    exists s,
      poll_at E w i = Some s /\ hit s = true
      /\ fst (poll_until E hit pause budget w) = Some s
      /\ n_running (snd (poll_until E hit pause budget w))
         = (n_running w + S i)%nat
      /\ n_status (snd (poll_until E hit pause budget w))
         = (n_status w + S i)%nat.
Proof.
  induction budget as [|b IH]; intros w i Hi Hh; [lia|].
  cbn [poll_until read_running].
  destruct i as [|i].
  - apply hits_at_zero in Hh. destruct Hh as [Hr Ha].
    unfold poll_at. rewrite Nat.add_0_r, Hr. cbn [negb get_status].
    destruct (body (env_status E (n_status w))) as [s|] eqn:Hb;
      [|discriminate Ha].
    cbn in Ha. cbn [emit record next_running n_status].
    rewrite Hb, Ha. exists s. cbn.
    repeat split; try reflexivity; try assumption; lia.
  - set (w1 := sleep pause
                 (snd (get_status E
                         (emit (command_sent CmdGetStatus)
                            (snd (read_running E w)))))).
    set (w2 := sleep pause
                 (emit connection_lost
                    (snd (get_status E
                            (emit (command_sent CmdGetStatus)
                               (snd (read_running E w))))))).
    assert (H1 : hits_at E hit w (S i) <->
                 env_running E (n_running w) = true
                 /\ answered hit (body (env_status E (n_status w))) = false
                 /\ hits_at E hit w1 i)
      by (apply hits_at_succ; reflexivity).
    assert (H2 : hits_at E hit w (S i) <->
                 env_running E (n_running w) = true
                 /\ answered hit (body (env_status E (n_status w))) = false
                 /\ hits_at E hit w2 i)
      by (apply hits_at_succ; reflexivity).
    destruct (proj1 H1 Hh) as (Hr & Ha & Hh1).
    destruct (proj1 H2 Hh) as (_ & _ & Hh2).
    rewrite Hr. cbn [negb get_status emit record next_running n_status].
    unfold poll_at in *.
    destruct (body (env_status E (n_status w))) as [s|] eqn:Hb.
    + cbn in Ha. rewrite Ha.
      destruct (IH w1 i ltac:(lia) Hh1) as (s' & P1 & P2 & P3 & P4 & P5).
      exists s'. repeat split.
      * rewrite <- P1. cbn. f_equal. f_equal. lia.
      * exact P2.
      * exact P3.
      * etransitivity; [exact P4|]. cbn. lia.
      * etransitivity; [exact P5|]. cbn. lia.
    + destruct (IH w2 i ltac:(lia) Hh2) as (s' & P1 & P2 & P3 & P4 & P5).
      exists s'. repeat split.
      * rewrite <- P1. cbn. f_equal. f_equal. lia.
      * exact P2.
      * exact P3.
      * etransitivity; [exact P4|]. cbn. lia.
      * etransitivity; [exact P5|]. cbn. lia.
Qed.

(** Conversely, a loop that stops on a reply does so at its first hit. *)
Lemma poll_until_some (budget : nat) :
  forall w s,
    fst (poll_until E hit pause budget w) = Some s ->
    exists i, (i < budget)%nat /\ hits_at E hit w i /\ poll_at E w i = Some s.
Proof.
  induction budget as [|b IH]; intros w s; [discriminate|].
  cbn [poll_until read_running].
  destruct (env_running E (n_running w)) eqn:Hr; [|discriminate].
  cbn [negb get_status emit record next_running n_status].
  destruct (body (env_status E (n_status w))) as [s0|] eqn:Hb.
  - destruct (hit s0) eqn:Hs0.
    + cbn. intros Heq. injection Heq as <-. exists 0%nat.
      split; [lia|]. split.
      * apply hits_at_zero. rewrite Hr, Hb. now split.
      * unfold poll_at. now rewrite Nat.add_0_r.
    + intros Hres. apply IH in Hres. destruct Hres as (i & Hi & Hh & Hp).
      exists (S i). split; [lia|]. split.
      * eapply hits_at_succ; [| |split; [exact Hr|split; [|exact Hh]]];
          try reflexivity. now rewrite Hb.
      * rewrite <- Hp. unfold poll_at. cbn. f_equal. f_equal. lia.
  - intros Hres. apply IH in Hres. destruct Hres as (i & Hi & Hh & Hp).
    exists (S i). split; [lia|]. split.
    + eapply hits_at_succ; [| |split; [exact Hr|split; [|exact Hh]]];
        try reflexivity. now rewrite Hb.
    + rewrite <- Hp. unfold poll_at. cbn. f_equal. f_equal. lia.
Qed.

(** The first hit, when there is one, is unique. *)
Lemma hits_at_unique (w : world) (i j : nat) :
  hits_at E hit w i -> hits_at E hit w j -> i = j.
Proof.
  intros (_ & Mi & Hi) (_ & Mj & Hj).
  destruct (Nat.lt_trichotomy i j) as [H | [H | H]]; [|exact H|].
  - rewrite (Mj i H) in Hi. discriminate.
  - rewrite (Mi j H) in Hj. discriminate.
Qed.

End PollUntilHits.

(** ** One attempt *)

Section Attempt.

Variable E : env.

(** The attempt, with its two loops read as [poll_until]. *)
Lemma attempt_unfold (wl : Q) (w : world) :
  _perform_wavelength_attempt E wl w = attempt_with E 10 120 wl w.
Proof.
  unfold _perform_wavelength_attempt, attempt_with, sent.
  cbn [put_wavelength emit record n_put fst snd].
  destruct (body (env_put E (n_put w))); [|reflexivity].
  rewrite activation_as_poll.
  destruct (fst (poll_until E reports_active (1 # 2) 10 _)); [|reflexivity].
  cbn [negb]. now rewrite completion_as_poll.
Qed.

Lemma hits_at_cursors (hit : ChannelStatus -> bool) (w w1 : world) (i : nat) :
  n_running w1 = n_running w -> n_status w1 = n_status w ->
  hits_at E hit w i <-> hits_at E hit w1 i.
Proof.
  intros Hr Hs. unfold hits_at, running_at, poll_at. now rewrite Hr, Hs.
Qed.

Lemma settles_split (a b : nat) (w w2 : world) (i j : nat) :
  n_running w2 = (n_running w + S i)%nat ->
  n_status w2 = (n_status w + S i)%nat ->
  settles_within E a b w i j <->
  body (env_put E (n_put w)) <> None
  /\ (i < a)%nat /\ (j < b)%nat
  /\ hits_at E reports_active w i
  /\ hits_at E reports_cleared w2 j
  /\ answered reports_success (poll_at E w2 j) = true.
Proof.
  intros Hr Hs.
  assert (Hp : forall k, poll_at E w2 k = poll_at E w (S i + k)).
  { intros k. unfold poll_at. rewrite Hs. f_equal. f_equal. lia. }
  assert (Hq : forall k, running_at E w2 k = running_at E w (S i + k)).
  { intros k. unfold running_at. rewrite Hr. f_equal. lia. }
  unfold settles_within, hits_at. split.
  - intros (S1 & S2 & S3 & S4 & S5 & S6 & S7 & S8 & S9).
    repeat split; try assumption.
    + intros k Hk. apply S4. lia.
    + intros k Hk. rewrite Hq. apply S4. lia.
    + intros k Hk. rewrite Hp. now apply S7.
    + now rewrite Hp.
    + now rewrite Hp.
  - intros (S1 & S2 & S3 & (A1 & A2 & A3) & (C1 & C2 & C3) & S9).
    repeat split; try assumption.
    + intros k Hk. destruct (le_lt_dec k i) as [Hki | Hki].
      * now apply A1.
      * replace k with (S i + (k - S i))%nat by lia. rewrite <- Hq.
        apply C1. lia.
    + intros k Hk. rewrite <- Hp. now apply C2.
    + now rewrite <- Hp.
    + now rewrite <- Hp.
Qed.

(** What an attempt with budgets [a] and [b] returns. *)
Lemma attempt_with_outcome (a b : nat) (wl : Q) (w : world) :
  (fst (fst (attempt_with E a b wl w)) = true <->
   exists i j, settles_within E a b w i j)
  /\ snd (fst (attempt_with E a b wl w))
     = clock (snd (attempt_with E a b wl w)) - clock w
  /\ (body (env_put E (n_put w)) = None ->
      fst (fst (attempt_with E a b wl w)) = false
      /\ n_status (snd (attempt_with E a b wl w)) = n_status w)
  /\ ((forall i, (i < a)%nat -> ~ hits_at E reports_active w i) ->
      fst (fst (attempt_with E a b wl w)) = false
      /\ (n_status (snd (attempt_with E a b wl w)) <= n_status w + a)%nat
      /\ (body (env_put E (n_put w)) <> None ->
          snd (attempt_with E a b wl w)
          = snd (poll_until E reports_active (1 # 2) a (sent E wl w)))).
Proof.
  unfold attempt_with.
  set (w1 := sent E wl w).
  assert (Hr1 : n_running w1 = n_running w) by reflexivity.
  assert (Hs1 : n_status w1 = n_status w) by reflexivity.
  split; [|split; [|split]].
  - (* success is exactly settling *)
    destruct (body (env_put E (n_put w))) as [ack|] eqn:Hput.
    + cbn zeta.
      destruct (fst (poll_until E reports_active (1 # 2) a w1))
        as [s|] eqn:Hact.
      * cbn [fst].
        destruct (poll_until_some E _ _ _ _ _ Hact) as (i & Hi & Hhit & Hpi).
        destruct (poll_until_hit E reports_active (1 # 2) a w1 i Hi Hhit)
          as (s' & _ & _ & _ & Hr2 & Hs2).
        set (w2 := snd (poll_until E reports_active (1 # 2) a w1)) in *.
        rewrite Hr1 in Hr2. rewrite Hs1 in Hs2.
        apply (hits_at_cursors _ w w1 i) in Hhit; [|assumption..].
        split.
        -- intros Hok.
           destruct (fst (poll_until E reports_cleared 1 b w2))
             as [c|] eqn:Hdone; [|discriminate Hok].
           destruct (poll_until_some E _ _ _ _ _ Hdone) as (j & Hj & Hc & Hpj).
           exists i, j. apply (settles_split a b w w2 i j Hr2 Hs2).
           repeat split; try assumption; try apply Hhit; try apply Hc.
           ++ rewrite Hput. discriminate.
           ++ rewrite Hpj. exact Hok.
        -- intros (i' & j & Hset).
           pose proof Hset as (_ & _ & _ & Hrun & Hmiss & Hact' & _).
           assert (Hi' : hits_at E reports_active w i').
           { repeat split; try assumption. intros k Hk. apply Hrun. lia. }
           assert (i' = i) by (eapply hits_at_unique; eassumption).
           subst i'.
           apply (settles_split a b w w2 i j Hr2 Hs2) in Hset.
           destruct Hset as (_ & _ & Hj & _ & Hc & Hsucc).
           destruct (poll_until_hit E reports_cleared 1 b w2 j Hj Hc)
             as (c & Hpc & _ & Hfst & _).
           rewrite Hfst. rewrite Hpc in Hsucc. exact Hsucc.
      * cbn [fst]. split; [discriminate|].
        intros (i & j & Hset). exfalso.
        pose proof Hset as (_ & Hi & _ & Hrun & Hmiss & Hact' & _).
        assert (Hhit : hits_at E reports_active w1 i).
        { apply (hits_at_cursors _ w w1 i); [assumption..|].
          repeat split; try assumption. intros k Hk. apply Hrun. lia. }
        destruct (poll_until_hit E reports_active (1 # 2) a w1 i Hi Hhit)
          as (s & _ & _ & Hfst & _).
        rewrite Hfst in Hact. discriminate.
    + cbn [fst]. split; [discriminate|].
      intros (i & j & Hne & _). exfalso. apply Hne. exact Hput.
  - (* duration is elapsed wall time *)
    destruct (body (env_put E (n_put w))); [|cbn [fst snd]; reflexivity].
    cbn zeta.
    destruct (fst (poll_until E reports_active (1 # 2) a w1));
      cbn [fst snd]; reflexivity.
  - (* no answer to the set command *)
    intros Hput. rewrite Hput. split; reflexivity.
  - (* activation timeout *)
    intros Hnone.
    destruct (body (env_put E (n_put w))) as [ack|] eqn:Hput.
    + cbn zeta.
      destruct (fst (poll_until E reports_active (1 # 2) a w1))
        as [s|] eqn:Hact.
      * exfalso.
        destruct (poll_until_some E _ _ _ _ _ Hact) as (i & Hi & Hhit & _).
        apply (Hnone i Hi).
        apply (hits_at_cursors _ w w1 i); assumption.
      * cbn [fst snd]. split; [reflexivity|]. split.
        -- rewrite <- Hs1. apply poll_until_budget.
        -- intros _. reflexivity.
    + cbn [fst snd]. split; [reflexivity|]. split.
      * cbn. lia.
      * intros Hne. exfalso. apply Hne. reflexivity.
Qed.

End Attempt.

Lemma activation_world (E : env) (budget : nat) (w : world) :
  snd (activation_phase E budget w)
  = snd (poll_until E reports_active (1 # 2) budget w).
Proof. rewrite activation_as_poll. reflexivity. Qed.

(** C1.  An attempt reports success exactly when its set command is
    answered, some poll [i] of the 10 activation polls is the first to see
    the is-setting-active flag true, and some poll [j] of the 120 completion
    polls is the first to see it cleared, with state "Success" (all these
    polls being made, i.e. the worker not being stopped before them).  In
    every case the reported duration is the wall time elapsed since the
    attempt began.  When the set command gets no response the attempt fails
    without polling; when none of the 10 activation polls sees the flag
    true, the attempt fails after at most 10 polls and ends in the world
    the activation loop left: the completion loop is not entered. *)
Theorem attempt_outcome :
  forall (E : env) (wl : Q) (w : world),
    (fst (fst (_perform_wavelength_attempt E wl w)) = true <->
     exists i j, settles E w i j)
    /\ snd (fst (_perform_wavelength_attempt E wl w))
       = clock (snd (_perform_wavelength_attempt E wl w)) - clock w
    /\ (body (env_put E (n_put w)) = None ->
        fst (fst (_perform_wavelength_attempt E wl w)) = false
        /\ n_status (snd (_perform_wavelength_attempt E wl w)) = n_status w)
    /\ ((forall i, (i < 10)%nat -> ~ hits_at E reports_active w i) ->
        fst (fst (_perform_wavelength_attempt E wl w)) = false
        /\ (n_status (snd (_perform_wavelength_attempt E wl w))
            <= n_status w + 10)%nat
        /\ (body (env_put E (n_put w)) <> None ->
            snd (_perform_wavelength_attempt E wl w)
            = snd (activation_phase E 10 (sent E wl w)))).
Proof.
  intros E wl w. rewrite attempt_unfold, activation_world.
  exact (attempt_with_outcome E 10 120 wl w).
Qed.

(** The spec's scenario: ten polls that never see the flag set give a failed
    attempt after 10 * 0.5 s, and no eleventh poll. *)
Example stuck_device_times_out :
  let r := _perform_wavelength_attempt Scenario.stuck 1000 (boot 0) in
  fst (fst r) = false /\ snd (fst r) == 5 /\ n_status (snd r) = 10%nat.
Proof. vm_compute. repeat split. Qed.

Example prompt_device_succeeds :
  let r := _perform_wavelength_attempt Scenario.prompt 1000 (boot 0) in
  fst (fst r) = true /\ n_status (snd r) = 2%nat.
Proof. vm_compute. repeat split. Qed.

(** C2 (amended).  The activation loop makes at most [budget] polls (10 in
    an attempt), whatever their replies.  A poll that gets no response
    signals connection-loss, sleeps 0.5 s and uses up one pass of the loop
    like any other: the rest of the phase is the loop with one pass less.
    So when each of the [budget] polls either fails or reports the setting
    not active, the phase times out, however the polls are mixed; for an
    attempt this means failure after at most 10 polls. *)
Theorem activation_budget_counts_every_poll :
  forall (E : env) (budget : nat) (w : world),
    (n_status (snd (activation_phase E budget w)) <= n_status w + budget)%nat
    /\ (env_running E (n_running w) = true ->
        body (env_status E (n_status w)) = None ->
        activation_phase E (S budget) w =
        activation_phase E budget
          (sleep (1 # 2)
             (emit connection_lost
                (snd (get_status E
                        (emit (command_sent CmdGetStatus)
                           (snd (read_running E w))))))))
    /\ ((forall k, (k < budget)%nat ->
           answered reports_active (poll_at E w k) = false) ->
        fst (activation_phase E budget w) = false)
    /\ (forall wl : Q,
          (forall k, (k < 10)%nat ->
             answered reports_active (poll_at E w k) = false) ->
          fst (fst (_perform_wavelength_attempt E wl w)) = false
          /\ (n_status (snd (_perform_wavelength_attempt E wl w))
              <= n_status w + 10)%nat).
Proof.
  intros E budget w. split; [|split; [|split]].
  - rewrite activation_world. apply poll_until_budget.
  - intros Hr Hb. cbn [activation_phase read_running]. rewrite Hr.
    cbn [negb get_status emit record next_running n_status fst snd].
    rewrite Hb. reflexivity.
  - intros Hmiss. rewrite activation_as_poll. cbn [fst].
    destruct (fst (poll_until E reports_active (1 # 2) budget w))
      as [s|] eqn:Hp; [|reflexivity].
    destruct (poll_until_some E _ _ _ _ _ Hp) as (i & Hi & (_ & _ & Hh) & _).
    rewrite (Hmiss i Hi) in Hh. discriminate Hh.
  - intros wl Hmiss. rewrite attempt_unfold.
    destruct (attempt_with_outcome E 10 120 wl w) as (_ & _ & _ & Hto).
    destruct Hto as (Hfalse & Hpolls & _).
    + intros i Hi (_ & _ & Hh). rewrite (Hmiss i Hi) in Hh. discriminate Hh.
    + split; assumption.
Qed.

(** C2, as stated, fails: ten polls without a response, and not one
    successful poll reporting "not yet active", exhaust the activation
    budget; the attempt fails although the eleventh reply would have shown
    the setting active. *)
Lemma failed_polls_exhaust_activation_budget :
  (forall k, (k < 10)%nat -> body (env_status Scenario.late k) = None)
  /\ answered reports_active (body (env_status Scenario.late 10)) = true
  /\ fst (activation_phase Scenario.late 10 (boot 0)) = false
  /\ n_status (snd (activation_phase Scenario.late 10 (boot 0))) = 10%nat
  /\ fst (fst (_perform_wavelength_attempt Scenario.late 1000 (boot 0)))
     = false.
Proof.
  split.
  - intros k Hk. do 10 (destruct k as [|k]; [reflexivity|]). lia.
  - vm_compute. repeat split.
Qed.

(** ** What the trace records *)

Lemma puts_app (l1 l2 : list event) : puts (l1 ++ l2) = puts l1 ++ puts l2.
Proof.
  induction l1 as [|e l1 IH]; [reflexivity|].
  destruct e as [s|d|[wl| |]]; cbn; now rewrite ?IH.
Qed.

Lemma announced_app (l1 l2 : list event) :
  announced (l1 ++ l2) = announced l1 ++ announced l2.
Proof.
  induction l1 as [|e l1 IH]; [reflexivity|].
  destruct e as [[]|d|r]; cbn; now rewrite ?IH.
Qed.

Lemma puts_quiet (l : list event) : forallb quiet l = true -> puts l = [].
Proof.
  induction l as [|e l IH]; [reflexivity|].
  cbn [forallb]. intros H. apply andb_prop in H. destruct H as [He Hl].
  destruct e as [s|d|[wl| |]]; cbn; try apply (IH Hl). discriminate He.
Qed.

Lemma announced_quiet (l : list event) :
  forallb quiet l = true -> announced l = [].
Proof.
  induction l as [|e l IH]; [reflexivity|].
  cbn [forallb]. intros H. apply andb_prop in H. destruct H as [He Hl].
  destruct e as [[]|d|r]; cbn; try apply (IH Hl); discriminate He.
Qed.

Lemma polled_puts (w w' : world) :
  polled w w' -> puts (trace w') = puts (trace w).
Proof.
  intros (_ & _ & _ & _ & _ & _ & _ & new & Ht & Hq).
  now rewrite Ht, puts_app, (puts_quiet new Hq), app_nil_r.
Qed.

Lemma polled_announced (w w' : world) :
  polled w w' -> announced (trace w') = announced (trace w).
Proof.
  intros (_ & _ & _ & _ & _ & _ & _ & new & Ht & Hq).
  now rewrite Ht, announced_app, (announced_quiet new Hq), app_nil_r.
Qed.

Section AttemptEffects.

Variable E : env.

Lemma attempt_with_polled (a b : nat) (wl : Q) (w : world) :
  polled (sent E wl w) (snd (attempt_with E a b wl w)).
Proof.
  unfold attempt_with.
  destruct (body (env_put E (n_put w))).
  - cbn zeta.
    destruct (fst (poll_until E reports_active (1 # 2) a (sent E wl w)));
      cbn [snd].
    + eapply polled_trans; apply poll_until_polled.
    + apply poll_until_polled.
  - cbn [snd]. now apply polled_record.
Qed.

Lemma sent_trace (wl : Q) (w : world) :
  trace (sent E wl w)
  = trace w ++ [Emit (command_sent (CmdPutWavelength wl));
                Http (PutWavelength wl)].
Proof. unfold sent. cbn. now rewrite <- app_assoc. Qed.

(** An attempt sends exactly one wavelength, the one it was given, announces
    no outcome by itself, and leaves the results, the log and the other
    reply streams alone. *)
Lemma attempt_effects (wl : Q) (w : world) :
  let w' := snd (_perform_wavelength_attempt E wl w) in
  test_results w' = test_results w
  /\ fail_log w' = fail_log w
  /\ power_curve_data w' = power_curve_data w
  /\ n_check w' = n_check w
  /\ n_power w' = n_power w
  /\ n_random w' = n_random w
  /\ puts (trace w') = puts (trace w) ++ [wl]
  /\ announced (trace w') = announced (trace w).
Proof.
  cbv zeta. rewrite attempt_unfold.
  pose proof (attempt_with_polled 10 120 wl w) as Hp.
  pose proof (polled_puts _ _ Hp) as Hputs.
  pose proof (polled_announced _ _ Hp) as Hann.
  destruct Hp as (H1 & H2 & H3 & H4 & _ & H6 & H7 & _).
  rewrite sent_trace, puts_app in Hputs.
  rewrite sent_trace, announced_app in Hann.
  cbn [puts announced] in Hputs, Hann. rewrite app_nil_r in Hann.
  repeat split; assumption.
Qed.

End AttemptEffects.

(** ** One pass of the run loop *)

Section Cycle.

Variable E : env.
Variable self : t.

Lemma check_connection_eq (w : world) :
  check_connection E w =
  (reachable (env_check E (n_check w)),
   record (Http GetStatus)
     (advance (took (env_check E (n_check w))) (next_check w))).
Proof. reflexivity. Qed.

(** An unreachable device: the pass only signals the loss and sleeps. *)
Lemma cycle_unreachable (lo hi : Q) (attempts : Z) (w : world) :
  reachable (env_check E (n_check w)) = false ->
  cycle E self lo hi attempts w =
  Ok attempts (sleep 2 (emit connection_lost (snd (check_connection E w)))).
Proof.
  intros H. unfold cycle. rewrite check_connection_eq, H. reflexivity.
Qed.

(** A reachable device with a known range: the pass makes one attempt at a
    clamped wavelength, records and announces its outcome, and counts it. *)
Lemma cycle_reachable (lo hi dlo dhi : Q) (attempts : Z) (w : world) :
  reachable (env_check E (n_check w)) = true ->
  device_min self = Some dlo -> device_max self = Some dhi ->
  exists (u : Q) (o : AttemptOutcome) (w' : world),
    cycle E self lo hi attempts w = Ok (attempts + 1)%Z w'
    /\ wavelength o = clamp dlo dhi (Py.round1 u)
    /\ test_results w' = test_results w ++ [o]
    /\ puts (trace w') = puts (trace w) ++ [wavelength o]
    /\ announced (trace w')
       = announced (trace w) ++ [(wl_success o, wl_duration o, wavelength o)]
    /\ power_curve_data w' = power_curve_data w
    /\ (fail_log w' = fail_log w
        \/ exists line, fail_log w' = fail_log w ++ [line]
                        /\ wl_success o = false).
Proof.
  intros Hreach Hlo Hhi. unfold cycle.
  rewrite check_connection_eq, Hreach. cbn [negb uniform].
  unfold clamp_to_device. rewrite Hlo, Hhi.
  set (w0 := next_random _).
  set (wl := clamp dlo dhi _).
  pose proof (attempt_effects E wl (emit (current_wavelength wl) w0))
    as (F1 & F2 & F3 & F4 & F5 & F6 & F7 & F8).
  destruct (_perform_wavelength_attempt E wl (emit (current_wavelength wl) w0))
    as [[success duration] w2].
  cbn [snd] in F1, F2, F3, F4, F5, F6, F7, F8.
  eexists _, {| timestamp := clock w2; wavelength := wl;
                wl_success := success; wl_duration := duration |}, _.
  split; [reflexivity|]. split; [reflexivity|].
  assert (G7 : puts (trace w2) = puts (trace w) ++ [wl]).
  { rewrite F7. unfold w0. cbn. rewrite !puts_app. cbn.
    now rewrite !app_nil_r. }
  assert (G8 : announced (trace w2) = announced (trace w)).
  { rewrite F8. unfold w0. cbn. rewrite !announced_app. cbn.
    now rewrite !app_nil_r. }
  assert (G1 : test_results w2 = test_results w) by (rewrite F1; reflexivity).
  assert (G2 : fail_log w2 = fail_log w) by (rewrite F2; reflexivity).
  assert (G3 : power_curve_data w2 = power_curve_data w)
    by (rewrite F3; reflexivity).
  clear F1 F2 F3 F4 F5 F6 F7 F8.
  destruct success; cbn [negb].
  - cbn. rewrite !puts_app, !announced_app, G1, G2, G3, G7, G8. cbn.
    rewrite !app_nil_r. repeat split. now left.
  - cbn. rewrite !puts_app, !announced_app, G1, G2, G3, G7, G8. cbn.
    rewrite !app_nil_r. repeat split. right. eexists. split; reflexivity.
Qed.

End Cycle.

(** ** The run loop *)

Section RunLoop.

Variable E : env.
Variable self : t.

Lemma run_loop_step (fuel : nat) (lo hi : Q) (attempts : Z) (w : world) :
  env_running E (n_running w) = true ->
  match cycles self with
  | None => True
  | Some n => (attempts < n)%Z
  end ->
  run_loop E self (S fuel) lo hi attempts w =
  match cycle E self lo hi attempts (next_running w) with
  | Ok attempts' w' => run_loop E self fuel lo hi attempts' w'
  | Raise e w' => (Raised e, attempts, w')
  end.
Proof.
  intros Hr Hc. cbn [run_loop]. unfold loop_guard, read_running. rewrite Hr.
  destruct (cycles self) as [n|]; [|reflexivity].
  apply Z.ltb_lt in Hc. rewrite Hc. reflexivity.
Qed.

Lemma run_loop_exhausted (fuel : nat) (lo hi : Q) (n : Z) (w : world) :
  cycles self = Some n ->
  run_loop E self (S fuel) lo hi n w
  = (Returned, n, snd (read_running E w)).
Proof.
  intros Hc. cbn [run_loop]. unfold loop_guard, read_running. rewrite Hc.
  rewrite Z.ltb_irrefl, andb_false_r. reflexivity.
Qed.

Lemma run_loop_stopped (fuel : nat) (lo hi : Q) (attempts : Z) (w : world) :
  env_running E (n_running w) = false ->
  run_loop E self (S fuel) lo hi attempts w
  = (Returned, attempts, snd (read_running E w)).
Proof.
  intros Hr. cbn [run_loop]. unfold loop_guard, read_running. rewrite Hr.
  reflexivity.
Qed.

End RunLoop.

(** C6.  A pass of the run loop whose reachability check fails signals
    connection loss, sleeps 2 s and hands back the same attempt count.
    However many such passes follow one another, the loop then stands where
    it stood: same count, same results, same failure log, nothing commanded
    and nothing announced; only the clock, the cursors of the flag and of
    the check, and the three events per pass have moved. *)
Theorem outage_leaves_tally_unchanged :
  forall (E : env) (self : t) (lo hi : Q) (attempts : Z) (k fuel : nat)
         (w : world),
    (forall j, (j < k)%nat -> env_running E (n_running w + j) = true) ->
    (forall j, (j < k)%nat ->
       reachable (env_check E (n_check w + j)) = false) ->
    match cycles self with
    | None => True
    | Some n => (attempts < n)%Z
    end ->
    (forall w0, reachable (env_check E (n_check w0)) = false ->
       cycle E self lo hi attempts w0
       = Ok attempts
           (sleep 2 (emit connection_lost (snd (check_connection E w0)))))
    /\ exists w',
         run_loop E self (k + fuel) lo hi attempts w
         = run_loop E self fuel lo hi attempts w'
         /\ test_results w' = test_results w
         /\ fail_log w' = fail_log w
         /\ power_curve_data w' = power_curve_data w
         /\ trace w'
            = trace w
              ++ List.concat
                   (repeat [Http GetStatus; Emit connection_lost; Sleep 2] k)
         /\ n_running w' = (n_running w + k)%nat
         /\ n_check w' = (n_check w + k)%nat
         /\ n_put w' = n_put w /\ n_status w' = n_status w
         /\ n_power w' = n_power w /\ n_random w' = n_random w.
Proof.
  intros E self lo hi attempts k fuel w Hrun Hdown Hcyc.
  split; [intros w0 H0; now apply cycle_unreachable|].
  revert w Hrun Hdown.
  induction k as [|k IH]; intros w Hrun Hdown.
  - exists w. cbn. rewrite app_nil_r, !Nat.add_0_r. repeat split.
  - assert (Hr0 : env_running E (n_running w) = true).
    { rewrite <- (Nat.add_0_r (n_running w)). apply Hrun. lia. }
    assert (Hd0 : reachable (env_check E (n_check w)) = false).
    { rewrite <- (Nat.add_0_r (n_check w)). apply Hdown. lia. }
    cbn [Nat.add]. rewrite (run_loop_step E self _ lo hi attempts w Hr0 Hcyc).
    rewrite cycle_unreachable by exact Hd0.
    set (w1 := sleep 2 (emit connection_lost
                          (snd (check_connection E (next_running w))))).
    destruct (IH w1) as (w' & Hloop & R1 & R2 & R3 & R4 & R5 & R6 & R7 & R8
                         & R9 & R10).
    + intros j Hj. replace (n_running w1 + j)%nat
        with (n_running w + S j)%nat by (cbn; lia). apply Hrun. lia.
    + intros j Hj. replace (n_check w1 + j)%nat
        with (n_check w + S j)%nat by (cbn; lia). apply Hdown. lia.
    + exists w'. split; [exact Hloop|].
      repeat split; try (etransitivity; [eassumption|reflexivity]).
      * rewrite R4. cbn. rewrite <- !app_assoc. reflexivity.
      * rewrite R5. cbn. lia.
      * rewrite R6. cbn. lia.
Qed.

(** A device that is down for two checks: C6 at work on a bounded run. *)
Lemma outage_leaves_tally_unchanged_witness :
  exists w',
    run_loop (Scenario.outage 2)
      (init 1 Scenario.three_cycles (Some 900, Some 1100)) (2 + 4)
      1000 1025 0 (boot 0)
    = run_loop (Scenario.outage 2)
        (init 1 Scenario.three_cycles (Some 900, Some 1100)) 4
        1000 1025 0 w'
    /\ test_results w' = [] /\ fail_log w' = [].
Proof.
  destruct (outage_leaves_tally_unchanged (Scenario.outage 2)
              (init 1 Scenario.three_cycles (Some 900, Some 1100))
              1000 1025 0 2 4 (boot 0)) as (_ & w' & H1 & H2 & H3 & _).
  - intros j Hj. reflexivity.
  - intros j Hj. do 2 (destruct j as [|j]; [reflexivity|]). lia.
  - cbn. lia.
  - exists w'. repeat split; assumption.
Defined.

(** ** Frames *)

Lemma hushed_refl (w : world) : hushed w w.
Proof. repeat split. exists []. now rewrite app_nil_r. Qed.

Lemma hushed_trans (w1 w2 w3 : world) :
  hushed w1 w2 -> hushed w2 w3 -> hushed w1 w3.
Proof.
  intros (A1 & A2 & n1 & T1 & Q1) (B1 & B2 & n2 & T2 & Q2).
  repeat split; try congruence.
  exists (n1 ++ n2). split.
  - now rewrite T2, T1, app_assoc.
  - now rewrite forallb_app, Q1, Q2.
Qed.

Lemma polled_hushed (w w' : world) : polled w w' -> hushed w w'.
Proof.
  intros (A1 & A2 & _ & _ & _ & _ & _ & Hnew). now repeat split.
Qed.

Lemma puts_grow_refl (P : Q -> Prop) (w : world) : puts_grow P w w.
Proof. exists []. now rewrite app_nil_r. Qed.

Lemma puts_grow_trans (P : Q -> Prop) (w1 w2 w3 : world) :
  puts_grow P w1 w2 -> puts_grow P w2 w3 -> puts_grow P w1 w3.
Proof.
  intros (m1 & H1 & F1) (m2 & H2 & F2). exists (m1 ++ m2). split.
  - now rewrite H2, H1, app_assoc.
  - apply Forall_app. now split.
Qed.

Lemma commanded_refl (P : Q -> Prop) (w : world) : commanded P w w.
Proof. repeat split. apply puts_grow_refl. Qed.

Lemma commanded_trans (P : Q -> Prop) (w1 w2 w3 : world) :
  commanded P w1 w2 -> commanded P w2 w3 -> commanded P w1 w3.
Proof.
  intros (A1 & A2 & A3 & A4) (B1 & B2 & B3 & B4).
  repeat split; try congruence. eapply puts_grow_trans; eassumption.
Qed.

Lemma hushed_commanded (P : Q -> Prop) (w w' : world) :
  hushed w w' -> commanded P w w'.
Proof.
  intros (A1 & A2 & new & Ht & Hq). repeat split; try assumption.
  - now rewrite Ht, announced_app, (announced_quiet new Hq), app_nil_r.
  - exists []. split; [|constructor].
    now rewrite Ht, puts_app, (puts_quiet new Hq).
Qed.

Lemma attempt_commanded (E : env) (P : Q -> Prop) (wl : Q) (w : world) :
  P wl -> commanded P w (snd (_perform_wavelength_attempt E wl w)).
Proof.
  intros HP.
  destruct (attempt_effects E wl w) as (F1 & F2 & _ & _ & _ & _ & F7 & F8).
  repeat split; try assumption.
  exists [wl]. split; [exact F7|]. constructor; [exact HP|constructor].
Qed.

(** ** The power-curve sweep *)

Ltac hush :=
  repeat split; eexists;
  (split; [cbn; rewrite <- ?app_assoc; reflexivity | reflexivity]).

Section Sweep.

Variable E : env.
Variable self : t.
Variables dlo dhi : Q.
Hypothesis Hdlo : device_min self = Some dlo.
Hypothesis Hdhi : device_max self = Some dhi.

(** With a known device range the sweep raises nothing, sends only clamped
    wavelengths, and records no attempt outcome. *)
Lemma sweep_commanded (wls : list Z) :
  forall w, exists w',
    sweep E self wls w = Ok tt w' /\ commanded (clamped dlo dhi) w w'.
Proof.
  induction wls as [|z rest IH]; intros w.
  - exists w. split; [reflexivity | apply commanded_refl].
  - cbn [sweep]. unfold read_running.
    destruct (env_running E (n_running w)); cbn [negb].
    2: { eexists. split; [reflexivity|]. apply hushed_commanded.
         repeat split. exists []. now rewrite app_nil_r. }
    rewrite check_connection_eq.
    destruct (reachable (env_check E (n_check (next_running w)))); cbn [negb].
    + unfold clamp_to_device. rewrite Hdlo, Hdhi.
      set (wA := record (Http GetStatus) _).
      set (wl := clamp dlo dhi (inject_Z z)).
      pose proof (attempt_commanded E (clamped dlo dhi) wl wA
                    (ex_intro _ (inject_Z z) eq_refl)) as Hatt.
      destruct (_perform_wavelength_attempt E wl wA) as [[success d] w2].
      cbn [snd] in Hatt.
      match goal with
      | |- context [sweep E self rest ?W] =>
          destruct (IH W) as (w' & Hs & Hc); exists w';
          split; [exact Hs|];
          apply commanded_trans with W; [|exact Hc];
          apply commanded_trans with w2; [|apply hushed_commanded]
      end.
      * apply commanded_trans with wA; [apply hushed_commanded|exact Hatt].
        unfold wA. hush.
      * destruct success; [|apply hushed_refl].
        unfold get_power. cbn [fst snd].
        destruct (body (env_power E _)) as [pr|]; [|hush].
        destruct (get (power_OK pr) false); hush.
    + rewrite check_connection_eq.
      match goal with
      | |- context [reachable ?r] => destruct (reachable r)
      end; cbn [negb].
      2: { eexists. split; [reflexivity|]. apply hushed_commanded. hush. }
      unfold clamp_to_device. rewrite Hdlo, Hdhi.
      set (wA := record (Http GetStatus) _).
      set (wl := clamp dlo dhi (inject_Z z)).
      pose proof (attempt_commanded E (clamped dlo dhi) wl wA
                    (ex_intro _ (inject_Z z) eq_refl)) as Hatt.
      destruct (_perform_wavelength_attempt E wl wA) as [[success d] w2].
      cbn [snd] in Hatt.
      match goal with
      | |- context [sweep E self rest ?W] =>
          destruct (IH W) as (w' & Hs & Hc); exists w';
          split; [exact Hs|];
          apply commanded_trans with W; [|exact Hc];
          apply commanded_trans with w2; [|apply hushed_commanded]
      end.
      * apply commanded_trans with wA; [apply hushed_commanded|exact Hatt].
        unfold wA. hush.
      * destruct success; [|apply hushed_refl].
        unfold get_power. cbn [fst snd].
        destruct (body (env_power E _)) as [pr|]; [|hush].
        destruct (get (power_OK pr) false); hush.
Qed.

End Sweep.

Lemma hushed_puts (w w' : world) :
  hushed w w' -> puts (trace w') = puts (trace w).
Proof.
  intros (_ & _ & new & Ht & Hq).
  now rewrite Ht, puts_app, (puts_quiet new Hq), app_nil_r.
Qed.

(** C4 (amended).  In the sweep, a failed reachability check at a sample
    point signals the loss, pauses 2 s and checks once more.  If the retry
    fails too the sweep ends there and then: neither that point nor any
    remaining one is attempted, and the samples recorded so far are kept.
    If the retry succeeds the point is attempted at its clamped
    wavelength. *)
Theorem sweep_ends_when_retry_fails :
  forall (E : env) (self : t) (dlo dhi : Q) (z : Z) (rest : list Z)
         (w : world),
    device_min self = Some dlo -> device_max self = Some dhi ->
    env_running E (n_running w) = true ->
    reachable (env_check E (n_check w)) = false ->
    (reachable (env_check E (S (n_check w))) = false ->
       exists w',
         sweep E self (z :: rest) w = Ok tt w'
         /\ trace w' = trace w ++ [Http GetStatus; Emit connection_lost;
                                   Sleep 2; Http GetStatus]
         /\ power_curve_data w' = power_curve_data w)
    /\ (reachable (env_check E (S (n_check w))) = true ->
        exists w' more,
          sweep E self (z :: rest) w = Ok tt w'
          /\ puts (trace w')
             = puts (trace w) ++ clamp dlo dhi (inject_Z z) :: more).
Proof.
  intros E self dlo dhi z rest w Hdlo Hdhi Hrun Hdown.
  split; intros Hretry.
  - cbn [sweep]. unfold read_running. rewrite Hrun. cbn [negb].
    rewrite check_connection_eq.
    cbn [n_check next_running]. rewrite Hdown. cbn [negb].
    rewrite check_connection_eq.
    cbn [n_check sleep emit record advance next_check next_running].
    rewrite Hretry. cbn [negb].
    eexists. split; [reflexivity|]. split; [|reflexivity].
    cbn. now rewrite <- !app_assoc.
  - cbn [sweep]. unfold read_running. rewrite Hrun. cbn [negb].
    rewrite check_connection_eq.
    cbn [n_check next_running]. rewrite Hdown. cbn [negb].
    rewrite check_connection_eq.
    cbn [n_check sleep emit record advance next_check next_running].
    rewrite Hretry. cbn [negb].
    unfold clamp_to_device. rewrite Hdlo, Hdhi.
    set (wA := record (Http GetStatus) _).
    set (wl := clamp dlo dhi (inject_Z z)).
    assert (HA : hushed w wA) by (unfold wA; hush).
    destruct (attempt_effects E wl wA) as (_ & _ & _ & _ & _ & _ & F7 & _).
    destruct (_perform_wavelength_attempt E wl wA) as [[success d] w2].
    cbn [snd] in F7.
    match goal with
    | |- context [sweep E self rest ?W] =>
        destruct (sweep_commanded E self dlo dhi Hdlo Hdhi rest W)
          as (w' & Hs & _ & _ & _ & more & Hmore & _);
        assert (HW : hushed w2 W)
    end.
    { destruct success; [|apply hushed_refl].
      unfold get_power. cbn [fst snd].
      destruct (body (env_power E _)) as [pr|]; [|hush].
      destruct (get (power_OK pr) false); hush. }
    exists w', more. split; [exact Hs|].
    rewrite Hmore, (hushed_puts _ _ HW), F7, (hushed_puts _ _ HA).
    now rewrite <- app_assoc.
Qed.

(** C4 at work: behind a link that is down for two checks the sweep over
    [1000, 1025] ends at its first point. *)
Lemma sweep_ends_when_retry_fails_witness :
  exists w',
    sweep (Scenario.outage 2)
      (init 1 Scenario.with_curve (Some 900, Some 1100))
      [1000; 1010; 1020; 1025]%Z (boot 0) = Ok tt w'
    /\ trace w' = [Http GetStatus; Emit connection_lost; Sleep 2;
                   Http GetStatus].
Proof.
  destruct (sweep_ends_when_retry_fails (Scenario.outage 2)
              (init 1 Scenario.with_curve (Some 900, Some 1100))
              900 1100 1000%Z [1010; 1020; 1025]%Z (boot 0)
              eq_refl eq_refl eq_refl eq_refl) as [Hfail _].
  destruct (Hfail eq_refl) as (w' & Hs & Ht & _).
  exists w'. split; [exact Hs | exact Ht].
Defined.

(** C4, as stated, fails: after two failed checks at the first of the four
    sample points the device is reachable and healthy again, yet the sweep
    has ended; none of the three remaining points is attempted. *)
Lemma unreachable_point_ends_the_sweep :
  let self := init 1 Scenario.with_curve (Some 900, Some 1100) in
  let w' := world_of (_measure_power_curve (Scenario.outage 2) self (boot 0)) in
  power_curve_points 1000 1025 = Some [1000; 1010; 1020; 1025]%Z
  /\ (forall n, (2 <= n)%nat ->
        reachable (env_check (Scenario.outage 2) n) = true)
  /\ puts (trace w') = []
  /\ requests (trace w') = [GetStatus; GetStatus]
  /\ n_check w' = 2%nat.
Proof.
  split; [reflexivity|]. split.
  - intros n Hn. do 2 (destruct n as [|n]; [lia|]). reflexivity.
  - vm_compute. repeat split.
Qed.

(** With a single failed check the retry succeeds and all four points are
    attempted. *)
Example sweep_survives_one_failed_check :
  let self := init 1 Scenario.with_curve (Some 900, Some 1100) in
  let w' := world_of (_measure_power_curve (Scenario.outage 1) self (boot 0)) in
  puts (trace w') = [1000; 1010; 1020; 1025]
  /\ List.length (power_curve_data w') = 4%nat.
Proof. vm_compute. repeat split. Qed.

(** ** The whole run *)

Lemma power_curve_points_some (lo hi : Q) :
  exists wls, power_curve_points lo hi = Some wls.
Proof.
  destruct (Qlt_le_dec (hi - lo) 10) as [H | H].
  - eexists. unfold power_curve_points.
    rewrite (proj2 (ltb_true _ _) H). reflexivity.
  - eexists. apply (power_curve_points_wide lo hi H).
Qed.

Section RunFacts.

Variable E : env.
Variable self : t.
Variables lo hi dlo dhi : Q.
Hypothesis Hdlo : device_min self = Some dlo.
Hypothesis Hdhi : device_max self = Some dhi.

(** Whatever the device and the stop flag do, the loop sends only clamped
    wavelengths. *)
Lemma run_loop_commands (fuel : nat) :
  forall attempts w,
    puts_grow (clamped dlo dhi) w
      (snd (run_loop E self fuel lo hi attempts w)).
Proof.
  induction fuel as [|fuel IH]; intros attempts w; [apply puts_grow_refl|].
  cbn [run_loop]. unfold loop_guard, read_running.
  destruct (env_running E (n_running w) && _).
  - destruct (reachable (env_check E (n_check (next_running w)))) eqn:Hre.
    + destruct (cycle_reachable E self lo hi dlo dhi attempts
                  (next_running w) Hre Hdlo Hdhi)
        as (u & o & w1 & Hc & Hwl & _ & Hputs & _).
      rewrite Hc. eapply puts_grow_trans; [|apply IH].
      exists [wavelength o]. split; [exact Hputs|].
      constructor; [|constructor]. now exists (Py.round1 u).
    + rewrite cycle_unreachable by exact Hre.
      eapply puts_grow_trans; [|apply IH].
      exists []. split; [|constructor].
      cbn. rewrite !puts_app. cbn. now rewrite !app_nil_r.
  - exists []. split; [|constructor]. cbn. now rewrite app_nil_r.
Qed.

(** The sweep after the loop: it returns, sends only clamped wavelengths
    and touches neither the results nor the announcements. *)
Lemma measure_power_curve_commanded (w : world) :
  range_min self = Some lo -> range_max self = Some hi ->
  exists w',
    _measure_power_curve E self w = Ok tt w'
    /\ test_results w' = test_results w
    /\ announced (trace w') = announced (trace w)
    /\ puts_grow (clamped dlo dhi) w w'.
Proof.
  intros Hlo Hhi. unfold _measure_power_curve. rewrite Hlo, Hhi.
  destruct (power_curve_points_some lo hi) as (wls & Hw). rewrite Hw.
  destruct (sweep_commanded E self dlo dhi Hdlo Hdhi wls
              (set_power_curve_data [] w))
    as (w1 & Hs & C1 & _ & C3 & more & Hm & HF).
  rewrite Hs. eexists. split; [reflexivity|].
  split; [exact C1|]. split.
  - cbn [emit record trace]. rewrite announced_app. cbn [announced].
    rewrite app_nil_r. exact C3.
  - exists more. split; [|exact HF]. cbn [emit record trace].
    rewrite puts_app. cbn [puts]. rewrite app_nil_r. exact Hm.
Qed.

Section Healthy.

Hypothesis Hrun : forall n, env_running E n = true.
Hypothesis Hreach : forall n, reachable (env_check E n) = true.

(** A bounded loop on a reachable device, never stopped: it leaves after
    exactly the missing number of passes, each recording and announcing one
    outcome. *)
Lemma run_loop_bounded (N : Z) (fuel : nat) :
  cycles self = Some N ->
  forall attempts w,
    (0 <= attempts <= N)%Z ->
    (Z.to_nat (N - attempts) < fuel)%nat ->
    exists w',
      run_loop E self fuel lo hi attempts w = (Returned, N, w')
      /\ List.length (test_results w')
         = (List.length (test_results w) + Z.to_nat (N - attempts))%nat
      /\ List.length (announced (trace w'))
         = (List.length (announced (trace w)) + Z.to_nat (N - attempts))%nat.
Proof.
  intros Hcyc. induction fuel as [|fuel IH]; intros attempts w Hb Hf; [lia|].
  destruct (Z.eq_dec attempts N) as [-> | Hne].
  - rewrite (run_loop_exhausted E self fuel lo hi N w Hcyc).
    eexists. split; [reflexivity|]. rewrite Z.sub_diag. cbn. lia.
  - rewrite run_loop_step; [|apply Hrun|rewrite Hcyc; lia].
    destruct (cycle_reachable E self lo hi dlo dhi attempts
                (next_running w) (Hreach _) Hdlo Hdhi)
      as (u & o & w1 & Hc & _ & Hres & _ & Hann & _).
    rewrite Hc.
    destruct (IH (attempts + 1)%Z w1 ltac:(lia) ltac:(lia))
      as (w' & Hloop & L1 & L2).
    exists w'. split; [exact Hloop|].
    rewrite L1, L2, Hres, Hann, !length_app. cbn. lia.
Qed.

(** An unbounded loop under the same conditions never leaves: after any
    number of passes it has recorded that many outcomes and loops on. *)
Lemma run_loop_unbounded (fuel : nat) :
  cycles self = None ->
  forall attempts w,
    exists w',
      run_loop E self fuel lo hi attempts w
      = (StillLooping, (attempts + Z.of_nat fuel)%Z, w')
      /\ List.length (test_results w')
         = (List.length (test_results w) + fuel)%nat
      /\ List.length (announced (trace w'))
         = (List.length (announced (trace w)) + fuel)%nat.
Proof.
  intros Hcyc. induction fuel as [|fuel IH]; intros attempts w.
  - exists w. cbn [run_loop]. rewrite Z.add_0_r. repeat split; lia.
  - rewrite run_loop_step; [|apply Hrun|now rewrite Hcyc].
    destruct (cycle_reachable E self lo hi dlo dhi attempts
                (next_running w) (Hreach _) Hdlo Hdhi)
      as (u & o & w1 & Hc & _ & Hres & _ & Hann & _).
    rewrite Hc. destruct (IH (attempts + 1)%Z w1) as (w' & Hloop & L1 & L2).
    exists w'. split.
    + rewrite Hloop. do 2 f_equal. lia.
    + rewrite L1, L2, Hres, Hann, !length_app. cbn. lia.
Qed.

End Healthy.

End RunFacts.

Ltac same_puts :=
  eexists [];
  (split; [cbn; rewrite ?puts_app; cbn; rewrite ?app_nil_r; reflexivity
          | constructor]).

Section Run.

Variable E : env.
Variable self : t.
Variables lo hi dlo dhi : Q.
Hypothesis Hlo : range_min self = Some lo.
Hypothesis Hhi : range_max self = Some hi.
Hypothesis Hdlo : device_min self = Some dlo.
Hypothesis Hdhi : device_max self = Some dhi.

(** Every wavelength a run sends, in the loop or in the sweep, went through
    the device clamp. *)
Lemma run_commands (fuel : nat) (w : world) :
  puts_grow (clamped dlo dhi) w (snd (run E self fuel w)).
Proof.
  unfold run. rewrite Hlo, Hhi.
  set (w0 := set_test_results [] (configure_logs w)).
  assert (H0 : puts_grow (clamped dlo dhi) w w0) by (unfold w0; same_puts).
  pose proof (run_loop_commands E self lo hi dlo dhi Hdlo Hdhi fuel 0%Z w0)
    as Hloop.
  revert Hloop.
  destruct (run_loop E self fuel lo hi 0 w0) as [[e a] w1].
  cbn [snd]. intros Hloop.
  assert (H1 : puts_grow (clamped dlo dhi) w w1)
    by exact (puts_grow_trans _ _ _ _ H0 Hloop).
  destruct e; cbn [snd]; try exact H1.
  destruct (measure_power_curve self).
  - unfold read_running. destruct (env_running E (n_running w1)).
    + destruct (measure_power_curve_commanded E self lo hi dlo dhi Hdlo Hdhi
                  (next_running w1) Hlo Hhi) as (w2 & Hm & _ & _ & Hg).
      rewrite Hm. cbn [snd].
      eapply puts_grow_trans; [exact H1|].
      eapply puts_grow_trans; [|eapply puts_grow_trans; [exact Hg|]];
        same_puts.
    + cbn [snd]. eapply puts_grow_trans; [exact H1|]. same_puts.
  - cbn [snd]. eapply puts_grow_trans; [exact H1|]. same_puts.
Qed.

Hypothesis Hrun : forall n, env_running E n = true.
Hypothesis Hreach : forall n, reachable (env_check E n) = true.

(** A bounded run on a reachable device, never stopped, returns having
    recorded and announced exactly [N] outcomes. *)
Lemma run_bounded (N : Z) (fuel : nat) (w : world) :
  cycles self = Some N -> (0 < N)%Z -> (Z.to_nat N < fuel)%nat ->
  exists w',
    run E self fuel w = (Returned, w')
    /\ List.length (test_results w') = Z.to_nat N
    /\ List.length (announced (trace w'))
       = (List.length (announced (trace w)) + Z.to_nat N)%nat.
Proof.
  intros Hcyc HN Hfuel. unfold run. rewrite Hlo, Hhi.
  set (w0 := set_test_results [] (configure_logs w)).
  destruct (run_loop_bounded E self lo hi dlo dhi Hdlo Hdhi Hrun Hreach
              N fuel Hcyc 0%Z w0 ltac:(lia)
              ltac:(rewrite Z.sub_0_r; exact Hfuel))
    as (w1 & Hloop & L1 & L2).
  rewrite Hloop. rewrite Z.sub_0_r in L1, L2. cbn in L1, L2.
  destruct (measure_power_curve self).
  - unfold read_running. rewrite Hrun.
    destruct (measure_power_curve_commanded E self lo hi dlo dhi Hdlo Hdhi
                (next_running w1) Hlo Hhi) as (w2 & Hm & M1 & M2 & _).
    rewrite Hm. eexists. split; [reflexivity|].
    cbn [emit record test_results trace]. rewrite announced_app.
    cbn [announced]. rewrite app_nil_r, M1, M2. split; assumption.
  - eexists. split; [reflexivity|].
    cbn [emit record test_results trace]. rewrite announced_app.
    cbn [announced]. rewrite app_nil_r. split; assumption.
Qed.

(** An unbounded run under the same conditions is still in its loop after
    any number of passes, with one outcome per pass. *)
Lemma run_unbounded (fuel : nat) (w : world) :
  cycles self = None ->
  exists w',
    run E self fuel w = (StillLooping, w')
    /\ List.length (test_results w') = fuel
    /\ List.length (announced (trace w'))
       = (List.length (announced (trace w)) + fuel)%nat.
Proof.
  intros Hcyc. unfold run. rewrite Hlo, Hhi.
  set (w0 := set_test_results [] (configure_logs w)).
  destruct (run_loop_unbounded E self lo hi dlo dhi Hdlo Hdhi Hrun Hreach
              fuel Hcyc 0%Z w0) as (w1 & Hloop & L1 & L2).
  rewrite Hloop. exists w1. split; [reflexivity|]. split; assumption.
Qed.

End Run.

Lemma resolve_some (rmin rmax : option Q) (dlo dhi : Q) :
  exists lo hi, resolve rmin rmax (Some dlo) (Some dhi) = (Some lo, Some hi).
Proof.
  unfold resolve.
  destruct rmin as [a|], rmax as [b|];
    match goal with
    | |- context [Py.geb ?x ?y] => destruct (Py.geb x y)
    end; eexists _, _; reflexivity.
Qed.

Lemma init_known (ch : Z) (params : TestParameters) (dlo dhi : Q) :
  exists lo hi,
    range_min (init ch params (Some dlo, Some dhi)) = Some lo
    /\ range_max (init ch params (Some dlo, Some dhi)) = Some hi.
Proof.
  destruct (resolve_some (test_min params) (test_max params) dlo dhi)
    as (lo & hi & H).
  exists lo, hi. cbn [init range_min range_max]. now rewrite H.
Qed.

(** C8.  For a device range [dlo <= dhi], every wavelength a run sends to
    the device lies in [dlo, dhi]: the value drawn from the resolved
    interval and rounded to one decimal goes through the device clamp right
    before it is sent, and the clamp lands in the range whatever it is
    given. *)
Theorem commanded_wavelengths_within_device_range :
  forall (E : env) (ch : Z) (params : TestParameters) (dlo dhi : Q)
         (fuel : nat) (w : world),
    dlo <= dhi ->
    (forall u : Q,
       dlo <= clamp dlo dhi (Py.round1 u)
       /\ clamp dlo dhi (Py.round1 u) <= dhi)
    /\ exists more,
         puts (trace (snd (run E (init ch params (Some dlo, Some dhi))
                             fuel w)))
         = puts (trace w) ++ more
         /\ Forall (fun wl => dlo <= wl /\ wl <= dhi) more.
Proof.
  intros E ch params dlo dhi fuel w Hd. split.
  - intros u. now apply clamp_bounds.
  - destruct (init_known ch params dlo dhi) as (lo & hi & Hlo & Hhi).
    destruct (run_commands E (init ch params (Some dlo, Some dhi))
                lo hi dlo dhi Hlo Hhi eq_refl eq_refl fuel w)
      as (more & Hm & HF).
    exists more. split; [exact Hm|].
    apply (Forall_impl _ (P := clamped dlo dhi)); [|exact HF].
    intros x (v & ->). now apply clamp_bounds.
Qed.

(** C8 on a three-cycle run against a healthy device with range
    [900, 1100]. *)
Lemma commanded_wavelengths_within_device_range_witness :
  exists more,
    puts (trace (snd (run Scenario.prompt
                        (init 1 Scenario.three_cycles (Some 900, Some 1100))
                        5 (boot 0))))
    = puts (trace (boot 0)) ++ more
    /\ Forall (fun wl => 900 <= wl /\ wl <= 1100) more.
Proof.
  apply (commanded_wavelengths_within_device_range Scenario.prompt 1
           Scenario.three_cycles 900 1100 5 (boot 0)).
  unfold Qle. cbn. lia.
Defined.

(** C9.  Against a device whose reachability checks all succeed and with no
    stop request, a run started with a positive cycle count [N] returns
    (given fuel for more than [N] passes) having recorded and announced
    exactly [N] outcomes; a run started with no cycle count, or with one
    that is zero or negative, is unbounded: after any number of passes it
    has recorded one outcome per pass and is still in its loop.  A loop
    whose guard reads the flag cleared leaves at once. *)
Theorem run_emits_one_outcome_per_cycle :
  forall (E : env) (ch : Z) (params : TestParameters) (dlo dhi : Q)
         (fuel : nat) (w : world),
    (forall n, env_running E n = true) ->
    (forall n, reachable (env_check E n) = true) ->
    (forall N, param_cycles params = Some N -> (0 < N)%Z ->
       (Z.to_nat N < fuel)%nat ->
       exists w',
         run E (init ch params (Some dlo, Some dhi)) fuel w = (Returned, w')
         /\ Py.len (test_results w') = N
         /\ Py.len (announced (trace w'))
            = (Py.len (announced (trace w)) + N)%Z)
    /\ (param_cycles params = None
        \/ (exists N, param_cycles params = Some N /\ (N <= 0)%Z) ->
        exists w',
          run E (init ch params (Some dlo, Some dhi)) fuel w
          = (StillLooping, w')
          /\ List.length (test_results w') = fuel
          /\ List.length (announced (trace w'))
             = (List.length (announced (trace w)) + fuel)%nat)
    /\ (forall (E' : env) (lo hi : Q) (attempts : Z) (w0 : world) (k : nat),
          env_running E' (n_running w0) = false ->
          run_loop E' (init ch params (Some dlo, Some dhi)) (S k) lo hi
            attempts w0
          = (Returned, attempts, snd (read_running E' w0))).
Proof.
  intros E ch params dlo dhi fuel w Hrun Hreach.
  destruct (init_known ch params dlo dhi) as (lo & hi & Hlo & Hhi).
  split; [|split].
  - intros N HN Hpos Hfuel.
    destruct (run_bounded E (init ch params (Some dlo, Some dhi))
                lo hi dlo dhi Hlo Hhi eq_refl eq_refl Hrun Hreach
                N fuel w) as (w' & Hr & L1 & L2).
    + cbn [init cycles]. rewrite HN. cbn [init_cycles].
      now replace (N <=? 0)%Z with false by (symmetry; apply Z.leb_gt; lia).
    + exact Hpos.
    + exact Hfuel.
    + exists w'. split; [exact Hr|]. unfold Py.len. rewrite L1, L2. lia.
  - intros Hunb.
    apply (run_unbounded E (init ch params (Some dlo, Some dhi))
             lo hi dlo dhi Hlo Hhi eq_refl eq_refl Hrun Hreach fuel w).
    cbn [init cycles].
    destruct Hunb as [-> | (N & -> & HN)]; [reflexivity|].
    cbn [init_cycles].
    now replace (N <=? 0)%Z with true by (symmetry; apply Z.leb_le; lia).
  - intros E' lo' hi' attempts w0 k Hstop. now apply run_loop_stopped.
Qed.

(** C9 on a three-cycle run against a healthy device. *)
Lemma run_emits_one_outcome_per_cycle_witness :
  exists w',
    run Scenario.prompt (init 1 Scenario.three_cycles (Some 900, Some 1100))
      4 (boot 0) = (Returned, w')
    /\ Py.len (test_results w') = 3%Z.
Proof.
  destruct (run_emits_one_outcome_per_cycle Scenario.prompt 1
              Scenario.three_cycles 900 1100 4 (boot 0)
              (fun _ => eq_refl) (fun _ => eq_refl)) as (Hb & _).
  destruct (Hb 3%Z eq_refl eq_refl ltac:(cbn; lia)) as (w' & Hr & Hl & _).
  exists w'. split; [exact Hr | exact Hl].
Defined.

(** C10.  When either device bound is missing the constructor leaves both
    resolved bounds unset, and [run] then only creates the failure log,
    empties the result list and emits [finished]: it returns with no
    outcome recorded, no request sent to the device, no reply consumed and
    no power-curve data. *)
Theorem run_with_unknown_range_finishes_at_once :
  forall (E : env) (ch : Z) (params : TestParameters)
         (device_range : option Q * option Q) (fuel : nat) (w : world),
    fst device_range = None \/ snd device_range = None ->
    range_min (init ch params device_range) = None
    /\ range_max (init ch params device_range) = None
    /\ run E (init ch params device_range) fuel w
       = (Returned, emit finished (set_test_results [] (configure_logs w)))
    /\ test_results (snd (run E (init ch params device_range) fuel w)) = []
    /\ trace (snd (run E (init ch params device_range) fuel w))
       = trace w ++ [Emit finished]
    /\ power_curve_data (snd (run E (init ch params device_range) fuel w))
       = power_curve_data w
    /\ n_check (snd (run E (init ch params device_range) fuel w)) = n_check w
    /\ n_put (snd (run E (init ch params device_range) fuel w)) = n_put w
    /\ n_status (snd (run E (init ch params device_range) fuel w))
       = n_status w
    /\ n_power (snd (run E (init ch params device_range) fuel w)) = n_power w.
Proof.
  intros E ch params [dmin dmax] fuel w Hnone. cbn [fst snd] in Hnone.
  assert (Hres : resolve (test_min params) (test_max params) dmin dmax
                 = (None, None)).
  { unfold resolve. destruct Hnone as [-> | ->]; [reflexivity|].
    now destruct dmin. }
  unfold run. cbn [init range_min range_max]. rewrite Hres. cbn [fst snd].
  repeat split.
Qed.

(** C10 with a device that reported no minimum. *)
Lemma run_with_unknown_range_finishes_at_once_witness :
  run Scenario.prompt (init 1 Scenario.three_cycles (None, Some 1100))
    4 (boot 0)
  = (Returned,
     emit finished (set_test_results [] (configure_logs (boot 0)))).
Proof.
  apply (run_with_unknown_range_finishes_at_once Scenario.prompt 1
           Scenario.three_cycles (None, Some 1100) 4 (boot 0)).
  left. reflexivity.
Defined.

(** A healthy three-cycle run end to end: three successes, a pristine
    failure log, and a [finished] signal last. *)
Example healthy_run :
  let r := run Scenario.prompt
             (init 1 Scenario.three_cycles (Some 900, Some 1100)) 4 (boot 0) in
  fst r = Returned
  /\ map wl_success (test_results (snd r)) = [true; true; true]
  /\ List.length (fail_log (snd r)) = 1%nat
  /\ last (trace (snd r)) (Sleep 0) = Emit finished.
Proof. vm_compute. repeat split. Qed.

(** * Further properties of the engine *)

Import Ledger.

(** ** Time and requests of one attempt *)

Section AttemptBounds.

Variable E : env.
Variable L : Q.
Hypothesis Hput : forall n, 0 <= took (env_put E n) /\ took (env_put E n) <= L.
Hypothesis Hstatus :
  forall n, 0 <= took (env_status E n) /\ took (env_status E n) <= L.

Lemma budget_succ (b : nat) (x : Q) :
  inject_Z (Z.of_nat (S b)) * x == inject_Z (Z.of_nat b) * x + x.
Proof.
  rewrite Nat2Z.inj_succ. unfold Z.succ. rewrite inject_Z_plus. ring.
Qed.

(** A polling loop takes at most [budget] pauses and [budget] replies. *)
Lemma poll_until_clock (hit : ChannelStatus -> bool) (pause : Q)
    (budget : nat) :
  0 <= pause ->
  forall w,
    clock w <= clock (snd (poll_until E hit pause budget w))
    /\ clock (snd (poll_until E hit pause budget w))
       <= clock w + inject_Z (Z.of_nat budget) * (pause + L).
Proof.
  intros Hpause. induction budget as [|b IH]; intros w.
  - cbn [poll_until snd Z.of_nat]. change (inject_Z 0) with 0. split; lra.
  - pose proof (budget_succ b (pause + L)) as Hb.
    destruct (Hstatus (n_status w)) as [T0 T1].
    assert (HL : 0 <= L) by lra.
    assert (Hnn : 0 <= inject_Z (Z.of_nat b) * (pause + L)).
    { apply Qmult_le_0_compat; [|lra].
      change 0 with (inject_Z 0). rewrite <- Zle_Qle. lia. }
    cbn [poll_until read_running].
    destruct (env_running E (n_running w));
      [|cbn [negb snd clock next_running]; split; lra].
    cbn [negb get_status emit record next_running n_status fst snd].
    destruct (body (env_status E (n_status w))) as [s|].
    + destruct (hit s).
      * cbn [snd clock next_status next_running emit record advance].
        split; lra.
      * match goal with
        | |- context [poll_until E hit pause b ?W] =>
            destruct (IH W) as [I0 I1]
        end.
        cbn [clock sleep next_status next_running emit record advance]
          in I0, I1.
        split; lra.
    + match goal with
      | |- context [poll_until E hit pause b ?W] =>
          destruct (IH W) as [I0 I1]
      end.
      cbn [clock sleep next_status next_running emit record advance]
        in I0, I1.
      split; lra.
Qed.

Lemma attempt_with_clock (a b : nat) (wl : Q) (w : world) :
  0 <= snd (fst (attempt_with E a b wl w))
  /\ snd (fst (attempt_with E a b wl w))
     <= L + inject_Z (Z.of_nat a) * ((1 # 2) + L)
          + inject_Z (Z.of_nat b) * (1 + L).
Proof.
  destruct (Hput (n_put w)) as [P0 P1].
  assert (HL : 0 <= L) by lra.
  assert (Ha : 0 <= inject_Z (Z.of_nat a) * ((1 # 2) + L)).
  { apply Qmult_le_0_compat; [|lra].
    change 0 with (inject_Z 0). rewrite <- Zle_Qle. lia. }
  assert (Hb : 0 <= inject_Z (Z.of_nat b) * (1 + L)).
  { apply Qmult_le_0_compat; [|lra].
    change 0 with (inject_Z 0). rewrite <- Zle_Qle. lia. }
  assert (Hsent : clock (sent E wl w) = clock w + took (env_put E (n_put w)))
    by reflexivity.
  unfold attempt_with.
  destruct (body (env_put E (n_put w))).
  - cbn zeta.
    destruct (poll_until_clock reports_active (1 # 2) a ltac:(lra)
                (sent E wl w)) as [A0 A1].
    destruct (fst (poll_until E reports_active (1 # 2) a (sent E wl w)));
      cbn [fst snd].
    + destruct (poll_until_clock reports_cleared 1 b ltac:(lra)
                  (snd (poll_until E reports_active (1 # 2) a (sent E wl w))))
        as [C0 C1].
      rewrite Hsent in *. split; lra.
    + rewrite Hsent in *. split; lra.
  - cbn [fst snd emit record clock]. rewrite Hsent. split; lra.
Qed.

End AttemptBounds.

Lemma attempt_with_requests (E : env) (a b : nat) (wl : Q) (w : world) :
  n_put (snd (attempt_with E a b wl w)) = S (n_put w)
  /\ (n_status (snd (attempt_with E a b wl w)) <= n_status w + a + b)%nat.
Proof.
  split.
  - destruct (attempt_with_polled E a b wl w)
      as (_ & _ & _ & _ & Hp & _).
    rewrite Hp. reflexivity.
  - unfold attempt_with.
    destruct (body (env_put E (n_put w))); [|cbn; lia].
    cbn zeta.
    pose proof (poll_until_budget E reports_active (1 # 2) a (sent E wl w))
      as Ha.
    change (n_status (sent E wl w)) with (n_status w) in Ha.
    destruct (fst (poll_until E reports_active (1 # 2) a (sent E wl w)));
      cbn [snd]; [|lia].
    pose proof (poll_until_budget E reports_cleared 1 b
                  (snd (poll_until E reports_active (1 # 2) a (sent E wl w))))
      as Hb.
    lia.
Qed.

(** X1.  An attempt is bounded in requests and in time.  It sends exactly
    one set command, makes at most 130 status polls, and never checks
    reachability or reads the power.  If every reply it waits for arrives
    within [L] seconds, its reported duration lies between 0 and
    [125 + 131 * L] seconds: 10 half-second and 120 one-second pauses plus
    131 replies. *)
Theorem attempt_is_bounded :
  forall (E : env) (L wl : Q) (w : world),
    (forall n, 0 <= took (env_put E n) /\ took (env_put E n) <= L) ->
    (forall n, 0 <= took (env_status E n) /\ took (env_status E n) <= L) ->
    0 <= snd (fst (_perform_wavelength_attempt E wl w))
    /\ snd (fst (_perform_wavelength_attempt E wl w)) <= 125 + 131 * L
    /\ n_put (snd (_perform_wavelength_attempt E wl w)) = S (n_put w)
    /\ (n_status (snd (_perform_wavelength_attempt E wl w))
        <= n_status w + 130)%nat
    /\ n_check (snd (_perform_wavelength_attempt E wl w)) = n_check w
    /\ n_power (snd (_perform_wavelength_attempt E wl w)) = n_power w.
Proof.
  intros E L wl w Hput Hstatus.
  destruct (attempt_effects E wl w) as (_ & _ & _ & F4 & F5 & _).
  split; [|split; [|split; [|split; [|split; [exact F4 | exact F5]]]]];
    rewrite attempt_unfold.
  - apply (attempt_with_clock E L Hput Hstatus 10 120 wl w).
  - destruct (attempt_with_clock E L Hput Hstatus 10 120 wl w) as [_ H].
    eapply Qle_trans; [exact H|].
    change (inject_Z (Z.of_nat 10)) with 10.
    change (inject_Z (Z.of_nat 120)) with 120. lra.
  - apply (attempt_with_requests E 10 120 wl w).
  - destruct (attempt_with_requests E 10 120 wl w) as [_ H]. lia.
Qed.

(** X1 on a device that answers at once but never starts moving. *)
Lemma attempt_is_bounded_witness :
  0 <= snd (fst (_perform_wavelength_attempt Scenario.stuck 1000 (boot 0)))
  /\ snd (fst (_perform_wavelength_attempt Scenario.stuck 1000 (boot 0)))
     <= 125 + 131 * 0.
Proof.
  destruct (attempt_is_bounded Scenario.stuck 0 1000 (boot 0))
    as (H0 & H1 & _).
  - intros n. split; apply Qle_refl.
  - intros n. split; apply Qle_refl.
  - split; [exact H0 | exact H1].
Defined.

(** ** The ledger of a run *)

Lemma milestones_app (l1 l2 : list event) :
  milestones (l1 ++ l2) = milestones l1 ++ milestones l2.
Proof.
  induction l1 as [|e l1 IH]; [reflexivity|].
  destruct e as [[]|d|r]; cbn; now rewrite ?IH.
Qed.

Lemma milestones_quiet (l : list event) :
  forallb quiet l = true -> milestones l = [].
Proof.
  induction l as [|e l IH]; [reflexivity|].
  cbn [forallb]. intros H. apply andb_prop in H. destruct H as [He Hl].
  destruct e as [[]|d|r]; cbn; try apply (IH Hl); discriminate He.
Qed.

Lemma hushed_milestones (w w' : world) :
  hushed w w' -> milestones (trace w') = milestones (trace w).
Proof.
  intros (_ & _ & new & Ht & Hq).
  now rewrite Ht, milestones_app, (milestones_quiet new Hq), app_nil_r.
Qed.

Lemma hushed_announced (w w' : world) :
  hushed w w' -> announced (trace w') = announced (trace w).
Proof.
  intros (_ & _ & new & Ht & Hq).
  now rewrite Ht, announced_app, (announced_quiet new Hq), app_nil_r.
Qed.

Lemma attempt_milestones (E : env) (wl : Q) (w : world) :
  milestones (trace (snd (_perform_wavelength_attempt E wl w)))
  = milestones (trace w).
Proof.
  rewrite attempt_unfold.
  rewrite (hushed_milestones _ _
             (polled_hushed _ _ (attempt_with_polled E 10 120 wl w))).
  rewrite sent_trace, milestones_app. cbn [milestones]. apply app_nil_r.
Qed.

Lemma failures_app (l1 l2 : list AttemptOutcome) :
  failures (l1 ++ l2) = failures l1 ++ failures l2.
Proof. apply flat_map_app. Qed.

Lemma recorded_refl (dlo dhi : Q) (w : world) : recorded dlo dhi w w [].
Proof. unfold recorded. cbn. rewrite !app_nil_r. repeat split. constructor. Qed.

Lemma recorded_trans (dlo dhi : Q) (w1 w2 w3 : world)
    (n1 n2 : list AttemptOutcome) :
  recorded dlo dhi w1 w2 n1 -> recorded dlo dhi w2 w3 n2 ->
  recorded dlo dhi w1 w3 (n1 ++ n2).
Proof.
  intros (A1 & A2 & A3 & A4 & A5 & A6 & A7) (B1 & B2 & B3 & B4 & B5 & B6 & B7).
  unfold recorded. rewrite failures_app, !map_app, !app_assoc.
  repeat split; try congruence. apply Forall_app. now split.
Qed.

Lemma recorded_next_running (dlo dhi : Q) (w : world) :
  recorded dlo dhi w (next_running w) [].
Proof. unfold recorded. cbn. rewrite !app_nil_r. repeat split. constructor. Qed.

Section CycleLedger.

Variable E : env.
Variable self : t.
Variables dlo dhi : Q.
Hypothesis Hdlo : device_min self = Some dlo.
Hypothesis Hdhi : device_max self = Some dhi.

(** One pass of the loop raises nothing and records at most one outcome,
    consistently in every book. *)
Lemma cycle_recorded (lo hi : Q) (attempts : Z) (w : world) :
  exists attempts' w' new,
    cycle E self lo hi attempts w = Ok attempts' w'
    /\ recorded dlo dhi w w' new.
Proof.
  destruct (reachable (env_check E (n_check w))) eqn:Hre.
  2: { rewrite cycle_unreachable by exact Hre.
       eexists _, _, []. split; [reflexivity|].
       unfold recorded. cbn. rewrite !app_nil_r.
       rewrite !puts_app, !announced_app, !milestones_app. cbn.
       rewrite !app_nil_r. repeat split. constructor. }
  unfold cycle. rewrite check_connection_eq, Hre. cbn [negb uniform].
  unfold clamp_to_device. rewrite Hdlo, Hdhi.
  set (w0 := next_random _).
  set (wl := clamp dlo dhi _).
  pose proof (attempt_effects E wl (emit (current_wavelength wl) w0))
    as (F1 & F2 & F3 & _ & _ & _ & F7 & F8).
  pose proof (attempt_milestones E wl (emit (current_wavelength wl) w0)) as F9.
  destruct (_perform_wavelength_attempt E wl (emit (current_wavelength wl) w0))
    as [[success duration] w2].
  cbn [snd] in F1, F2, F3, F7, F8, F9.
  assert (G7 : puts (trace w2) = puts (trace w) ++ [wl]).
  { rewrite F7. unfold w0. cbn. rewrite !puts_app. cbn.
    now rewrite !app_nil_r. }
  assert (G8 : announced (trace w2) = announced (trace w)).
  { rewrite F8. unfold w0. cbn. rewrite !announced_app. cbn.
    now rewrite !app_nil_r. }
  assert (G9 : milestones (trace w2) = milestones (trace w)).
  { rewrite F9. unfold w0. cbn. rewrite !milestones_app. cbn.
    now rewrite !app_nil_r. }
  assert (G1 : test_results w2 = test_results w) by (rewrite F1; reflexivity).
  assert (G2 : fail_log w2 = fail_log w) by (rewrite F2; reflexivity).
  assert (G3 : power_curve_data w2 = power_curve_data w)
    by (rewrite F3; reflexivity).
  clear F1 F2 F3 F7 F8 F9.
  eexists _, _, [{| timestamp := clock w2; wavelength := wl;
                    wl_success := success; wl_duration := duration |}].
  split; [reflexivity|].
  assert (Hcl : Forall (fun o => clamped dlo dhi (wavelength o))
                  [{| timestamp := clock w2; wavelength := wl;
                      wl_success := success; wl_duration := duration |}]).
  { constructor; [|constructor]. cbn. unfold wl. eexists. reflexivity. }
  unfold recorded.
  destruct success; cbn [negb];
    cbn; rewrite !puts_app, !announced_app, !milestones_app, G1, G2, G3, G7,
           G8, G9; cbn; rewrite ?app_nil_r; repeat split; exact Hcl.
Qed.

(** The loop raises nothing and keeps all its books consistent. *)
Lemma run_loop_recorded (fuel : nat) (lo hi : Q) :
  forall attempts w,
    exists new,
      recorded dlo dhi w (snd (run_loop E self fuel lo hi attempts w)) new
      /\ (fst (fst (run_loop E self fuel lo hi attempts w)) = Returned
          \/ fst (fst (run_loop E self fuel lo hi attempts w)) = StillLooping).
Proof.
  induction fuel as [|fuel IH]; intros attempts w.
  - exists []. split; [apply recorded_refl | now right].
  - cbn [run_loop]. unfold loop_guard, read_running.
    destruct (env_running E (n_running w) && _).
    + destruct (cycle_recorded lo hi attempts (next_running w))
        as (a' & w1 & n1 & Hc & Hr).
      rewrite Hc. destruct (IH a' w1) as (n2 & Hr2 & He).
      exists (n1 ++ n2). split; [|exact He].
      eapply recorded_trans; [|exact Hr2].
      apply (recorded_trans dlo dhi w (next_running w) w1 [] n1);
        [apply recorded_next_running | exact Hr].
    + exists []. split; [|now left]. apply recorded_next_running.
Qed.

End CycleLedger.

(** ** The ledger of the sweep *)

Section SweepLedger.

Variable E : env.
Variable self : t.
Variables dlo dhi : Q.
Hypothesis Hdlo : device_min self = Some dlo.
Hypothesis Hdhi : device_max self = Some dhi.

(** Reading the power after a successful attempt adds at most one sample,
    at the wavelength just set. *)
Lemma power_step (wl : Q) (success : bool) (w2 : world) :
  let W :=
    if success then
      let w := sleep 3 w2 in
      let w := emit (command_sent CmdGetPower) w in
      let (p, w) := get_power E w in
      match p with
      | Some pr =>
          if get (power_OK pr) false then
            set_power_curve_data
              (power_curve_data w ++
               [{| sample_wavelength := wl;
                   sample_power := get (Power pr) 0 |}]) w
          else w
      | None => w
      end
    else w2 in
  hushed w2 W
  /\ exists extra,
       power_curve_data W = power_curve_data w2 ++ extra
       /\ (List.length extra <= 1)%nat
       /\ Forall (fun s => sample_wavelength s = wl) extra.
Proof.
  cbv zeta. destruct success.
  2: { split; [apply hushed_refl|]. exists []. rewrite app_nil_r.
       repeat split; [cbn; lia | constructor]. }
  unfold get_power. cbn [fst snd].
  destruct (body (env_power E _)) as [pr|].
  2: { split; [hush|]. exists []. rewrite app_nil_r.
       repeat split; [cbn; lia | constructor]. }
  destruct (get (power_OK pr) false).
  - split; [hush|]. eexists [_]. split; [reflexivity|].
    split; [cbn; lia|]. constructor; [reflexivity | constructor].
  - split; [hush|]. exists []. rewrite app_nil_r.
    repeat split; [cbn; lia | constructor].
Qed.

Lemma swept_nothing (wls : list Z) (w w' : world) :
  hushed w w' -> power_curve_data w' = power_curve_data w ->
  swept dlo dhi wls w w' 0 [].
Proof.
  intros Hh Hd. unfold swept. cbn [firstn map List.length].
  rewrite !app_nil_r, (hushed_puts _ _ Hh), (hushed_milestones _ _ Hh).
  repeat split; try assumption; try lia. constructor.
Qed.

(** One more point attempted in front of a sweep of the rest. *)
Lemma swept_cons (z : Z) (rest : list Z) (w wA w2 W w' : world)
    (extra sub : list PowerSample) (k : nat) :
  hushed w wA -> power_curve_data wA = power_curve_data w ->
  puts (trace w2) = puts (trace wA) ++ [sweep_point dlo dhi z] ->
  power_curve_data w2 = power_curve_data wA ->
  milestones (trace w2) = milestones (trace wA) ->
  hushed w2 W ->
  power_curve_data W = power_curve_data w2 ++ extra ->
  (List.length extra <= 1)%nat ->
  Forall (fun s => sample_wavelength s = sweep_point dlo dhi z) extra ->
  swept dlo dhi rest W w' k sub ->
  swept dlo dhi (z :: rest) w w' (S k) (extra ++ sub).
Proof.
  intros HA DA P2 D2 M2 HW DW Le Fe (Sk & Sp & Sd & Sl & Sf & Sm).
  unfold swept. cbn [firstn map List.length].
  repeat split.
  - lia.
  - rewrite Sp, (hushed_puts _ _ HW), P2, (hushed_puts _ _ HA).
    now rewrite <- app_assoc.
  - rewrite Sd, DW, D2, DA. now rewrite <- app_assoc.
  - rewrite length_app. lia.
  - apply Forall_app. split.
    + eapply Forall_impl; [|exact Fe]. intros s Hs. left. now symmetry.
    + eapply Forall_impl; [|exact Sf]. intros s Hs. now right.
  - rewrite Sm, (hushed_milestones _ _ HW), M2.
    apply (hushed_milestones _ _ HA).
Qed.

(** With a known device range the sweep attempts a prefix of the grid, in
    order, and records samples only at wavelengths it has set. *)
Lemma sweep_swept (wls : list Z) :
  forall w, exists w' k sub,
    sweep E self wls w = Ok tt w' /\ swept dlo dhi wls w w' k sub.
Proof.
  induction wls as [|z rest IH]; intros w.
  - exists w, 0%nat, []. split; [reflexivity|].
    apply swept_nothing; [apply hushed_refl | reflexivity].
  - cbn [sweep]. unfold read_running.
    destruct (env_running E (n_running w)); cbn [negb].
    2: { eexists _, 0%nat, []. split; [reflexivity|].
         apply swept_nothing; [|reflexivity].
         repeat split. exists []. now rewrite app_nil_r. }
    rewrite check_connection_eq.
    destruct (reachable (env_check E (n_check (next_running w)))); cbn [negb].
    + unfold clamp_to_device. rewrite Hdlo, Hdhi.
      set (wA := record (Http GetStatus) _).
      fold (sweep_point dlo dhi z). set (wl := sweep_point dlo dhi z).
      assert (HA : hushed w wA) by (unfold wA; hush).
      destruct (attempt_effects E wl wA) as (_ & _ & D2 & _ & _ & _ & P2 & _).
      pose proof (attempt_milestones E wl wA) as M2.
      destruct (_perform_wavelength_attempt E wl wA) as [[success d] w2].
      cbn [snd] in D2, P2, M2.
      destruct (power_step wl success w2) as (HW & extra & DW & Le & Fe).
      match goal with
      | |- context [sweep E self rest ?W] =>
          destruct (IH W) as (w' & k & sub & Hs & Hsw)
      end.
      exists w', (S k), (extra ++ sub). split; [exact Hs|].
      eapply (swept_cons z rest w wA w2 _ w' extra sub k);
        try eassumption; reflexivity.
    + rewrite check_connection_eq.
      match goal with
      | |- context [reachable ?r] => destruct (reachable r)
      end; cbn [negb].
      2: { eexists _, 0%nat, []. split; [reflexivity|].
           apply swept_nothing; [hush | reflexivity]. }
      unfold clamp_to_device. rewrite Hdlo, Hdhi.
      set (wA := record (Http GetStatus) _).
      fold (sweep_point dlo dhi z). set (wl := sweep_point dlo dhi z).
      assert (HA : hushed w wA) by (unfold wA; hush).
      destruct (attempt_effects E wl wA) as (_ & _ & D2 & _ & _ & _ & P2 & _).
      pose proof (attempt_milestones E wl wA) as M2.
      destruct (_perform_wavelength_attempt E wl wA) as [[success d] w2].
      cbn [snd] in D2, P2, M2.
      destruct (power_step wl success w2) as (HW & extra & DW & Le & Fe).
      match goal with
      | |- context [sweep E self rest ?W] =>
          destruct (IH W) as (w' & k & sub & Hs & Hsw)
      end.
      exists w', (S k), (extra ++ sub). split; [exact Hs|].
      eapply (swept_cons z rest w wA w2 _ w' extra sub k);
        try eassumption; reflexivity.
Qed.

End SweepLedger.

(** ** The ledger of a whole run *)

Section RunLedger.

Variable E : env.
Variable self : t.
Variables lo hi dlo dhi : Q.
Hypothesis Hlo : range_min self = Some lo.
Hypothesis Hhi : range_max self = Some hi.
Hypothesis Hdlo : device_min self = Some dlo.
Hypothesis Hdhi : device_max self = Some dhi.

Lemma measure_power_curve_ledger (w : world) :
  exists w' wls k,
    power_curve_points lo hi = Some wls
    /\ _measure_power_curve E self w = Ok tt w'
    /\ test_results w' = test_results w
    /\ fail_log w' = fail_log w
    /\ announced (trace w') = announced (trace w)
    /\ (k <= List.length wls)%nat
    /\ puts (trace w')
       = puts (trace w) ++ map (sweep_point dlo dhi) (firstn k wls)
    /\ (List.length (power_curve_data w') <= k)%nat
    /\ Forall (fun s => In (sample_wavelength s)
                          (map (sweep_point dlo dhi) (firstn k wls)))
         (power_curve_data w')
    /\ milestones (trace w')
       = milestones (trace w) ++ [CurveDone (power_curve_data w')].
Proof.
  unfold _measure_power_curve. rewrite Hlo, Hhi.
  destruct (power_curve_points_some lo hi) as (wls & Hw). rewrite Hw.
  destruct (sweep_commanded E self dlo dhi Hdlo Hdhi wls
              (set_power_curve_data [] w))
    as (w1 & Hs & C1 & C2 & C3 & _).
  destruct (sweep_swept E self dlo dhi Hdlo Hdhi wls
              (set_power_curve_data [] w))
    as (w1' & k & sub & Hs' & Sk & Sp & Sd & Sl & Sf & Sm).
  rewrite Hs in Hs'. injection Hs' as <-.
  rewrite Hs. exists (emit (power_curve_finished (power_curve_data w1)) w1),
                wls, k.
  cbn [emit record test_results fail_log trace power_curve_data].
  rewrite announced_app, puts_app, milestones_app. cbn [announced puts milestones].
  rewrite !app_nil_r.
  cbn [set_power_curve_data power_curve_data app] in Sd.
  repeat split; try assumption; try reflexivity.
  - rewrite Sd. exact Sl.
  - rewrite Sd. exact Sf.
  - rewrite Sm. reflexivity.
Qed.

(** Everything a run leaves behind, whatever the device and the stop flag
    did. *)
Lemma run_ledger (fuel : nat) (w : world) :
  (fst (run E self fuel w) = Returned
   \/ fst (run E self fuel w) = StillLooping)
  /\ announced (trace (snd (run E self fuel w)))
     = announced (trace w)
       ++ map outcome_signal (test_results (snd (run E self fuel w)))
  /\ fail_log (snd (run E self fuel w))
     = LogHeader (clock w) :: failures (test_results (snd (run E self fuel w)))
  /\ Forall (fun o => clamped dlo dhi (wavelength o))
       (test_results (snd (run E self fuel w)))
  /\ (fst (run E self fuel w) = StillLooping ->
      milestones (trace (snd (run E self fuel w))) = milestones (trace w))
  /\ (fst (run E self fuel w) = Returned ->
      milestones (trace (snd (run E self fuel w)))
      = milestones (trace w) ++ [Finished]
      \/ (measure_power_curve self = true
          /\ milestones (trace (snd (run E self fuel w)))
             = milestones (trace w)
               ++ [CurveDone (power_curve_data (snd (run E self fuel w)));
                   Finished])).
Proof.
  unfold run. rewrite Hlo, Hhi.
  set (w0 := set_test_results [] (configure_logs w)).
  destruct (run_loop_recorded E self dlo dhi Hdlo Hdhi fuel lo hi 0%Z w0)
    as (new & (R1 & R2 & R3 & _ & R5 & _ & R7) & Hend).
  revert R1 R2 R3 R5 Hend.
  destruct (run_loop E self fuel lo hi 0 w0) as [[e a] w1].
  cbn [fst snd]. unfold w0.
  cbn [set_test_results configure_logs set_fail_log test_results fail_log
       trace app].
  intros R1 R2 R3 R5 Hend. rewrite <- R1 in R2, R3, R7.
  destruct e.
  - (* the loop returned *)
    destruct (measure_power_curve self) eqn:Hm.
    + unfold read_running. destruct (env_running E (n_running w1)).
      * destruct (measure_power_curve_ledger (next_running w1))
          as (w2 & wls & k & _ & Hmp & M1 & M2 & M3 & _ & _ & _ & _ & M9).
        rewrite Hmp. cbn [fst snd emit record test_results fail_log trace
                          power_curve_data].
        rewrite announced_app, milestones_app. cbn [announced milestones].
        rewrite app_nil_r, M1, M2, M3, M9.
        cbn [next_running test_results fail_log trace].
        rewrite R5, <- app_assoc.
        split; [now left|]. split; [exact R2|]. split; [exact R3|].
        split; [exact R7|]. split; [intros H; discriminate H|].
        intros _. right. split; reflexivity.
      * cbn [fst snd emit record next_running test_results fail_log trace].
        rewrite announced_app, milestones_app. cbn [announced milestones].
        rewrite app_nil_r, R5.
        split; [now left|]. split; [exact R2|]. split; [exact R3|].
        split; [exact R7|]. split; [intros H; discriminate H|].
        intros _. now left.
    + cbn [fst snd emit record test_results fail_log trace].
      rewrite announced_app, milestones_app. cbn [announced milestones].
      rewrite app_nil_r, R5.
      split; [now left|]. split; [exact R2|]. split; [exact R3|].
      split; [exact R7|]. split; [intros H; discriminate H|].
      intros _. now left.
  - (* out of fuel inside the loop *)
    cbn [fst snd].
    split; [now right|]. split; [exact R2|]. split; [exact R3|].
    split; [exact R7|]. split; [intros _; exact R5|].
    intros H. discriminate H.
  - (* the loop cannot raise *)
    exfalso. destruct Hend as [H | H]; discriminate H.
Qed.

End RunLedger.

Lemma init_unknown (ch : Z) (params : TestParameters)
    (dmin dmax : option Q) :
  dmin = None \/ dmax = None ->
  range_min (init ch params (dmin, dmax)) = None
  /\ range_max (init ch params (dmin, dmax)) = None.
Proof.
  intros H. cbn [init range_min range_max]. unfold resolve.
  destruct H as [-> | ->]; [now split|]. now destruct dmin.
Qed.

Lemma run_unknown (E : env) (self : t) (fuel : nat) (w : world) :
  range_min self = None ->
  run E self fuel w
  = (Returned, emit finished (set_test_results [] (configure_logs w))).
Proof. intros H. unfold run. now rewrite H. Qed.

(** Every constructed worker falls in one of two cases. *)
Lemma init_cases (ch : Z) (params : TestParameters)
    (device_range : option Q * option Q) :
  (range_min (init ch params device_range) = None)
  \/ exists lo hi dlo dhi,
       device_range = (Some dlo, Some dhi)
       /\ range_min (init ch params device_range) = Some lo
       /\ range_max (init ch params device_range) = Some hi.
Proof.
  destruct device_range as [[dlo|] [dhi|]].
  - right. destruct (init_known ch params dlo dhi) as (lo & hi & H1 & H2).
    now exists lo, hi, dlo, dhi.
  - left. apply init_unknown. now right.
  - left. apply init_unknown. now left.
  - left. apply init_unknown. now left.
Qed.

(** X2.  The books of a run agree, at whatever point it is observed and
    whatever the device did: the outcomes announced through
    [update_status] are exactly the recorded results, in order; the failure
    log holds its header and then one line per failed result, in order, with
    that result's time, wavelength and duration; and every recorded
    wavelength is a clamped one, so it lies in a device range
    [dlo <= dhi]. *)
Theorem run_books_agree :
  forall (E : env) (ch : Z) (params : TestParameters)
         (device_range : option Q * option Q) (fuel : nat) (w : world),
    announced (trace (snd (run E (init ch params device_range) fuel w)))
    = announced (trace w)
      ++ map outcome_signal
           (test_results (snd (run E (init ch params device_range) fuel w)))
    /\ fail_log (snd (run E (init ch params device_range) fuel w))
       = LogHeader (clock w)
         :: failures
              (test_results (snd (run E (init ch params device_range) fuel w)))
    /\ (forall dlo dhi,
          device_range = (Some dlo, Some dhi) -> dlo <= dhi ->
          Forall (fun o => dlo <= wavelength o /\ wavelength o <= dhi)
            (test_results
               (snd (run E (init ch params device_range) fuel w)))).
Proof.
  intros E ch params device_range fuel w.
  destruct (init_cases ch params device_range)
    as [Hnone | (lo & hi & dlo & dhi & -> & Hlo & Hhi)].
  - rewrite (run_unknown E _ fuel w Hnone).
    cbn [snd emit record set_test_results configure_logs set_fail_log
         test_results fail_log trace map failures flat_map].
    rewrite announced_app. cbn [announced]. rewrite !app_nil_r.
    repeat split. intros dlo dhi _ _. constructor.
  - destruct (run_ledger E (init ch params (Some dlo, Some dhi))
                lo hi dlo dhi Hlo Hhi eq_refl eq_refl fuel w)
      as (_ & L2 & L3 & L4 & _).
    split; [exact L2|]. split; [exact L3|].
    intros dlo' dhi' Heq Hle. injection Heq as <- <-.
    eapply Forall_impl; [|exact L4].
    intros o (v & ->). now apply clamp_bounds.
Qed.


Lemma run_ends_with_finished (E : env) (self : t) (fuel : nat) (w : world) :
  fst (run E self fuel w) = Returned ->
  exists before, trace (snd (run E self fuel w)) = before ++ [Emit finished].
Proof.
  unfold run.
  destruct (range_min self); [destruct (range_max self)|];
    try (intros _; eexists; reflexivity).
  destruct (run_loop E self fuel q q0 0 _) as [[e a] w1].
  destruct e; try (cbn [fst]; intros H; discriminate H).
  destruct (measure_power_curve self).
  - unfold read_running. destruct (env_running E (n_running w1)).
    + destruct (_measure_power_curve E self (next_running w1)).
      * intros _. eexists. reflexivity.
      * cbn [fst]. intros H. discriminate H.
    + intros _. eexists. reflexivity.
  - intros _. eexists. reflexivity.
Qed.

(** X4.  A run of a constructed worker announces its end exactly once and
    last.  While it is still looping it has emitted neither [finished] nor
    [power_curve_finished].  When it returns, [finished] is its very last
    effect and was emitted once; [power_curve_finished] precedes it at most
    once, only if the power curve was asked for, and it carries the samples
    the worker holds. *)
Theorem run_finishes_once_and_last :
  forall (E : env) (ch : Z) (params : TestParameters)
         (device_range : option Q * option Q) (fuel : nat) (w : world),
    (fst (run E (init ch params device_range) fuel w) = StillLooping ->
     milestones (trace (snd (run E (init ch params device_range) fuel w)))
     = milestones (trace w))
    /\ (fst (run E (init ch params device_range) fuel w) = Returned ->
        (exists before,
           trace (snd (run E (init ch params device_range) fuel w))
           = before ++ [Emit finished])
        /\ (milestones
              (trace (snd (run E (init ch params device_range) fuel w)))
            = milestones (trace w) ++ [Finished]
            \/ (param_measure_power_curve params = true
                /\ milestones
                     (trace (snd (run E (init ch params device_range) fuel w)))
                   = milestones (trace w)
                     ++ [CurveDone
                           (power_curve_data
                              (snd (run E (init ch params device_range)
                                      fuel w)));
                         Finished]))).
Proof.
  intros E ch params device_range fuel w.
  destruct (init_cases ch params device_range)
    as [Hnone | (lo & hi & dlo & dhi & -> & Hlo & Hhi)].
  - rewrite (run_unknown E _ fuel w Hnone). cbn [fst snd].
    split; [intros H; discriminate H|]. intros _. split.
    + eexists. reflexivity.
    + left. cbn [emit record set_test_results configure_logs set_fail_log
                 trace].
      rewrite milestones_app. reflexivity.
  - destruct (run_ledger E (init ch params (Some dlo, Some dhi))
                lo hi dlo dhi Hlo Hhi eq_refl eq_refl fuel w)
      as (_ & _ & _ & _ & L5 & L6).
    split; [exact L5|]. intros Hret. split.
    + now apply run_ends_with_finished.
    + destruct (L6 Hret) as [H | [Hm H]]; [now left|]. right.
      split; [exact Hm | exact H].
Qed.

(** X5.  The power-curve sweep of a constructed worker visits the grid in
    order and without gaps: the wavelengths it sets are the clamped values
    of the first [k] grid points for some [k].  It records at most one
    sample per point it set, each at one of those wavelengths, records no
    attempt outcome, writes nothing to the failure log, and ends by
    emitting the samples it holds. *)
Theorem sweep_visits_a_prefix_of_the_grid :
  forall (E : env) (ch : Z) (params : TestParameters) (dlo dhi : Q)
         (w : world),
  exists lo hi wls w' k,
    range_min (init ch params (Some dlo, Some dhi)) = Some lo
    /\ range_max (init ch params (Some dlo, Some dhi)) = Some hi
    /\ power_curve_points lo hi = Some wls
    /\ _measure_power_curve E (init ch params (Some dlo, Some dhi)) w
       = Ok tt w'
    /\ (k <= List.length wls)%nat
    /\ puts (trace w')
       = puts (trace w) ++ map (sweep_point dlo dhi) (firstn k wls)
    /\ (List.length (power_curve_data w') <= k)%nat
    /\ Forall (fun s => In (sample_wavelength s)
                          (map (sweep_point dlo dhi) (firstn k wls)))
         (power_curve_data w')
    /\ test_results w' = test_results w
    /\ fail_log w' = fail_log w
    /\ milestones (trace w')
       = milestones (trace w) ++ [CurveDone (power_curve_data w')].
Proof.
  intros E ch params dlo dhi w.
  destruct (init_known ch params dlo dhi) as (lo & hi & Hlo & Hhi).
  destruct (measure_power_curve_ledger E (init ch params (Some dlo, Some dhi))
              lo hi dlo dhi Hlo Hhi eq_refl eq_refl w)
    as (w' & wls & k & H1 & H2 & H3 & H4 & _ & H6 & H7 & H8 & H9 & H10).
  exists lo, hi, wls, w', k. repeat split; assumption.
Qed.

(** ** Stopping *)

Lemma attempt_with_stopped (E : env) (a b : nat) (wl : Q) (w : world) :
  env_running E (n_running w) = false ->
  fst (fst (attempt_with E (S a) b wl w)) = false
  /\ n_status (snd (attempt_with E (S a) b wl w)) = n_status w
  /\ (n_running w <= n_running (snd (attempt_with E (S a) b wl w))
      <= S (n_running w))%nat.
Proof.
  intros Hstop. unfold attempt_with.
  destruct (body (env_put E (n_put w))).
  - cbn zeta. cbn [poll_until read_running].
    change (n_running (sent E wl w)) with (n_running w). rewrite Hstop.
    cbn. repeat split; lia.
  - cbn. repeat split; lia.
Qed.

(** X6.  A stop request that lands during a cycle (the loop guard still saw
    the flag set, every later read sees it cleared) lets that cycle run to
    its end: the set command is sent, no status poll is made, the attempt
    is recorded as a failure, the full post-set wait is slept, and only
    then does the loop leave.  Exactly one more outcome is recorded. *)
Theorem stop_during_cycle_records_one_failure :
  forall (E : env) (self : t) (lo hi dlo dhi : Q) (attempts : Z)
         (fuel : nat) (w : world),
    device_min self = Some dlo -> device_max self = Some dhi ->
    env_running E (n_running w) = true ->
    (forall j, (1 <= j)%nat -> env_running E (n_running w + j) = false) ->
    reachable (env_check E (n_check w)) = true ->
    match cycles self with
    | None => True
    | Some n => (attempts < n)%Z
    end ->
    exists o w' before,
      run_loop E self (S (S fuel)) lo hi attempts w
      = (Returned, (attempts + 1)%Z, w')
      /\ test_results w' = test_results w ++ [o]
      /\ wl_success o = false
      /\ n_status w' = n_status w
      /\ n_put w' = S (n_put w)
      /\ trace w' = before ++ [Sleep (wait_time self + 3)].
Proof.
  intros E self lo hi dlo dhi attempts fuel w Hdlo Hdhi Hgo Hstop Hre Hcyc.
  rewrite (run_loop_step E self _ lo hi attempts w Hgo Hcyc).
  unfold cycle. rewrite check_connection_eq.
  change (n_check (next_running w)) with (n_check w). rewrite Hre.
  cbn [negb uniform]. unfold clamp_to_device. rewrite Hdlo, Hdhi.
  set (w0 := next_random _).
  set (wl := clamp dlo dhi _).
  set (wE := emit (current_wavelength wl) w0).
  assert (HrE : n_running wE = S (n_running w)) by reflexivity.
  assert (Hst : env_running E (n_running wE) = false).
  { rewrite HrE, <- Nat.add_1_r. apply Hstop. lia. }
  destruct (attempt_effects E wl wE) as (F1 & _).
  pose proof (attempt_with_stopped E 9 120 wl wE Hst) as (S1 & S2 & S3).
  pose proof (attempt_with_requests E 10 120 wl wE) as (Q1 & _).
  rewrite <- attempt_unfold in S1, S2, S3, Q1.
  destruct (_perform_wavelength_attempt E wl wE) as [[success d] w2].
  cbn [fst snd] in F1, S1, S2, S3, Q1. subst success. cbn [negb].
  match goal with
  | |- context [run_loop E self (S fuel) lo hi ?a ?W] =>
      assert (HW : env_running E (n_running W) = false)
  end.
  { cbn [sleep emit record advance set_fail_log set_test_results n_running].
    destruct S3 as [S3 S4]. rewrite HrE in S3, S4.
    replace (n_running w2) with (n_running w + (n_running w2 - n_running w))%nat
      by lia.
    apply Hstop. lia. }
  rewrite (run_loop_stopped E self fuel lo hi _ _ HW).
  eexists {| timestamp := clock w2; wavelength := wl; wl_success := false;
             wl_duration := d |}, _, _.
  split; [reflexivity|].
  cbn [read_running snd next_running sleep emit record advance set_fail_log
       set_test_results test_results n_status n_put trace wl_success].
  rewrite F1, S2, Q1. repeat split.
Qed.

(** X6 on a two-cycle run whose stop request arrives right after the first
    guard. *)
Lemma stop_during_cycle_records_one_failure_witness :
  exists o w',
    run_loop
      {| env_running := fun n => Nat.eqb n 0;
         env_check := env_check Scenario.prompt;
         env_put := env_put Scenario.prompt;
         env_status := env_status Scenario.prompt;
         env_power := env_power Scenario.prompt;
         env_random := env_random Scenario.prompt |}
      (init 1 Scenario.three_cycles (Some 900, Some 1100)) 2 1000 1025 0
      (boot 0)
    = (Returned, 1%Z, w')
    /\ test_results w' = [o] /\ wl_success o = false.
Proof.
  destruct (stop_during_cycle_records_one_failure
              {| env_running := fun n => Nat.eqb n 0;
                 env_check := env_check Scenario.prompt;
                 env_put := env_put Scenario.prompt;
                 env_status := env_status Scenario.prompt;
                 env_power := env_power Scenario.prompt;
                 env_random := env_random Scenario.prompt |}
              (init 1 Scenario.three_cycles (Some 900, Some 1100))
              1000 1025 900 1100 0%Z 0 (boot 0) eq_refl eq_refl eq_refl)
    as (o & w' & before & H1 & H2 & H3 & _).
  - intros j Hj. destruct j as [|j]; [lia | reflexivity].
  - reflexivity.
  - cbn. lia.
  - exists o, w'. repeat split; assumption.
Defined.

(** * The connectivity probe *)





(** The scenario of a device that is down for two passes and then up. *)
Example probe_two_outages_then_up :
  let E := {| StatusWorker.env_running := fun n => (n <? 3)%nat;
              StatusWorker.env_overall :=
                fun n => if (n <? 2)%nat then None
                         else Some {| StatusWorker.overall_OK := Some true |};
              StatusWorker.env_mode :=
                fun _ => Some {| StatusWorker.mode_OK := Some true;
                                 StatusWorker.Mode := Some "Run"%string |} |} in
  fst (StatusWorker.run E 5 StatusWorker.start) = true
  /\ StatusWorker.published
       (StatusWorker.trace (snd (StatusWorker.run E 5 StatusWorker.start)))
     = [(false, "Unknown"%string); (false, "Unknown"%string);
        (true, "Run"%string)].
Proof. vm_compute. split; reflexivity. Qed.

(** * Reading the device range and preparing the test interval *)

Lemma max_keep (a b : Q) : b <= a -> Py.max a b = a.
Proof. intros H. unfold Py.max. now rewrite (proj2 (ltb_false _ _) H). Qed.

Lemma min_keep (a b : Q) : a <= b -> Py.min a b = a.
Proof. intros H. unfold Py.min. now rewrite (proj2 (ltb_false _ _) H). Qed.

(** An interval that lies in the device range and is either proper or the
    device range itself is left alone by the constructor's resolution. *)
Lemma resolve_fixpoint (lo hi dlo dhi : Q) :
  dlo <= lo -> hi <= dhi -> lo < hi \/ (lo = dlo /\ hi = dhi) ->
  resolve (Some lo) (Some hi) (Some dlo) (Some dhi) = (Some lo, Some hi).
Proof.
  intros Hlo Hhi Hcase. unfold resolve.
  rewrite (max_keep lo dlo Hlo), (min_keep hi dhi Hhi).
  destruct (Py.geb lo hi) eqn:Hg; [|reflexivity].
  destruct Hcase as [Hlt | [-> ->]]; [|reflexivity].
  apply geb_true in Hg. exfalso. exact (Qlt_not_le _ _ Hlt Hg).
Qed.

(** What resolution returns is such an interval. *)
Lemma resolve_shape (rmin rmax : option Q) (dlo dhi : Q) :
  exists lo hi,
    resolve rmin rmax (Some dlo) (Some dhi) = (Some lo, Some hi)
    /\ dlo <= lo /\ hi <= dhi /\ (lo < hi \/ (lo = dlo /\ hi = dhi)).
Proof.
  unfold resolve.
  destruct rmin as [a|], rmax as [b|];
    match goal with
    | |- context [Py.geb ?x ?y] => destruct (Py.geb x y) eqn:Hg
    end;
    try (exists dlo, dhi; split; [reflexivity|];
         split; [apply Qle_refl|]; split; [apply Qle_refl|];
         right; split; reflexivity).
  - exists (Py.max a dlo), (Py.min b dhi). split; [reflexivity|].
    split; [apply max_ge_r|]. split; [apply min_le_r|].
    left. now apply geb_false.
  - exists (Py.max dlo dlo), (Py.min dhi dhi). split; [reflexivity|].
    split; [apply max_ge_r|]. split; [apply min_le_r|].
    left. now apply geb_false.
  - exists (Py.max dlo dlo), (Py.min dhi dhi). split; [reflexivity|].
    split; [apply max_ge_r|]. split; [apply min_le_r|].
    left. now apply geb_false.
  - exists (Py.max dlo dlo), (Py.min dhi dhi). split; [reflexivity|].
    split; [apply max_ge_r|]. split; [apply min_le_r|].
    left. now apply geb_false.
Qed.

Lemma fetch_cases (rng : option Ranges.RangeBody) :
  Ranges.fetch_device_range rng = (None, None)
  \/ exists r lo hi,
       rng = Some r
       /\ Ranges.fetch_device_range rng = (Some lo, Some hi)
       /\ Ranges.range_Min r = Some lo /\ Ranges.range_Max r = Some hi
       /\ get (Ranges.range_OK r) false = true
       /\ get (Ranges.IsEmpty r) false = false.
Proof.
  unfold Ranges.fetch_device_range. destruct rng as [r|]; [|now left].
  destruct (get (Ranges.range_OK r) false) eqn:Hok; [|now left].
  destruct (get (Ranges.IsEmpty r) false) eqn:Hem; [now left|].
  cbn [andb negb].
  destruct (Ranges.range_Min r) as [lo|] eqn:Hmin; [|now left].
  destruct (Ranges.range_Max r) as [hi|] eqn:Hmax; [|now left].
  right. exists r, lo, hi. repeat split; assumption.
Qed.


(** X9.  Reconnecting never loses a device range that was known: a
    channel's stored range is replaced only by a fully known one.  The
    "no ranges retrieved" notice appears exactly when neither fetch
    succeeded, and in that case the window data and the configuration are
    left as they were. *)
Theorem reconnect_keeps_known_ranges :
  forall (reply1 reply2 : option Ranges.RangeBody) (connected : bool)
         (m : Ranges.window),
    (forall lo hi,
       fst (Ranges.device_ranges m) = (Some lo, Some hi) ->
       exists lo' hi',
         fst (Ranges.device_ranges
                (fst (fst (Ranges.on_reconnect reply1 reply2 connected m))))
         = (Some lo', Some hi'))
    /\ (forall lo hi,
          snd (Ranges.device_ranges m) = (Some lo, Some hi) ->
          exists lo' hi',
            snd (Ranges.device_ranges
                   (fst (fst (Ranges.on_reconnect reply1 reply2 connected m))))
            = (Some lo', Some hi'))
    /\ (snd (Ranges.on_reconnect reply1 reply2 connected m)
        = Ranges.NoRangesRetrieved
        <-> Ranges.fetch_device_range reply1 = (None, None)
            /\ Ranges.fetch_device_range reply2 = (None, None))
    /\ (snd (Ranges.on_reconnect reply1 reply2 connected m)
        = Ranges.NoRangesRetrieved ->
        fst (Ranges.on_reconnect reply1 reply2 connected m) = (m, false)).
Proof.
  intros reply1 reply2 connected m.
  destruct (fetch_cases reply1) as [H1 | (r1 & a1 & b1 & _ & H1 & _)];
    destruct (fetch_cases reply2) as [H2 | (r2 & a2 & b2 & _ & H2 & _)];
    unfold Ranges.on_reconnect, Ranges.refresh; rewrite H1, H2;
    cbn [fst snd orb andb Ranges.device_ranges];
    destruct m as [[d1 d2] p1 p2]; cbn [fst snd Ranges.device_ranges
                                       Ranges.ch1 Ranges.ch2].
  - repeat split; eauto; discriminate.
  - destruct connected; cbn [andb];
      (split; [eauto|]; split; [eauto|]; split;
       [split; [intros H; discriminate H | intros [_ H]; discriminate H]
       | intros H; discriminate H]).
  - destruct connected; cbn [andb];
      (split; [eauto|]; split; [eauto|]; split;
       [split; [intros H; discriminate H | intros [H _]; discriminate H]
       | intros H; discriminate H]).
  - destruct connected; cbn [andb];
      (split; [eauto|]; split; [eauto|]; split;
       [split; [intros H; discriminate H | intros [H _]; discriminate H]
       | intros H; discriminate H]).
Qed.

Lemma with_range_same (p : TestParameters) :
  Ranges.with_range (test_min p) (test_max p) p = p.
Proof. now destruct p. Qed.

(** X10.  The three places that prepare the test interval agree.  For a
    known device range, [MainWindow._initialize_channel_params],
    [ChannelPanel.on_start] and [TestWorker.__init__] compute the same
    interval from the same request, and each leaves the result of the
    others unchanged: the interval stored in the configuration is the one
    the worker draws its wavelengths from.  With an unknown device range
    the stored parameters are not touched. *)
Theorem range_preparation_agrees :
  forall (p : TestParameters) (dlo dhi : Q),
    (test_min (Ranges._initialize_channel_params p (Some dlo, Some dhi)),
     test_max (Ranges._initialize_channel_params p (Some dlo, Some dhi)))
    = resolve (test_min p) (test_max p) (Some dlo) (Some dhi)
    /\ Ranges.on_start_params p dlo dhi
       = Ranges._initialize_channel_params p (Some dlo, Some dhi)
    /\ Ranges._initialize_channel_params
         (Ranges._initialize_channel_params p (Some dlo, Some dhi))
         (Some dlo, Some dhi)
       = Ranges._initialize_channel_params p (Some dlo, Some dhi)
    /\ (forall ch : Z,
          range_min (init ch (Ranges._initialize_channel_params p
                                (Some dlo, Some dhi)) (Some dlo, Some dhi))
          = test_min (Ranges._initialize_channel_params p (Some dlo, Some dhi))
          /\ range_max (init ch (Ranges._initialize_channel_params p
                                   (Some dlo, Some dhi)) (Some dlo, Some dhi))
             = test_max (Ranges._initialize_channel_params p
                           (Some dlo, Some dhi)))
    /\ (forall dr : option Q * option Q,
          fst dr = None \/ snd dr = None ->
          Ranges._initialize_channel_params p dr = p).
Proof.
  intros p dlo dhi.
  destruct (resolve_shape (test_min p) (test_max p) dlo dhi)
    as (lo & hi & Hres & Hlo & Hhi & Hcase).
  assert (Hinit : Ranges._initialize_channel_params p (Some dlo, Some dhi)
                  = Ranges.with_range (Some lo) (Some hi) p).
  { revert Hres. unfold Ranges._initialize_channel_params, resolve.
    destruct (test_min p) as [a|], (test_max p) as [b|];
      match goal with
      | |- context [Py.geb ?x ?y] => destruct (Py.geb x y)
      end; intros H; injection H as <- <-; reflexivity. }
  assert (Hstart : Ranges.on_start_params p dlo dhi
                   = Ranges.with_range (Some lo) (Some hi) p).
  { revert Hres. unfold Ranges.on_start_params, resolve.
    destruct (test_min p) as [a|], (test_max p) as [b|];
      try rewrite max_same, min_same;
      match goal with
      | |- context [Py.geb ?x ?y] => destruct (Py.geb x y)
      end; intros H; injection H as <- <-; reflexivity. }
  pose proof (resolve_fixpoint lo hi dlo dhi Hlo Hhi Hcase) as Hfix.
  rewrite Hinit, Hstart.
  split; [now rewrite Hres|]. split; [reflexivity|]. split; [|split].
  - unfold Ranges._initialize_channel_params.
    cbn [Ranges.with_range test_min test_max].
    rewrite (max_keep lo dlo Hlo), (min_keep hi dhi Hhi).
    destruct (Py.geb lo hi) eqn:Hg; [|reflexivity].
    destruct Hcase as [Hlt | [-> ->]]; [|reflexivity].
    apply geb_true in Hg. exfalso. exact (Qlt_not_le _ _ Hlt Hg).
  - intros ch. cbn [init range_min range_max Ranges.with_range test_min
                    test_max]. rewrite Hfix. now split.
  - intros [dmin dmax] H. cbn [fst snd] in H.
    unfold Ranges._initialize_channel_params.
    destruct H as [-> | ->]; [reflexivity|]. now destruct dmin.
Qed.


(** Typing only a maximum: the dialog keeps it, the constructor would not. *)
Example sanitize_keeps_lone_bound :
  let stored := fst (Settings._sanitize_channel Settings.Blank
                       (Settings.Number 1050) (Settings.Number 3) 100 false
                       (Some 1000, Some 1100) Scenario.three_cycles) in
  (test_min stored, test_max stored) = (Some 1000, Some 1050)
  /\ resolve None (Some 1050) (Some 1000) (Some 1100)
     = (Some 1000, Some 1100).
Proof. split; reflexivity. Qed.

(** * The panel *)

Lemma on_result_live (s : bool) (d wl : Q) (p : ChannelPanel.t) :
  ChannelPanel.aborted p = false ->
  ChannelPanel.on_result s d wl p
  = ChannelPanel._update_timer
      (ChannelPanel._update_eta (ChannelPanel.tally s d wl p)).
Proof. intros H. unfold ChannelPanel.on_result. now rewrite H. Qed.

(** What a stream of results does to every list and counter of a panel
    that was not aborted. *)
Lemma feed_books (outs : list (bool * Q * Q)) :
  forall p : ChannelPanel.t,
    ChannelPanel.aborted p = false ->
    let p' := ChannelPanel.feed outs p in
    ChannelPanel.success_count p'
    = (ChannelPanel.success_count p
       + Py.len (filter Panel.succeeded outs))%Z
    /\ ChannelPanel.fail_count p'
       = (ChannelPanel.fail_count p + Py.len (filter Panel.failed outs))%Z
    /\ ChannelPanel.wavelengths p'
       = ChannelPanel.wavelengths p ++ map Panel.at_wavelength outs
    /\ ChannelPanel.success_wavelengths p'
       = ChannelPanel.success_wavelengths p
         ++ map Panel.at_wavelength (filter Panel.succeeded outs)
    /\ ChannelPanel.failed_wavelengths p'
       = ChannelPanel.failed_wavelengths p
         ++ map Panel.at_wavelength (filter Panel.failed outs)
    /\ ChannelPanel.total_time p'
       = fold_left Qplus (map Panel.took (filter Panel.succeeded outs))
           (ChannelPanel.total_time p)
    /\ ChannelPanel.elapsed_seconds p'
       = (ChannelPanel.elapsed_seconds p + Py.len outs)%Z.
Proof.
  induction outs as [|[[s d] wl] outs IH]; intros p Hp.
  - cbn. rewrite !app_nil_r. unfold Py.len. cbn. repeat split; lia.
  - cbn [ChannelPanel.feed fold_left fst snd].
    fold (ChannelPanel.feed outs (ChannelPanel.on_result s d wl p)).
    rewrite (on_result_live s d wl p Hp).
    set (q := ChannelPanel._update_timer _).
    assert (Hq : ChannelPanel.aborted q = false) by exact Hp.
    destruct (IH q Hq) as (H1 & H2 & H3 & H4 & H5 & H6 & H7).
    cbv zeta. rewrite H1, H2, H3, H4, H5, H6, H7. unfold q. clear.
    unfold Py.len.
    destruct s; cbn [filter Panel.succeeded Panel.failed fst snd negb map
                     fold_left List.length ChannelPanel.success_count
                     ChannelPanel.fail_count ChannelPanel.wavelengths
                     ChannelPanel.success_wavelengths
                     ChannelPanel.failed_wavelengths ChannelPanel.total_time
                     ChannelPanel.elapsed_seconds ChannelPanel._update_timer
                     ChannelPanel._update_eta ChannelPanel.set_latest_eta
                     ChannelPanel.tally Panel.took Panel.at_wavelength];
      rewrite <- ?app_assoc, ?Nat2Z.inj_succ; cbn [app];
      repeat split; lia.
Qed.

(** X12.  The statistics of a panel started afresh mirror the stream of
    results it received: the two counters count the successes and the
    failures and add up to the number of results; [wavelengths] and
    [durations] list every result in order; the success and failure lists
    hold exactly the wavelengths of the successes and of the failures, in
    order; the total time is the sum over the successes alone. *)
Theorem statistics_mirror_the_results :
  forall (params : TestParameters) (outs : list (bool * Q * Q)),
    let p := ChannelPanel.feed outs (ChannelPanel.started params) in
    ChannelPanel.success_count p = Py.len (filter Panel.succeeded outs)
    /\ ChannelPanel.fail_count p = Py.len (filter Panel.failed outs)
    /\ (ChannelPanel.success_count p + ChannelPanel.fail_count p)%Z
       = Py.len outs
    /\ ChannelPanel.wavelengths p = map Panel.at_wavelength outs
    /\ ChannelPanel.durations p = map Panel.took outs
    /\ ChannelPanel.success_wavelengths p
       = map Panel.at_wavelength (filter Panel.succeeded outs)
    /\ ChannelPanel.failed_wavelengths p
       = map Panel.at_wavelength (filter Panel.failed outs)
    /\ ChannelPanel.total_time p
       = Py.sum (map Panel.took (filter Panel.succeeded outs)).
Proof.
  intros params outs p.
  destruct (feed_books outs (ChannelPanel.started params) eq_refl)
    as (H1 & H2 & H3 & H4 & H5 & H6 & _).
  destruct (feed_tally outs (ChannelPanel.started params) eq_refl)
    as (_ & _ & _ & Hd & Hn).
  fold p in H1, H2, H3, H4, H5, H6, Hd, Hn.
  cbn [ChannelPanel.started ChannelPanel.success_count
       ChannelPanel.fail_count ChannelPanel.wavelengths
       ChannelPanel.durations ChannelPanel.success_wavelengths
       ChannelPanel.failed_wavelengths ChannelPanel.total_time app]
    in H1, H2, H3, H4, H5, H6, Hd, Hn.
  repeat split; try assumption; lia.
Qed.

(** X13.  The two labels derived from the counters: "Avg" shows the mean
    duration of the successful attempts alone (0 without a success), and
    "Rate" shows the share of successes in percent: 0 before any attempt,
    and always between 0 and 100. *)
Theorem labels_show_success_mean_and_rate :
  forall (params : TestParameters) (outs : list (bool * Q * Q)),
    let p := ChannelPanel.feed outs (ChannelPanel.started params) in
    let wins := filter Panel.succeeded outs in
    ChannelPanel.avg p
    = (if (Py.len wins =? 0)%Z then 0
       else Py.sum (map Panel.took wins) / inject_Z (Py.len wins))
    /\ Panel.rate p
       = (if (Py.len outs =? 0)%Z then 0
          else inject_Z (Py.len wins) / inject_Z (Py.len outs) * 100)
    /\ 0 <= Panel.rate p /\ Panel.rate p <= 100.
Proof.
  intros params outs p wins.
  destruct (feed_books outs (ChannelPanel.started params) eq_refl)
    as (H1 & H2 & _ & _ & _ & H6 & _).
  destruct (feed_tally outs (ChannelPanel.started params) eq_refl)
    as (_ & _ & _ & _ & Hn).
  fold p in H1, H2, H6, Hn.
  cbn [ChannelPanel.started ChannelPanel.success_count
       ChannelPanel.fail_count ChannelPanel.total_time] in H1, H2, H6, Hn.
  fold wins in H1, H6.
  assert (Hr : Panel.rate p
               = (if (Py.len outs =? 0)%Z then 0
                  else inject_Z (Py.len wins) / inject_Z (Py.len outs) * 100)).
  { unfold Panel.rate. rewrite Hn, H1. reflexivity. }
  split; [|split; [exact Hr|]].
  - unfold ChannelPanel.avg. rewrite H1, H6. reflexivity.
  - rewrite Hr. destruct (Py.len outs =? 0)%Z eqn:Hz; [split; lra|].
    apply Z.eqb_neq in Hz.
    assert (Hw : (0 <= Py.len wins)%Z) by (unfold Py.len; lia).
    assert (Hf : (0 <= Py.len (filter Panel.failed outs))%Z)
      by (unfold Py.len; lia).
    assert (Ho : (0 < Py.len outs)%Z) by (unfold Py.len in *; lia).
    assert (Hle : (Py.len wins <= Py.len outs)%Z) by lia.
    assert (Qo : 0 < inject_Z (Py.len outs)).
    { change 0 with (inject_Z 0). now rewrite <- Zlt_Qlt. }
    assert (Q0 : 0 <= inject_Z (Py.len wins) / inject_Z (Py.len outs)).
    { apply Qle_shift_div_l; [exact Qo|]. rewrite Qmult_0_l.
      change 0 with (inject_Z 0). now rewrite <- Zle_Qle. }
    assert (Q1 : inject_Z (Py.len wins) / inject_Z (Py.len outs) <= 1).
    { apply Qle_shift_div_r; [exact Qo|]. rewrite Qmult_1_l.
      now rewrite <- Zle_Qle. }
    split; lra.
Qed.

(** ** The ETA clock *)

Lemma Qfloor_div_pos (x : Q) (n : positive) :
  Qfloor (x / (Zpos n # 1)) = (Qfloor x / Zpos n)%Z.
Proof.
  destruct x as [a b]. unfold Qfloor, Qdiv, Qmult, Qinv. cbn.
  rewrite Z.mul_1_r, Pos2Z.inj_mul, Z.div_div; lia.
Qed.

Lemma Qfloor_sub_mul (x : Q) (n k : Z) :
  Qfloor (x - (n # 1) * inject_Z k) = (Qfloor x - n * k)%Z.
Proof.
  destruct x as [a b]. unfold Qfloor, Qminus, Qplus, Qopp, Qmult. cbn.
  rewrite Pos.mul_1_r, Z.mul_1_r.
  replace (a + - (n * k) * Zpos b)%Z with (a + (- (n * k)) * Zpos b)%Z by ring.
  rewrite Z.div_add by lia. lia.
Qed.

Lemma fmod_nonneg (x : Q) (n : positive) :
  0 <= ChannelPanel.fmod x (Zpos n # 1).
Proof.
  unfold ChannelPanel.fmod.
  pose proof (Qfloor_le (x / (Zpos n # 1))) as H.
  assert (Hn : 0 < Zpos n # 1) by reflexivity.
  assert (Hm : (Zpos n # 1) * inject_Z (Qfloor (x / (Zpos n # 1)))
               <= (Zpos n # 1) * (x / (Zpos n # 1))).
  { apply Qmult_le_l; assumption. }
  rewrite Qmult_div_r in Hm by discriminate.
  lra.
Qed.

Lemma fmod_floor (x : Q) (n : positive) :
  Qfloor (ChannelPanel.fmod x (Zpos n # 1)) = (Qfloor x mod Zpos n)%Z.
Proof.
  unfold ChannelPanel.fmod. rewrite Qfloor_sub_mul, Qfloor_div_pos.
  rewrite Z.mod_eq by lia. reflexivity.
Qed.

(** X14.  The ETA clock shows the whole seconds of a non-negative estimate:
    below one hour as minutes and seconds, from one hour on as hours,
    minutes and seconds, with minutes and seconds below 60, and the fields
    add up to the estimate rounded down. *)
Theorem eta_clock_shows_whole_seconds :
  forall rem : Q,
    0 <= rem ->
    match ChannelPanel.format_estimate (ChannelPanel.Seconds rem) with
    | ChannelPanel.EtaMinSec m s =>
        rem < 3600
        /\ (0 <= m < 60 /\ 0 <= s < 60 /\ 60 * m + s = Qfloor rem)%Z
    | ChannelPanel.EtaHourMinSec h m s =>
        3600 <= rem
        /\ (1 <= h /\ 0 <= m < 60 /\ 0 <= s < 60
            /\ 3600 * h + 60 * m + s = Qfloor rem)%Z
    | _ => False
    end.
Proof.
  intros rem Hrem.
  assert (H0 : (0 <= Qfloor rem)%Z).
  { change 0%Z with (Qfloor 0). now apply Qfloor_resp_le. }
  assert (Hs : Py.int (ChannelPanel.fmod rem 60) = (Qfloor rem mod 60)%Z).
  { rewrite int_nonneg by apply (fmod_nonneg rem 60).
    apply (fmod_floor rem 60). }
  unfold ChannelPanel.format_estimate.
  destruct (Py.ltb rem 3600) eqn:Hlt.
  - apply ltb_true in Hlt. split; [exact Hlt|].
    unfold ChannelPanel.int_floordiv. rewrite Hs.
    rewrite (Qfloor_div_pos rem 60).
    assert (Hf : (Qfloor rem < 3600)%Z).
    { rewrite Zlt_Qlt. apply Qle_lt_trans with rem; [apply Qfloor_le|].
      exact Hlt. }
    pose proof (Z.mod_pos_bound (Qfloor rem) 60 ltac:(lia)).
    pose proof (Z.div_mod (Qfloor rem) 60 ltac:(lia)).
    assert (0 <= Qfloor rem / 60)%Z by (apply Z.div_pos; lia).
    assert (Qfloor rem / 60 < 60)%Z
      by (apply Z.div_lt_upper_bound; lia).
    repeat split; lia.
  - apply ltb_false in Hlt. split; [exact Hlt|].
    unfold ChannelPanel.int_floordiv. rewrite Hs.
    rewrite (Qfloor_div_pos rem 3600).
    rewrite (Qfloor_div_pos (ChannelPanel.fmod rem 3600) 60).
    rewrite (fmod_floor rem 3600).
    assert (Hf : (3600 <= Qfloor rem)%Z).
    { change 3600%Z with (Qfloor 3600). now apply Qfloor_resp_le. }
    set (F := Qfloor rem) in *.
    pose proof (Z.mod_pos_bound F 3600 ltac:(lia)).
    pose proof (Z.mod_pos_bound F 60 ltac:(lia)).
    pose proof (Z.mod_pos_bound (F mod 3600) 60 ltac:(lia)).
    pose proof (Z.div_mod F 3600 ltac:(lia)).
    pose proof (Z.div_mod (F mod 3600) 60 ltac:(lia)).
    assert (Hmm : ((F mod 3600) mod 60 = F mod 60)%Z).
    { clear. Z.div_mod_to_equations. lia. }
    assert (1 <= F / 3600)%Z by (apply Z.div_le_lower_bound; lia).
    assert (0 <= F mod 3600 / 60)%Z by (apply Z.div_pos; lia).
    assert (F mod 3600 / 60 < 60)%Z by (apply Z.div_lt_upper_bound; lia).
    repeat split; lia.
Qed.

(** X14 on an estimate of one hour, two minutes and 3.5 seconds. *)
Lemma eta_clock_shows_whole_seconds_witness :
  match ChannelPanel.format_estimate (ChannelPanel.Seconds (7447 # 2)) with
  | ChannelPanel.EtaMinSec m s =>
      7447 # 2 < 3600
      /\ (0 <= m < 60 /\ 0 <= s < 60 /\ 60 * m + s = Qfloor (7447 # 2))%Z
  | ChannelPanel.EtaHourMinSec h m s =>
      3600 <= 7447 # 2
      /\ (1 <= h /\ 0 <= m < 60 /\ 0 <= s < 60
          /\ 3600 * h + 60 * m + s = Qfloor (7447 # 2))%Z
  | _ => False
  end.
Proof.
  apply (eta_clock_shows_whole_seconds (7447 # 2)).
  unfold Qle. cbn. lia.
Defined.

Example eta_clock_sample :
  ChannelPanel.format_estimate (ChannelPanel.Seconds (7447 # 2))
  = ChannelPanel.EtaHourMinSec 1 2 3.
Proof. reflexivity. Qed.

(** ** The command log *)

Lemma no_repeat_removelast (log : list Panel.entry) :
  CommandLog.no_repeat log -> CommandLog.no_repeat (removelast log).
Proof.
  induction log as [|a [|b [|c log]] IH]; cbn; try tauto.
  intros [Hab Hrest]. split; [exact Hab|]. apply IH. exact Hrest.
Qed.

Lemma removelast_length {A : Type} (l : list A) :
  List.length (removelast l) = pred (List.length l).
Proof.
  induction l as [|a [|b l] IH]; [reflexivity..|].
  change (removelast (a :: b :: l)) with (a :: removelast (b :: l)).
  cbn [List.length]. rewrite IH. reflexivity.
Qed.

(** One command keeps the log short and free of repeats, and puts the
    command (or the equal entry already there) in front. *)
Lemma log_command_keeps (now : Z) (cmd : TestWorker.command)
    (log : list Panel.entry) :
  (List.length log <= 5)%nat -> CommandLog.no_repeat log ->
  (List.length (Panel.log_command now cmd log) <= 5)%nat
  /\ CommandLog.no_repeat (Panel.log_command now cmd log)
  /\ exists front rest,
       Panel.log_command now cmd log = front :: rest
       /\ (front = (now, cmd) \/ Panel.entry_eqb front (now, cmd) = true).
Proof.
  intros Hlen Hnr. unfold Panel.log_command.
  destruct log as [|first log].
  - cbn. repeat split; [lia|]. exists (now, cmd), []. split; [reflexivity|].
    now left.
  - destruct (Panel.entry_eqb first (now, cmd)) eqn:Heq.
    + repeat split; try assumption. exists first, log. split; [reflexivity|].
      now right.
    + assert (Hnew : CommandLog.no_repeat ((now, cmd) :: first :: log))
        by (split; assumption).
      destruct (5 <? Py.len ((now, cmd) :: first :: log))%Z eqn:Hfull.
      * unfold Panel.pop. split; [|split].
        -- rewrite removelast_length. cbn [List.length] in *. lia.
        -- now apply no_repeat_removelast.
        -- exists (now, cmd), (removelast (first :: log)).
           split; [reflexivity | now left].
      * apply Z.ltb_ge in Hfull. unfold Py.len in Hfull. split; [|split].
        -- apply Nat2Z.inj_le. exact Hfull.
        -- exact Hnew.
        -- exists (now, cmd), (first :: log). split; [reflexivity | now left].
Qed.

(** X15.  The command log of a panel never holds more than five entries
    and never shows the same entry twice in a row, however many commands
    arrive; after any command its newest entry is that command, stamped
    with the second it arrived at. *)
Theorem command_log_stays_short :
  forall (cmds : list Panel.entry),
    (List.length (CommandLog.log_all cmds []) <= 5)%nat
    /\ CommandLog.no_repeat (CommandLog.log_all cmds [])
    /\ (forall (before : list Panel.entry) (now : Z)
               (cmd : TestWorker.command),
          cmds = before ++ [(now, cmd)] ->
          exists front rest,
            CommandLog.log_all cmds [] = front :: rest
            /\ (front = (now, cmd)
                \/ Panel.entry_eqb front (now, cmd) = true)).
Proof.
  assert (Hgen : forall cmds log,
            (List.length log <= 5)%nat -> CommandLog.no_repeat log ->
            (List.length (CommandLog.log_all cmds log) <= 5)%nat
            /\ CommandLog.no_repeat (CommandLog.log_all cmds log)).
  { induction cmds as [|[now cmd] cmds IH]; intros log Hl Hn.
    - now split.
    - cbn [CommandLog.log_all fold_left fst snd].
      destruct (log_command_keeps now cmd log Hl Hn) as (H1 & H2 & _).
      apply (IH _ H1 H2). }
  intros cmds. split; [|split].
  - apply Hgen; cbn; [lia | exact I].
  - apply Hgen; cbn; [lia | exact I].
  - intros before now cmd ->. unfold CommandLog.log_all.
    rewrite fold_left_app. cbn [fold_left fst snd].
    destruct (Hgen before [] ltac:(cbn; lia) I) as [H1 H2].
    destruct (log_command_keeps now cmd _ H1 H2) as (_ & _ & H3).
    exact H3.
Qed.

Example command_log_sample :
  CommandLog.log_all
    [(1, CmdGetStatus); (1, CmdGetStatus); (2, CmdGetStatus);
     (2, CmdPutWavelength 1000); (3, CmdGetStatus); (4, CmdGetStatus);
     (5, CmdGetPower)]%Z []
  = [(5, CmdGetPower); (4, CmdGetStatus); (3, CmdGetStatus);
     (2, CmdPutWavelength 1000); (2, CmdGetStatus)]%Z.
Proof. reflexivity. Qed.

(** ** The panel while the signals of a run arrive *)

Lemma books_on_result (s : bool) (d wl : Q) (a b : ChannelPanel.t) :
  Panel.books a = Panel.books b ->
  Panel.books (ChannelPanel.on_result s d wl a)
  = Panel.books (ChannelPanel.on_result s d wl b).
Proof.
  destruct a, b. unfold Panel.books. cbn. intros H. inversion H. subst.
  unfold ChannelPanel.on_result. cbn.
  match goal with |- context [if ?c then _ else _] => destruct c end;
    reflexivity.
Qed.

Lemma books_counts (a b : ChannelPanel.t) :
  Panel.books a = Panel.books b ->
  ChannelPanel.success_count a = ChannelPanel.success_count b
  /\ ChannelPanel.fail_count a = ChannelPanel.fail_count b
  /\ ChannelPanel.total_cycles a = ChannelPanel.total_cycles b.
Proof.
  intros H. unfold Panel.books in H. inversion H. repeat split; assumption.
Qed.

(** Only [update_status] touches the books of a panel. *)
Lemma deliver_books (measure : bool) (now : Z) (e : event) (p : Panel.t) :
  Panel.books (Panel.stats (Panel.deliver measure now e p))
  = Panel.books
      match e with
      | Emit (update_status s d wl) =>
          ChannelPanel.on_result s d wl (Panel.stats p)
      | _ => Panel.stats p
      end.
Proof.
  destruct e as [sg| |]; try reflexivity.
  destruct sg; try reflexivity; cbn [Panel.deliver];
    unfold Panel.on_progress, Panel.on_worker_finished,
      Panel.on_power_curve_finished, Panel._finalize_complete;
    cbn [Panel.stats];
    destruct (ChannelPanel.aborted (Panel.stats p)) eqn:Ha;
    try reflexivity.
  - destruct measure; reflexivity.
  - destruct (0 <? _)%Z; reflexivity.
Qed.

Lemma deliver_all_books (measure : bool) (times : nat -> Z)
    (l : list event) :
  forall (k : nat) (p : Panel.t) (st : ChannelPanel.t),
    Panel.books st = Panel.books (Panel.stats p) ->
    Panel.books (Panel.stats (Panel.deliver_all measure times l k p))
    = Panel.books (ChannelPanel.feed (announced l) st).
Proof.
  induction l as [|e l IH]; intros k p st H.
  - symmetry. exact H.
  - cbn [Panel.deliver_all].
    pose proof (deliver_books measure (times k) e p) as Hstep.
    destruct e as [sg| |]; [destruct sg| |];
      cbn [announced]; try (apply IH; rewrite Hstep; exact H).
    cbn [ChannelPanel.feed fold_left fst snd].
    fold (ChannelPanel.feed (announced l)
            (ChannelPanel.on_result success duration wl st)).
    apply IH. rewrite Hstep. apply books_on_result. exact H.
Qed.

Lemma deliver_aborted_flag (measure : bool) (now : Z) (e : event)
    (p : Panel.t) :
  ChannelPanel.aborted (Panel.stats (Panel.deliver measure now e p))
  = ChannelPanel.aborted (Panel.stats p).
Proof.
  pose proof (deliver_books measure now e p) as H.
  assert (Hb : forall a b, Panel.books a = Panel.books b ->
                           ChannelPanel.aborted a = ChannelPanel.aborted b).
  { intros a b Hab. unfold Panel.books in Hab. now inversion Hab. }
  rewrite (Hb _ _ H).
  destruct e as [sg| |]; [destruct sg| |]; try reflexivity.
  unfold ChannelPanel.on_result.
  destruct (ChannelPanel.aborted (Panel.stats p)) eqn:Ha; [exact Ha|].
  exact Ha.
Qed.

(** On a panel that was not aborted, the lifecycle attributes and the
    stored power curve move at the two phase-ending signals alone. *)
Lemma deliver_all_lifecycle (measure : bool) (times : nat -> Z)
    (l : list event) :
  forall (k : nat) (p : Panel.t),
    ChannelPanel.aborted (Panel.stats p) = false ->
    Panel.lifecycle (Panel.deliver_all measure times l k p)
    = fold_left (Panel.mark measure) (milestones l) (Panel.lifecycle p)
    /\ Panel.power_curve_data (Panel.deliver_all measure times l k p)
       = fold_left Panel.curve (milestones l) (Panel.power_curve_data p).
Proof.
  induction l as [|e l IH]; intros k p Hp.
  - split; reflexivity.
  - cbn [Panel.deliver_all].
    assert (Hq : ChannelPanel.aborted
                   (Panel.stats (Panel.deliver measure (times k) e p))
                 = false)
      by (rewrite deliver_aborted_flag; exact Hp).
    destruct (IH (S k) _ Hq) as [H1 H2]. rewrite H1, H2. clear IH H1 H2 Hq.
    destruct e as [sg| |]; [destruct sg| |];
      cbn [milestones fold_left Panel.deliver];
      try (split; reflexivity).
    + unfold Panel.on_worker_finished, Panel._finalize_complete.
      rewrite Hp. unfold Panel.mark, Panel.lifecycle.
      destruct measure; split; reflexivity.
    + unfold Panel.on_progress. rewrite Hp.
      destruct (0 <? total)%Z; split; reflexivity.
    + unfold Panel.on_power_curve_finished, Panel._finalize_complete.
      rewrite Hp. cbn [Panel.stats]. rewrite Hp. split; reflexivity.
Qed.

(** What is delivered to an aborted panel changes its command log alone. *)
Lemma deliver_all_aborted (measure : bool) (times : nat -> Z)
    (l : list event) :
  forall (k : nat) (p : Panel.t),
    ChannelPanel.aborted (Panel.stats p) = true ->
    Panel.frozen p (Panel.deliver_all measure times l k p).
Proof.
  induction l as [|e l IH]; intros k p Hp.
  - repeat split.
  - cbn [Panel.deliver_all].
    assert (Hstep : Panel.frozen p (Panel.deliver measure (times k) e p)).
    { destruct e as [sg| |]; [destruct sg| |]; cbn [Panel.deliver];
        unfold Panel.on_result, ChannelPanel.on_result, Panel.on_progress,
          Panel.on_worker_finished, Panel.on_power_curve_finished;
        rewrite ?Hp; repeat split. }
    destruct Hstep as (S1 & S2 & S3 & S4).
    assert (Hq : ChannelPanel.aborted
                   (Panel.stats (Panel.deliver measure (times k) e p))
                 = true) by (rewrite S1; exact Hp).
    destruct (IH (S k) _ Hq) as (T1 & T2 & T3 & T4).
    unfold Panel.frozen.
    rewrite T1, T2, T3, T4, S1, S2, S3, S4. repeat split.
Qed.

(** X16.  After Stop was pressed on a running panel, nothing the worker
    still emits is counted or shown: whatever signals arrive afterwards,
    in any number, the statistics, the status pill (Standby, or Range
    Unknown without a device range), the completion and reset flags, the
    stopped timer, the stored power curve and the progress bar stay as
    Stop left them, and the counters are those from before Stop.  Only the
    command log may still change. *)
Theorem stopped_panel_ignores_late_signals :
  forall (measure : bool) (times : nat -> Z) (l : list event) (k : nat)
         (device_known : bool) (p : Panel.t),
    let stopped := Panel.on_stop true device_known p in
    let later := Panel.deliver_all measure times l k stopped in
    Panel.frozen stopped later
    /\ Panel.lifecycle later
       = (if device_known then Panel.Standby else Panel.RangeUnknown,
          Panel.is_test_completed p, true, false)
    /\ ChannelPanel.success_count (Panel.stats later)
       = ChannelPanel.success_count (Panel.stats p)
    /\ ChannelPanel.fail_count (Panel.stats later)
       = ChannelPanel.fail_count (Panel.stats p)
    /\ ChannelPanel.wavelengths (Panel.stats later)
       = ChannelPanel.wavelengths (Panel.stats p)
    /\ ChannelPanel.latest_eta (Panel.stats later) = ChannelPanel.EtaDash.
Proof.
  intros measure times l k device_known p stopped later.
  assert (Ha : ChannelPanel.aborted (Panel.stats stopped) = true)
    by reflexivity.
  pose proof (deliver_all_aborted measure times l k stopped Ha) as Hf.
  fold later in Hf. split; [exact Hf|].
  destruct Hf as (F1 & F2 & _ & _). rewrite F1, F2.
  repeat split.
Qed.

Example late_result_after_stop :
  let stopped := Panel.on_stop true true Panel.fresh in
  let later :=
    Panel.deliver_all false (fun k => Z.of_nat k)
      [Emit (command_sent CmdGetStatus); Emit (update_status true 2 1000);
       Emit (progress_update 1 3); Emit finished] 0 stopped in
  ChannelPanel.success_count (Panel.stats later) = 0%Z
  /\ Panel.status_text later = Panel.Standby
  /\ Panel.is_test_completed later = false
  /\ Panel.command_log later = [(0%Z, CmdGetStatus)].
Proof. repeat split. Qed.

(** ** A whole run, from Start to the last signal *)

Section HealthyRun.

Variable E : env.
Variable self : TestWorker.t.
Variables lo hi dlo dhi : Q.
Hypothesis Hlo : range_min self = Some lo.
Hypothesis Hhi : range_max self = Some hi.
Hypothesis Hdlo : device_min self = Some dlo.
Hypothesis Hdhi : device_max self = Some dhi.
Hypothesis Hrun : forall n, env_running E n = true.
Hypothesis Hreach : forall n, reachable (env_check E n) = true.

(** A bounded run on a reachable device, never stopped: its signals. *)
Lemma run_bounded_signals (N : Z) (fuel : nat) (w : world) :
  cycles self = Some N -> (0 < N)%Z -> (Z.to_nat N < fuel)%nat ->
  exists w',
    run E self fuel w = (Returned, w')
    /\ List.length (announced (trace w'))
       = (List.length (announced (trace w)) + Z.to_nat N)%nat
    /\ milestones (trace w')
       = milestones (trace w)
         ++ (if measure_power_curve self
             then [CurveDone (power_curve_data w'); Finished]
             else [Finished]).
Proof.
  intros Hcyc HN Hfuel. unfold run. rewrite Hlo, Hhi.
  set (w0 := set_test_results [] (configure_logs w)).
  destruct (run_loop_bounded E self lo hi dlo dhi Hdlo Hdhi Hrun Hreach
              N fuel Hcyc 0%Z w0 ltac:(lia)
              ltac:(rewrite Z.sub_0_r; exact Hfuel))
    as (w1 & Hloop & _ & L2).
  destruct (run_loop_recorded E self dlo dhi Hdlo Hdhi fuel lo hi 0%Z w0)
    as (new & (_ & _ & _ & _ & R5 & _) & _).
  rewrite Hloop in R5 |- *. cbn [fst snd] in R5.
  rewrite Z.sub_0_r in L2.
  change (trace w0) with (trace w) in L2, R5.
  destruct (measure_power_curve self).
  - unfold read_running. rewrite Hrun.
    destruct (measure_power_curve_ledger E self lo hi dlo dhi Hlo Hhi
                Hdlo Hdhi (next_running w1))
      as (w2 & wls & k & _ & Hmp & _ & _ & M3 & _ & _ & _ & _ & M9).
    rewrite Hmp. eexists. split; [reflexivity|].
    cbn [emit record trace power_curve_data].
    rewrite announced_app, milestones_app. cbn [announced milestones].
    rewrite app_nil_r, M3, M9. cbn [next_running trace].
    rewrite R5, <- app_assoc. split; [exact L2 | reflexivity].
  - eexists. split; [reflexivity|].
    cbn [emit record trace]. rewrite announced_app, milestones_app.
    cbn [announced milestones]. rewrite app_nil_r, R5.
    split; [exact L2 | reflexivity].
Qed.

End HealthyRun.

(** [on_start] leaves the cycles, the wait and the power-curve flag of the
    parameters alone. *)
Lemma on_start_params_keeps (params : TestParameters) (dlo dhi : Q) :
  param_cycles (Ranges.on_start_params params dlo dhi) = param_cycles params
  /\ param_measure_power_curve (Ranges.on_start_params params dlo dhi)
     = param_measure_power_curve params
  /\ param_wait_time (Ranges.on_start_params params dlo dhi)
     = param_wait_time params.
Proof.
  unfold Ranges.on_start_params.
  destruct (test_min params), (test_max params);
    try (repeat split; reflexivity).
  destruct (Py.geb _ _); repeat split; reflexivity.
Qed.

(** A start on an idle panel with a known device range: the worker it
    creates and what the panel shows before the first signal. *)
Lemma on_start_arms (ch : Z) (params : TestParameters) (dlo dhi : Q)
    (p : Panel.t) :
  let started := Panel.on_start false ch params (Some dlo, Some dhi) p in
  snd started
  = Some (init ch (Ranges.on_start_params params dlo dhi)
            (Some dlo, Some dhi))
  /\ ChannelPanel.aborted (Panel.stats (fst started)) = false
  /\ ChannelPanel.success_count (Panel.stats (fst started)) = 0%Z
  /\ ChannelPanel.fail_count (Panel.stats (fst started)) = 0%Z
  /\ ChannelPanel.total_cycles (Panel.stats (fst started))
     = ChannelPanel.start_cycles (param_cycles params)
  /\ ChannelPanel.elapsed_seconds (Panel.stats (fst started)) = 0%Z
  /\ Panel.status_text (fst started) = Panel.Running
  /\ Panel.needs_reset_next_start (fst started) = false
  /\ Panel.timer_active (fst started) = true.
Proof.
  destruct (on_start_params_keeps params dlo dhi) as (K1 & _ & _).
  unfold Panel.on_start. cbv zeta.
  cbn [fst snd Panel.stats Panel.status_text Panel.needs_reset_next_start
       Panel.timer_active Panel.armed ChannelPanel.aborted
       ChannelPanel.success_count ChannelPanel.fail_count
       ChannelPanel.total_cycles ChannelPanel.elapsed_seconds].
  rewrite K1.
  split; [reflexivity|]. split; [reflexivity|].
  assert (Hc : forall b : bool,
             (b = false ->
              ChannelPanel.success_count (Panel.stats p) = 0%Z
              /\ ChannelPanel.fail_count (Panel.stats p) = 0%Z) ->
             ChannelPanel.success_count
               (Panel.stats (if b then Panel._clear_statistics p else p))
             = 0%Z
             /\ ChannelPanel.fail_count
                  (Panel.stats (if b then Panel._clear_statistics p else p))
                = 0%Z).
  { intros [|] Hb; [split; reflexivity | apply Hb; reflexivity]. }
  destruct (Hc (Panel.needs_reset_next_start p
                || negb (ChannelPanel.success_count (Panel.stats p) =? 0)%Z
                || negb (ChannelPanel.fail_count (Panel.stats p) =? 0)%Z))
    as [C1 C2].
  { intros Hb. apply orb_false_iff in Hb. destruct Hb as [Hb Hf].
    apply orb_false_iff in Hb. destruct Hb as [_ Hs].
    apply negb_false_iff in Hs, Hf. apply Z.eqb_eq in Hs, Hf.
    split; assumption. }
  repeat split; assumption.
Qed.

(** X17.  A whole bounded run, from the Start button to the last signal:
    on an idle panel with a known device range, against a device that
    answers every reachability check, with no stop request and [N > 0]
    cycles, the worker that Start creates returns, and once all its
    signals are delivered in order the panel has counted exactly [N]
    attempts, is marked completed, will reset at the next start and has
    stopped its timer.  Without a power curve the status pill reads
    Completed and the stored curve is the one from before; with a power
    curve the pill reads Power Curve, since the [finished] signal arrives
    after [power_curve_finished], and the panel holds the samples the
    worker measured. *)
Theorem bounded_run_completes_on_the_panel :
  forall (E : env) (ch : Z) (params : TestParameters) (dlo dhi : Q)
         (fuel : nat) (t0 : Q) (times : nat -> Z) (p0 : Panel.t) (N : Z),
    (forall n, env_running E n = true) ->
    (forall n, reachable (env_check E n) = true) ->
    param_cycles params = Some N -> (0 < N)%Z -> (Z.to_nat N < fuel)%nat ->
    let started := Panel.on_start false ch params (Some dlo, Some dhi) p0 in
    exists (self : TestWorker.t) (w' : world),
      snd started = Some self
      /\ run E self fuel (boot t0) = (Returned, w')
      /\ let p := Panel.deliver_all (param_measure_power_curve params) times
                    (trace w') 0 (fst started) in
         (ChannelPanel.success_count (Panel.stats p)
          + ChannelPanel.fail_count (Panel.stats p))%Z = N
         /\ ChannelPanel.total_cycles (Panel.stats p) = Some N
         /\ Panel.is_test_completed p = true
         /\ Panel.needs_reset_next_start p = true
         /\ Panel.timer_active p = false
         /\ Panel.status_text p
            = (if param_measure_power_curve params then Panel.PowerCurve
               else Panel.Completed)
         /\ Panel.power_curve_data p
            = (if param_measure_power_curve params then power_curve_data w'
               else Panel.power_curve_data (fst started)).
Proof.
  intros E ch params dlo dhi fuel t0 times p0 N Hrun Hreach HN Hpos Hfuel
         started.
  destruct (on_start_params_keeps params dlo dhi) as (K1 & K2 & _).
  destruct (on_start_arms ch params dlo dhi p0)
    as (A1 & A2 & A3 & A4 & A5 & _ & A7 & A8 & A9).
  fold started in A1, A2, A3, A4, A5, A7, A8, A9.
  set (params' := Ranges.on_start_params params dlo dhi) in *.
  set (self := init ch params' (Some dlo, Some dhi)) in *.
  destruct (init_known ch params' dlo dhi) as (lo & hi & Hlo & Hhi).
  fold self in Hlo, Hhi.
  assert (Hcyc : cycles self = Some N).
  { unfold self. cbn [init cycles]. rewrite K1, HN. cbn [init_cycles].
    now replace (N <=? 0)%Z with false by (symmetry; apply Z.leb_gt; lia). }
  assert (Hmeas : measure_power_curve self = param_measure_power_curve params)
    by exact K2.
  destruct (run_bounded_signals E self lo hi dlo dhi Hlo Hhi eq_refl eq_refl
              Hrun Hreach N fuel (boot t0) Hcyc Hpos Hfuel)
    as (w' & Hr & La & Hm).
  cbn [boot trace announced milestones List.length app Nat.add] in La, Hm.
  rewrite Hmeas in Hm.
  exists self, w'. split; [exact A1|]. split; [exact Hr|].
  intros p.
  pose proof (deliver_all_books (param_measure_power_curve params) times
                (trace w') 0 (fst started) (Panel.stats (fst started))
                eq_refl) as Hb.
  fold p in Hb.
  destruct (feed_tally (announced (trace w')) (Panel.stats (fst started)) A2)
    as (_ & T2 & _ & _ & T5).
  destruct (deliver_all_lifecycle (param_measure_power_curve params) times
              (trace w') 0 (fst started) A2) as [Hl Hc].
  fold p in Hl, Hc. rewrite Hm in Hl, Hc.
  destruct (books_counts _ _ Hb) as (B2 & B3 & B9). clear Hb.
  split; [|split].
  - rewrite B2, B3, T5, A3, A4. unfold Py.len. rewrite La. lia.
  - rewrite B9, T2, A5, HN. unfold ChannelPanel.start_cycles.
    replace (N =? 0)%Z with false by (symmetry; apply Z.eqb_neq; lia).
    now replace (0 <? N)%Z with true by (symmetry; apply Z.ltb_lt; lia).
  - unfold Panel.lifecycle in Hl.
    destruct (param_measure_power_curve params);
      cbn [fold_left Panel.mark Panel.curve] in Hl, Hc;
      inversion Hl; repeat split; assumption.
Qed.

Lemma bounded_run_completes_on_the_panel_witness :
  let started :=
    Panel.on_start false 1 Scenario.three_cycles (Some 1000, Some 1100)
      Panel.fresh in
  exists (self : TestWorker.t) (w' : world),
    snd started = Some self
    /\ run Scenario.prompt self 4 (boot 0) = (Returned, w')
    /\ let p := Panel.deliver_all
                  (param_measure_power_curve Scenario.three_cycles)
                  (fun k => Z.of_nat k) (trace w') 0 (fst started) in
       (ChannelPanel.success_count (Panel.stats p)
        + ChannelPanel.fail_count (Panel.stats p))%Z = 3%Z
       /\ ChannelPanel.total_cycles (Panel.stats p) = Some 3%Z
       /\ Panel.is_test_completed p = true
       /\ Panel.needs_reset_next_start p = true
       /\ Panel.timer_active p = false
       /\ Panel.status_text p
          = (if param_measure_power_curve Scenario.three_cycles
             then Panel.PowerCurve else Panel.Completed)
       /\ Panel.power_curve_data p
          = (if param_measure_power_curve Scenario.three_cycles
             then power_curve_data w'
             else Panel.power_curve_data (fst started)).
Proof.
  apply (bounded_run_completes_on_the_panel Scenario.prompt 1
           Scenario.three_cycles 1000 1100 4 0 (fun k => Z.of_nat k)
           Panel.fresh 3%Z).
  - intros n. reflexivity.
  - intros n. reflexivity.
  - reflexivity.
  - lia.
  - cbn. lia.
Defined.

Example curve_run_ends_as_power_curve :
  let started :=
    Panel.on_start false 1 Scenario.with_curve (Some 1000, Some 1100)
      Panel.fresh in
  let w' := snd (run Scenario.prompt
                   (init 1 Scenario.with_curve (Some 1000, Some 1100)) 2
                   (boot 0)) in
  let p := Panel.deliver_all true (fun k => Z.of_nat k) (trace w') 0
             (fst started) in
  Panel.status_text p = Panel.PowerCurve
  /\ Panel.is_test_completed p = true
  /\ map sample_wavelength (Panel.power_curve_data p)
     = [1000; 1010; 1020; 1025]
  /\ ChannelPanel.success_count (Panel.stats p) = 1%Z.
Proof. vm_compute. repeat split. Qed.

(** ** Starting again *)

(** X18.  A start that follows a stop or a completed run begins from
    nothing: pressing Start on an idle panel with a known device range,
    after Stop was pressed on a running panel or after the panel finalised
    a run, creates a worker and leaves no count, duration, wavelength,
    power-curve sample or command-log entry of the earlier run; the panel
    is Running, no longer aborted, not marked completed, its timer runs
    from zero, and it will not reset again on its own. *)
Theorem restart_begins_clean :
  forall (ch : Z) (params : TestParameters) (dlo dhi : Q)
         (device_known : bool) (earlier p : Panel.t),
    p = Panel.on_stop true device_known earlier
    \/ (ChannelPanel.aborted (Panel.stats earlier) = false
        /\ p = Panel._finalize_complete earlier) ->
    let again := Panel.on_start false ch params (Some dlo, Some dhi) p in
    Panel.clean (fst again)
    /\ Panel.lifecycle (fst again) = (Panel.Running, false, false, true)
    /\ snd again
       = Some (init ch (Ranges.on_start_params params dlo dhi)
                 (Some dlo, Some dhi)).
Proof.
  intros ch params dlo dhi device_known earlier p Hp again.
  assert (Hreset : Panel.needs_reset_next_start p = true).
  { destruct Hp as [-> | [Ha ->]]; [reflexivity|].
    unfold Panel._finalize_complete. rewrite Ha. reflexivity. }
  unfold again, Panel.on_start. rewrite Hreset.
  cbn [orb fst snd]. repeat split.
Qed.

Lemma restart_begins_clean_witness :
  let again :=
    Panel.on_start false 1 Scenario.three_cycles (Some 1000, Some 1100)
      (Panel.on_stop true true Panel.fresh) in
  Panel.clean (fst again)
  /\ Panel.lifecycle (fst again) = (Panel.Running, false, false, true)
  /\ snd again
     = Some (init 1 (Ranges.on_start_params Scenario.three_cycles 1000 1100)
               (Some 1000, Some 1100)).
Proof.
  apply (restart_begins_clean 1 Scenario.three_cycles 1000 1100 true
           Panel.fresh (Panel.on_stop true true Panel.fresh)).
  left. reflexivity.
Defined.

(** * The configuration *)







Example loaded_zones_sample :
  Config.load_zones
    (Config.ZoneList
       [Some (Config.Value 700, Config.Value 750);
        Some (Config.Value 900, Config.Value 850);
        Some (Config.Value 950, Config.Unreadable);
        Some (Config.Missing, Config.Value 1200)])
  = Some [(700, 750); (8001 # 10, 960); (940, 1100); (11001 # 10, 1200)].
Proof. reflexivity. Qed.


(** ** The application list and its default *)







Example apply_apps_sample :
  Config.apply_apps
    [("a.exe"%string, true); (EmptyString, true); ("b.exe"%string, true);
     ("c.exe"%string, false)]
  = (["a.exe"%string; "b.exe"%string; "c.exe"%string], 1%Z).
Proof. reflexivity. Qed.

Lemma pop_at_spec {A : Type} (l : list A) :
  forall idx,
    (idx < List.length l)%nat ->
    exists r,
      Config.pop_at idx l = Some r
      /\ List.length l = S (List.length r)
      /\ (forall j, (j < idx)%nat -> nth_error r j = nth_error l j)
      /\ (forall j, (idx <= j)%nat -> nth_error r j = nth_error l (S j)).
Proof.
  induction l as [|x l IH]; intros idx Hlt; [cbn in Hlt; lia|].
  destruct idx as [|i].
  - exists l. split; [reflexivity|]. split; [reflexivity|]. split.
    + intros j Hj. lia.
    + intros j _. reflexivity.
  - cbn in Hlt. destruct (IH i ltac:(lia)) as (r & Hr & L & N1 & N2).
    exists (x :: r). cbn [Config.pop_at]. rewrite Hr.
    split; [reflexivity|]. split; [cbn; now rewrite L|]. split.
    + intros [|j] Hj; [reflexivity|]. cbn. apply N1. lia.
    + intros [|j] Hj; [lia|]. cbn. apply N2. lia.
Qed.

(** X22.  Removing an application keeps the default usable and pointing at
    the same application.  For an index that is [-1] or points into the
    list, and a row [idx] of the list, the Remove button leaves a list one
    shorter and an index that is again [-1] or points into it; the default
    application is the one it was, unless it was the removed one, in which
    case there is no default any more. *)
Theorem remove_keeps_the_default_app :
  forall (A : Type) (idx : nat) (apps : list A) (default : Z),
    Config.selects apps default ->
    (idx < List.length apps)%nat ->
    exists apps' default',
      Config.remove idx apps default = Some (apps', default')
      /\ List.length apps = S (List.length apps')
      /\ Config.selects apps' default'
      /\ Config.chosen apps' default'
         = (if (default =? Z.of_nat idx)%Z then None
            else Config.chosen apps default).
Proof.
  intros A idx apps d Hs Hlt.
  destruct (pop_at_spec apps idx Hlt) as (r & Hr & L & N1 & N2).
  unfold Config.remove. rewrite Hr. eexists _, _. split; [reflexivity|].
  split; [exact L|].
  unfold Config.selects, Py.len, Config.chosen in *. rewrite L in Hs.
  destruct (d =? Z.of_nat idx)%Z eqn:E1.
  - split; [lia | reflexivity].
  - apply Z.eqb_neq in E1.
    destruct (Z.of_nat idx <? d)%Z eqn:E2.
    + apply Z.ltb_lt in E2. split; [lia|].
      replace (d - 1 <? 0)%Z with false by (symmetry; apply Z.ltb_ge; lia).
      replace (d <? 0)%Z with false by (symmetry; apply Z.ltb_ge; lia).
      rewrite N2 by lia. f_equal. lia.
    + apply Z.ltb_ge in E2. split; [lia|].
      destruct (d <? 0)%Z eqn:E3; [reflexivity|].
      apply Z.ltb_ge in E3. apply N1. lia.
Qed.

Lemma remove_keeps_the_default_app_witness :
  exists apps' default',
    Config.remove 0 ["a.exe"%string; "b.exe"%string] 1 = Some (apps', default')
    /\ List.length ["a.exe"%string; "b.exe"%string] = S (List.length apps')
    /\ Config.selects apps' default'
    /\ Config.chosen apps' default'
       = (if (1 =? Z.of_nat 0)%Z then None
          else Config.chosen ["a.exe"%string; "b.exe"%string] 1).
Proof.
  apply (remove_keeps_the_default_app string 0
           ["a.exe"%string; "b.exe"%string] 1%Z).
  - unfold Config.selects, Py.len. cbn. lia.
  - cbn. lia.
Defined.

(** * The wavelength map *)

Lemma qeqb_left (k wl x : Q) :
  Qeq_bool k wl = true -> Qeq_bool k x = Qeq_bool wl x.
Proof.
  intros H. apply Qeq_bool_iff in H.
  destruct (Qeq_bool k x) eqn:E1, (Qeq_bool wl x) eqn:E2; try reflexivity.
  - apply Qeq_bool_iff in E1. apply Qeq_bool_neq in E2.
    elim E2. now rewrite <- H.
  - apply Qeq_bool_iff in E2. apply Qeq_bool_neq in E1.
    elim E1. now rewrite H.
Qed.

Lemma qeqb_apart (k wl x : Q) :
  Qeq_bool k wl = false -> Qeq_bool k x = true -> Qeq_bool wl x = false.
Proof.
  intros H1 H2. apply Qeq_bool_neq in H1. apply Qeq_bool_iff in H2.
  destruct (Qeq_bool wl x) eqn:E; [|reflexivity].
  apply Qeq_bool_iff in E. elim H1. now rewrite H2, E.
Qed.

(** Reading the map after an assignment. *)
Lemma lookup_set_item (wl x : Q) (s : bool) (d : WavelengthMap.data) :
  WavelengthMap.lookup x (WavelengthMap.set_item wl s d)
  = if Qeq_bool wl x then Some s else WavelengthMap.lookup x d.
Proof.
  induction d as [|[k v] d IH]; [reflexivity|].
  cbn [WavelengthMap.set_item WavelengthMap.lookup].
  destruct (Qeq_bool k wl) eqn:E1; cbn [WavelengthMap.lookup].
  - rewrite (qeqb_left k wl x E1). now destruct (Qeq_bool wl x).
  - destruct (Qeq_bool k x) eqn:E2.
    + now rewrite (qeqb_apart k wl x E1 E2).
    + exact IH.
Qed.

Lemma set_item_distinct (wl : Q) (s : bool) (d : WavelengthMap.data) :
  WavelengthMap.distinct d ->
  WavelengthMap.distinct (WavelengthMap.set_item wl s d).
Proof.
  induction d as [|[k v] d IH]; intros Hd.
  - cbn. now split.
  - destruct Hd as [Hk Hd]. cbn [WavelengthMap.set_item].
    destruct (Qeq_bool k wl) eqn:E1.
    + split; assumption.
    + split; [|now apply IH]. rewrite lookup_set_item.
      destruct (Qeq_bool wl k) eqn:E2; [|exact Hk].
      apply Qeq_bool_iff in E2. apply Qeq_bool_neq in E1.
      elim E1. now symmetry.
Qed.

Lemma set_item_length (wl : Q) (s : bool) (d : WavelengthMap.data) :
  (List.length (WavelengthMap.set_item wl s d) <= S (List.length d))%nat.
Proof.
  induction d as [|[k v] d IH]; [cbn; lia|].
  cbn [WavelengthMap.set_item]. destruct (Qeq_bool k wl); cbn; lia.
Qed.

Lemma tested_snoc (outs : list (Q * bool)) (o : Q * bool)
    (d : WavelengthMap.data) :
  WavelengthMap.tested (outs ++ [o]) d
  = WavelengthMap.set_item (fst o) (snd o) (WavelengthMap.tested outs d).
Proof. unfold WavelengthMap.tested. now rewrite fold_left_app. Qed.

Lemma latest_snoc (wl : Q) (outs : list (Q * bool)) (o : Q * bool) :
  WavelengthMap.latest wl (outs ++ [o])
  = if Qeq_bool (fst o) wl then Some (snd o)
    else WavelengthMap.latest wl outs.
Proof.
  unfold WavelengthMap.latest. rewrite rev_unit. cbn [find].
  now destruct (Qeq_bool (fst o) wl).
Qed.

Lemma share_bounds (a b : Z) :
  (0 <= a <= b)%Z -> (0 < b)%Z ->
  0 <= inject_Z a / inject_Z b * 100 /\ inject_Z a / inject_Z b * 100 <= 100.
Proof.
  intros [Ha Hab] Hb.
  assert (Qb : 0 < inject_Z b).
  { change 0 with (inject_Z 0). now rewrite <- Zlt_Qlt. }
  assert (Q0 : 0 <= inject_Z a / inject_Z b).
  { apply Qle_shift_div_l; [exact Qb|]. rewrite Qmult_0_l.
    change 0 with (inject_Z 0). now rewrite <- Zle_Qle. }
  assert (Q1 : inject_Z a / inject_Z b <= 1).
  { apply Qle_shift_div_r; [exact Qb|]. rewrite Qmult_1_l.
    now rewrite <- Zle_Qle. }
  split; lra.
Qed.

(** X23.  The wavelength map keeps one entry per wavelength, with the
    status of the latest result there.  After any stream of results
    (from either channel) on an empty map, no wavelength is a key twice,
    looking a wavelength up gives the status of the last result at that
    wavelength and nothing for a wavelength never tested, the map has at
    most as many entries as there were results, and its success rate lies
    between 0 and 100. *)
Theorem map_keeps_the_latest_status :
  forall outs : list (Q * bool),
    let d := WavelengthMap.tested outs [] in
    WavelengthMap.distinct d
    /\ (forall wl, WavelengthMap.lookup wl d = WavelengthMap.latest wl outs)
    /\ (List.length d <= List.length outs)%nat
    /\ 0 <= WavelengthMap.rate d /\ WavelengthMap.rate d <= 100.
Proof.
  intros outs d.
  assert (H : WavelengthMap.distinct d
              /\ (forall wl, WavelengthMap.lookup wl d
                             = WavelengthMap.latest wl outs)
              /\ (List.length d <= List.length outs)%nat).
  { unfold d. clear d. induction outs as [|o outs IH] using rev_ind.
    - cbn. repeat split. lia.
    - destruct IH as (I1 & I2 & I3). rewrite tested_snoc. split; [|split].
      + now apply set_item_distinct.
      + intros wl. rewrite lookup_set_item, latest_snoc, I2. reflexivity.
      + rewrite length_app. cbn [List.length].
        pose proof (set_item_length (fst o) (snd o)
                      (WavelengthMap.tested outs [])). lia. }
  destruct H as (H1 & H2 & H3).
  split; [exact H1|]. split; [exact H2|]. split; [exact H3|].
  unfold WavelengthMap.rate. cbv zeta.
  destruct (Py.len d =? 0)%Z eqn:E; [split; lra|].
  apply Z.eqb_neq in E. apply share_bounds.
  - unfold Py.len. pose proof (filter_length_le snd d). lia.
  - unfold Py.len in *. lia.
Qed.

(** The map counts wavelengths, the panel counts attempts: a failure
    followed by a success at the same wavelength is a rate of 100 on the
    map and of 50 on the panel. *)
Example map_rate_is_per_wavelength :
  WavelengthMap.rate
    (WavelengthMap.tested [(1000, false); (1000, true)] []) == 100
  /\ Panel.rate
       (ChannelPanel.feed [(false, 2, 1000); (true, 2, 1000)]
          (ChannelPanel.started Scenario.three_cycles)) == 50.
Proof. split; reflexivity. Qed.

Lemma min_of_le (l : list Q) :
  forall x,
    WavelengthMap.min_of x l <= x
    /\ forall y, In y l -> WavelengthMap.min_of x l <= y.
Proof.
  induction l as [|a l IH]; intros x.
  - split; [apply Qle_refl | intros y []].
  - unfold WavelengthMap.min_of. cbn [fold_left].
    fold (WavelengthMap.min_of (Py.min x a) l).
    destruct (IH (Py.min x a)) as [I1 I2].
    pose proof (min_le_l x a). pose proof (min_le_r x a).
    split; [lra|]. intros y [<- | Hy]; [lra | now apply I2].
Qed.

Lemma max_of_ge (l : list Q) :
  forall x,
    x <= WavelengthMap.max_of x l
    /\ forall y, In y l -> y <= WavelengthMap.max_of x l.
Proof.
  induction l as [|a l IH]; intros x.
  - split; [apply Qle_refl | intros y []].
  - unfold WavelengthMap.max_of. cbn [fold_left].
    fold (WavelengthMap.max_of (Py.max x a) l).
    destruct (IH (Py.max x a)) as [I1 I2].
    pose proof (max_ge_l x a). pose proof (max_ge_r x a).
    split; [lra|]. intros y [<- | Hy]; [lra | now apply I2].
Qed.

Lemma enabled_zones_proper (zones : list WavelengthMap.zone) :
  Forall WavelengthMap.proper zones ->
  Forall WavelengthMap.proper (WavelengthMap.enabled_zones zones).
Proof.
  intros H. apply Forall_forall. intros z Hz.
  unfold WavelengthMap.enabled_zones in Hz. apply filter_In in Hz.
  destruct Hz as [Hz _]. rewrite Forall_forall in H. apply H.
  rewrite <- (firstn_skipn 4 zones). apply in_or_app. now left.
Qed.

(** The span of the enabled zones is an interval that holds each of
    them. *)
Lemma zone_span_frames (zones : list WavelengthMap.zone) :
  Forall WavelengthMap.proper zones ->
  fst (WavelengthMap.zone_span zones) <= snd (WavelengthMap.zone_span zones)
  /\ forall z, In z (WavelengthMap.enabled_zones zones) ->
       fst (WavelengthMap.zone_span zones) <= WavelengthMap.zone_min z
       /\ WavelengthMap.zone_max z <= snd (WavelengthMap.zone_span zones).
Proof.
  intros H. apply enabled_zones_proper in H. unfold WavelengthMap.zone_span.
  destruct (WavelengthMap.enabled_zones zones) as [|z0 zs].
  - cbn [fst snd]. split; [lra | intros z []].
  - cbn [fst snd].
    destruct (min_of_le (map WavelengthMap.zone_min zs)
                (WavelengthMap.zone_min z0)) as [m1 m2].
    destruct (max_of_ge (map WavelengthMap.zone_max zs)
                (WavelengthMap.zone_max z0)) as [M1 M2].
    rewrite Forall_forall in H.
    pose proof (H z0 (or_introl eq_refl)) as P0.
    unfold WavelengthMap.proper in P0.
    split; [lra|]. intros z [<- | Hz]; [split; lra|]. split.
    + apply m2. now apply in_map.
    + apply M2. now apply in_map.
Qed.

(** What is displayed is an interval that holds every tested wavelength
    and, when the zones are shown, every enabled zone. *)
Lemma display_frames (show_zones : bool)
    (zones : list WavelengthMap.zone) (d : WavelengthMap.data) :
  Forall WavelengthMap.proper zones ->
  fst (WavelengthMap.display show_zones zones d)
  <= snd (WavelengthMap.display show_zones zones d)
  /\ (forall k v, In (k, v) d ->
        fst (WavelengthMap.display show_zones zones d) <= k
        /\ k <= snd (WavelengthMap.display show_zones zones d))
  /\ (show_zones = true ->
      forall z, In z (WavelengthMap.enabled_zones zones) ->
        fst (WavelengthMap.display show_zones zones d)
        <= WavelengthMap.zone_min z
        /\ WavelengthMap.zone_max z
           <= snd (WavelengthMap.display show_zones zones d)).
Proof.
  intros H. destruct (zone_span_frames zones H) as [Z1 Z2].
  unfold WavelengthMap.display.
  destruct (WavelengthMap.zone_span zones) as [zmin zmax].
  cbn [fst snd] in Z1, Z2.
  assert (Hin : forall k v, In (k, v) d -> In k (map fst d)).
  { intros k v Hk. now apply (in_map fst d (k, v)). }
  destruct (map fst d) as [|k0 ks].
  - destruct show_zones; cbn [fst snd].
    + split; [exact Z1|]. split; [intros k v Hk; elim (Hin k v Hk)|].
      intros _. exact Z2.
    + split; [lra|]. split; [intros k v Hk; elim (Hin k v Hk)|].
      intros E. discriminate E.
  - destruct (min_of_le ks k0) as [m1 m2].
    destruct (max_of_ge ks k0) as [M1 M2].
    assert (Hk : forall k v, In (k, v) d ->
                   WavelengthMap.min_of k0 ks <= k
                   /\ k <= WavelengthMap.max_of k0 ks).
    { intros k v Hkv. destruct (Hin k v Hkv) as [<- | Hks]; [split; lra|].
      split; [now apply m2 | now apply M2]. }
    destruct show_zones; cbn [fst snd].
    + pose proof (min_le_l (WavelengthMap.min_of k0 ks) zmin).
      pose proof (min_le_r (WavelengthMap.min_of k0 ks) zmin).
      pose proof (max_ge_l (WavelengthMap.max_of k0 ks) zmax).
      pose proof (max_ge_r (WavelengthMap.max_of k0 ks) zmax).
      split; [lra|]. split.
      * intros k v Hkv. destruct (Hk k v Hkv). split; lra.
      * intros _ z Hz. destruct (Z2 z Hz). split; lra.
    + split; [lra|]. split; [exact Hk|]. intros E. discriminate E.
Qed.

(** X24.  The x axis of the wavelength map frames everything that is
    drawn.  When every configured zone has [min < max] (which is what the
    loader and the settings dialog store), the limits handed to the plot
    are at least 20 nm apart, every tested wavelength lies at least 10 nm
    inside them, and so does every enabled zone when the zones are
    shown. *)
Theorem map_axis_frames_what_is_drawn :
  forall (show_zones : bool) (zones : list WavelengthMap.zone)
         (d : WavelengthMap.data),
    Forall WavelengthMap.proper zones ->
    let lim := WavelengthMap.x_limits show_zones zones d in
    fst lim + 20 <= snd lim
    /\ (forall k v, In (k, v) d -> fst lim + 10 <= k /\ k + 10 <= snd lim)
    /\ (show_zones = true ->
        forall z, In z (WavelengthMap.enabled_zones zones) ->
          fst lim + 10 <= WavelengthMap.zone_min z
          /\ WavelengthMap.zone_max z + 10 <= snd lim).
Proof.
  intros show_zones zones d H lim.
  destruct (display_frames show_zones zones d H) as (D1 & D2 & D3).
  unfold lim, WavelengthMap.x_limits.
  destruct (WavelengthMap.display show_zones zones d) as [xmin xmax].
  cbn [fst snd] in *.
  assert (Hp : 10 <= WavelengthMap.pad xmin xmax)
    by (unfold WavelengthMap.pad; apply max_ge_r).
  split; [lra|]. split.
  - intros k v Hk. destruct (D2 k v Hk). split; lra.
  - intros E z Hz. destruct (D3 E z Hz). split; lra.
Qed.

Lemma map_axis_frames_what_is_drawn_witness :
  let zones := [{| WavelengthMap.enabled := true;
                   WavelengthMap.zone_min := 670;
                   WavelengthMap.zone_max := 800 |}] in
  let d := [(700, true)] in
  let lim := WavelengthMap.x_limits true zones d in
  fst lim + 20 <= snd lim
  /\ (forall k v, In (k, v) d -> fst lim + 10 <= k /\ k + 10 <= snd lim)
  /\ (true = true ->
      forall z, In z (WavelengthMap.enabled_zones zones) ->
        fst lim + 10 <= WavelengthMap.zone_min z
        /\ WavelengthMap.zone_max z + 10 <= snd lim).
Proof.
  apply (map_axis_frames_what_is_drawn true
           [{| WavelengthMap.enabled := true;
               WavelengthMap.zone_min := 670;
               WavelengthMap.zone_max := 800 |}] [(700, true)]).
  repeat constructor.
Defined.

(** A zone stored with its bounds the wrong way round would turn the axis
    round: the hypothesis is needed. *)
Example inverted_zone_inverts_axis :
  let lim :=
    WavelengthMap.x_limits true
      [{| WavelengthMap.enabled := true; WavelengthMap.zone_min := 1000;
          WavelengthMap.zone_max := 0 |}] [] in
  snd lim < fst lim.
Proof. reflexivity. Qed.
